(** * Vertigo middleware: metadata codec, trigger registry and proxy dispatch

  A shallow embedding of
  - [vertigo_middleware/common/utils.py]  (metadata codec, trigger registry,
    link creation) and
  - [vertigo_middleware/handlers/proxy.py] (proxy request handlers),
  followed by the properties established about them.

  Python values are modelled as follows: a [str] used as data read from or
  written to an extended attribute is a [list byte]; a [str] used as a name
  (attribute key, header, trigger, handler, path) is a [string]; a [dict] is
  a [gmap]; an [int] is a [Z] or, for a loop counter that only counts up
  from zero, a [nat]. Exceptions are explicit outcomes. *)

From Stdlib Require Import ZArith List Lia Strings.Byte Strings.Ascii Strings.String.
From stdpp Require Import base tactics option list gmap strings pretty countable.

Abbreviation bytes := (list byte).

(** ** Python runtime fragments *)
Module Py.

(** The exceptions the modelled code raises or lets through. *)
Inductive exn : Type :=
| IOError (errno : Z)
| OSError (errno : Z)
| DiskFileXattrNotSupported
| DiskFileNotExist
| DiskFileNoSpace
| UnpicklingError
| KeyError (key : string)
| TypeError
| AttributeError
| UnboundLocalError
| ValueError (msg : string).

(** What running a piece of Python yields: a value, an exception, or no
    answer within the iterations the model grants a loop. *)
Inductive outcome (A : Type) : Type :=
| Ok (a : A)
| Raise (e : exn)
| Diverge.
Global Arguments Ok {A} a.
Global Arguments Raise {A} e.
Global Arguments Diverge {A}.

(** [errno] constants (Linux values; there [ENOTSUP] and [EOPNOTSUPP] are
    the same number and both names exist in the [errno] module). *)
Definition ENOENT : Z := 2.
Definition ENOSPC : Z := 28.
Definition ENODATA : Z := 61.
Definition ENOTSUP : Z := 95.
Definition EOPNOTSUPP : Z := 95.
Definition EDQUOT : Z := 122.

(** [s[:k]] and [s[k:]] for an arbitrary integer [k]: a negative index
    counts from the end and is clamped at the start of the string. *)
Definition slice_to {A} (s : list A) (k : Z) : list A :=
  if (0 <=? k)%Z then take (Z.to_nat k) s
  else take (Z.to_nat (Z.of_nat (length s) + k)) s.

Definition slice_from {A} (s : list A) (k : Z) : list A :=
  if (0 <=? k)%Z then drop (Z.to_nat k) s
  else drop (Z.to_nat (Z.of_nat (length s) + k)) s.

(** Truth value of a string or list: empty is false. *)
Definition truthy_list {A} (l : list A) : bool :=
  match l with [] => false | _ => true end.

Definition truthy_str (s : string) : bool :=
  match s with EmptyString => false | _ => true end.

(** [key or ''] followed by ['%s' %]: zero prints as the empty string. *)
Definition str_or_empty (key : nat) : string :=
  match key with O => "" | S _ => pretty key end.

End Py.
Import Py.

(** ** Extended attributes of an open data file

  [xattrs] is what the file holds. The two fault tables say which attribute
  names the file system refuses to read or to write, and with which
  [errno]: they stand for the environment (an unsupported file system, a
  full disk, a vanished file). *)
Module Xattr.

Record xfile : Type := XFile {
  xattrs : gmap string bytes;
  get_faults : gmap string Z;
  set_faults : gmap string Z
}.

Definition with_xattrs (fd : xfile) (m : gmap string bytes) : xfile :=
  {| xattrs := m; get_faults := get_faults fd; set_faults := set_faults fd |}.

(** [xattr.getxattr(fd, name)]: a missing attribute is [IOError(ENODATA)]. *)
Definition getxattr (fd : xfile) (name : string) : outcome bytes :=
  match get_faults fd !! name with
  | Some e => Raise (IOError e)
  | None =>
      match xattrs fd !! name with
      | Some v => Ok v
      | None => Raise (IOError ENODATA)
      end
  end.

(** [xattr.setxattr(fd, name, value)]: creates or overwrites. *)
Definition setxattr (fd : xfile) (name : string) (value : bytes)
  : outcome unit * xfile :=
  match set_faults fd !! name with
  | Some e => (Raise (IOError e), fd)
  | None => (Ok tt, with_xattrs fd (<[name := value]> (xattrs fd)))
  end.

(** A file whose attribute store answers every call. *)
Definition healthy (fd : xfile) : Prop :=
  get_faults fd = ∅ ∧ set_faults fd = ∅.

Definition fresh_file : xfile :=
  {| xattrs := ∅; get_faults := ∅; set_faults := ∅ |}.

End Xattr.
Import Xattr.

(** ** utils.py: constants *)

Definition PICKLE_PROTOCOL : Z := 2.
Definition VERTIGO_METADATA_KEY : string := "user.swift.microcontroller".
Definition SYSMETA_HEADER : string := "X-Object-Sysmeta-Vertigo-".
Definition VERTIGO_MC_HEADER : string := SYSMETA_HEADER +:+ "Microcontroller".
Definition SWIFT_METADATA_KEY : string := "user.swift.metadata".

(** ** utils.py: the chunked metadata codec

  [pickle] is a library the code calls; it is taken as a pair of functions
  on an arbitrary type [M] of metadata values. [pickle_loads] answers [None]
  where [pickle.loads] raises. *)
Module Codec.
Section Codec.

Context {M : Type}.
Variable pickle_dumps : M → bytes.
Variable pickle_loads : bytes → option M.

(** ['%s%s' % (meta_key, key or '')] *)
Definition slot_name (meta_key : string) (key : nat) : string :=
  meta_key +:+ str_or_empty key.

(** [if md_key: meta_key = md_key else: meta_key = VERTIGO_METADATA_KEY] *)
Definition choose_key (md_key : option string) : string :=
  match md_key with
  | Some k => if truthy_str k then k else VERTIGO_METADATA_KEY
  | None => VERTIGO_METADATA_KEY
  end.

(** The [except (IOError, OSError) as e] clause of [read_metadata], followed
    by the final [return pickle.loads(metadata)]. [Ok None] is the Python
    value [False]. *)
Definition read_except (metadata : bytes) (e : Z) : outcome (option M) :=
  if negb (truthy_list metadata) then Ok None
  else if ((e =? ENOTSUP) || (e =? EOPNOTSUPP))%Z then Raise DiskFileXattrNotSupported
  else if (e =? ENOENT)%Z then Raise DiskFileNotExist
  else match pickle_loads metadata with
       | Some m => Ok (Some m)
       | None => Raise UnpicklingError
       end.

(** The [while True] loop of [read_metadata]; [fuel] bounds the number of
    [getxattr] calls. *)
Fixpoint read_loop (fuel : nat) (fd : xfile) (meta_key : string)
    (metadata : bytes) (key : nat) : outcome (option M) :=
  match fuel with
  | O => Diverge
  | S fuel' =>
      match getxattr fd (slot_name meta_key key) with
      | Ok chunk => read_loop fuel' fd meta_key (metadata ++ chunk) (S key)
      | Raise (IOError e) => read_except metadata e
      | Raise e => Raise e
      | Diverge => Diverge
      end
  end.

(** [read_metadata(fd, md_key=None)]. The attribute names the loop asks for
    are pairwise distinct, so it stops after at most one call more than the
    file has attributes ([read_metadata_terminates] below). *)
Definition read_metadata (fd : xfile) (md_key : option string)
  : outcome (option M) :=
  read_loop (S (size (xattrs fd))) fd (choose_key md_key) [] 0.

(** The [except IOError as e] clause of [write_metadata]. *)
Definition write_except (e : Z) : exn :=
  if ((e =? ENOTSUP) || (e =? EOPNOTSUPP))%Z then DiskFileXattrNotSupported
  else if ((e =? ENOSPC) || (e =? EDQUOT))%Z then DiskFileNoSpace
  else IOError e.

(** The [while metastr] loop of [write_metadata]. *)
Fixpoint write_loop (fuel : nat) (fd : xfile) (meta_key : string)
    (xattr_size : Z) (metastr : bytes) (key : nat) : outcome unit * xfile :=
  if negb (truthy_list metastr) then (Ok tt, fd)
  else
    match fuel with
    | O => (Diverge, fd)
    | S fuel' =>
        match setxattr fd (slot_name meta_key key) (slice_to metastr xattr_size) with
        | (Ok _, fd') =>
            write_loop fuel' fd' meta_key xattr_size
                       (slice_from metastr xattr_size) (S key)
        | (Raise (IOError e), fd') => (Raise (write_except e), fd')
        | (Raise e, fd') => (Raise e, fd')
        | (Diverge, fd') => (Diverge, fd')
        end
    end.

(** [write_metadata(fd, metadata, xattr_size=65536, md_key=None)]. With a
    positive [xattr_size] every iteration shortens [metastr], so
    [length metastr] iterations are enough; with [xattr_size <= 0] the
    Python loop never empties [metastr]. *)
Definition write_metadata (fd : xfile) (metadata : M) (xattr_size : Z)
    (md_key : option string) : outcome unit * xfile :=
  let metastr := pickle_dumps metadata in
  write_loop (length metastr) fd (choose_key md_key) xattr_size metastr 0.

Definition default_xattr_size : Z := 65536.

End Codec.
End Codec.

(** ** Python string helpers used by the registry and the proxy *)
Module PyStr.

Definition nl : string := String (ascii_of_nat 10) "".

(** Characters [str.rstrip()] removes: space, tab, newline, vertical tab,
    form feed, carriage return. *)
Definition is_space (c : ascii) : bool :=
  let n := nat_of_ascii c in
  (Nat.eqb n 32 || (Nat.leb 9 n && Nat.leb n 13))%bool.

(** [s.rstrip()] *)
Fixpoint rstrip (s : string) : string :=
  match s with
  | EmptyString => EmptyString
  | String c s' =>
      match rstrip s' with
      | EmptyString => if is_space c then EmptyString else String c EmptyString
      | r => String c r
      end
  end.

(** [s.startswith(p)] *)
Definition startswith (s p : string) : bool := String.prefix p s.

(** [s.endswith(p)] *)
Definition endswith (s p : string) : bool :=
  String.prefix (String.rev p) (String.rev s).

(** [s.split(sep)] for a one-character separator: never the empty list. *)
Fixpoint split_on (sep : ascii) (s : string) : list string :=
  match s with
  | EmptyString => [EmptyString]
  | String c s' =>
      let r := split_on sep s' in
      if Ascii.eqb c sep then EmptyString :: r
      else match r with
           | x :: xs => String c x :: xs
           | [] => [String c EmptyString]
           end
  end.

(** The text before the last [sep], when there is one. *)
Fixpoint before_last (sep : ascii) (s : string) : option string :=
  match s with
  | EmptyString => None
  | String c s' =>
      match before_last sep s' with
      | Some r => Some (String c r)
      | None => if Ascii.eqb c sep then Some EmptyString else None
      end
  end.

(** [s.rsplit(sep, 1)[0]] *)
Definition rsplit1_head (sep : ascii) (s : string) : string :=
  default s (before_last sep s).

(** [sep in s] for a one-character [sep]. *)
Fixpoint contains_char (sep : ascii) (s : string) : bool :=
  match s with
  | EmptyString => false
  | String c s' => (Ascii.eqb c sep || contains_char sep s')%bool
  end.

(** [os.path.join(a, b)] (posixpath). *)
Definition path_join (a b : string) : string :=
  if startswith b "/" then b
  else if (negb (truthy_str a) || endswith a "/")%bool then a +:+ b
  else a +:+ "/" +:+ b.

(** [s.replace(pat, '')]: the occurrences of [pat] are found from left to
    right and do not overlap; [skip] counts the characters of an
    occurrence still to be dropped. *)
Fixpoint remove_all_go (pat : string) (skip : nat) (s : string) : string :=
  match s with
  | EmptyString => EmptyString
  | String c s' =>
      match skip with
      | S k => remove_all_go pat k s'
      | O =>
          if (truthy_str pat && String.prefix pat s)%bool
          then remove_all_go pat (String.length pat - 1) s'
          else String c (remove_all_go pat 0 s')
      end
  end.

Definition remove_all (pat s : string) : string := remove_all_go pat 0 s.

(** [l.remove(x)] on a list that contains [x]: drops the first occurrence. *)
Fixpoint list_remove_first (x : string) (l : list string) : list string :=
  match l with
  | [] => []
  | y :: l' => if bool_decide (x = y) then l' else y :: list_remove_first x l'
  end.

End PyStr.
Import PyStr.

(** ** utils.py: the trigger registry *)
Module Registry.

(** The trigger dictionary: trigger name to [None] or a list of
    microcontroller names. *)
Abbreviation mc_dict := (gmap string (option (list string))).

(** Values of the object metadata dictionary: strings, or the trigger
    dictionary stored under [VERTIGO_MC_HEADER]. *)
Inductive md_value : Type :=
| VStr (s : string)
| VDict (d : mc_dict).

Abbreviation metadata := (gmap string md_value).

(** The module-level dictionary [DEFAULT_MD_STRING] as the module is
    loaded. *)
Definition DEFAULT_MD_STRING_initial : mc_dict :=
  {[ "onget" := None; "onput" := None; "ondelete" := None; "ontimer" := None ]}.

(** What the code shares between calls: the module-level dictionary
    [DEFAULT_MD_STRING] (a mutable object) and the data files on disk. *)
Record world : Type := World {
  DEFAULT_MD_STRING : mc_dict;
  files : gmap string xfile
}.

(** What the functions use of the handler [vertigo]: the body of its
    request and the data file [get_data_file(vertigo)] resolves to. *)
Record vertigo : Type := Vertigo {
  request_body : string;
  data_file : string
}.

Definition with_default (w : world) (d : mc_dict) : world :=
  {| DEFAULT_MD_STRING := d; files := files w |}.

Definition with_file (w : world) (path : string) (fd : xfile) : world :=
  {| DEFAULT_MD_STRING := DEFAULT_MD_STRING w; files := <[path := fd]> (files w) |}.

(** Truth value of a trigger's entry: [None] and [[]] are false. *)
Definition truthy_entry (e : option (list string)) : bool :=
  match e with Some (_ :: _) => true | _ => false end.

(** Truth value of what [get_microcontroller_dict] returns: [None] and the
    empty dictionary are false. *)
Definition truthy_dict (d : option mc_dict) : bool :=
  match d with Some m => negb (bool_decide (m = ∅)) | None => false end.

Definition msg_get_dict : string :=
  "Vertigo - ERROR: There was an error getting trigger dictionary from the object." +:+ nl.
Definition msg_set_dict : string :=
  "Vertigo - ERROR: There was an error setting trigger dictionary from the object." +:+ nl.
Definition msg_get_md : string :=
  "Vertigo - ERROR: There was an error getting trigger metadata from the object." +:+ nl.
Definition msg_not_assigned (trigger mc : string) : string :=
  "Vertigo - Error: Microcontroller " +:+ String (ascii_of_nat 34) mc +:+
  String (ascii_of_nat 34) " not assigned to the " +:+
  String (ascii_of_nat 34) trigger +:+ String (ascii_of_nat 34) " trigger." +:+ nl.

Definition sysmeta_key (trigger mc : string) : string :=
  SYSMETA_HEADER +:+ trigger +:+ "-" +:+ mc.

Section Registry.

Variable pickle_dumps : metadata → bytes.
Variable pickle_loads : bytes → option metadata.
(** [eval] of a stored string; [None] where it raises or yields something
    that is not a trigger dictionary. *)
Variable py_eval : string → option mc_dict.

(** [get_swift_metadata(data_file)]: [os.open] fails on a missing file. *)
Definition get_swift_metadata (w : world) (path : string)
  : outcome (option metadata) :=
  match files w !! path with
  | None => Raise (OSError ENOENT)
  | Some fd => Codec.read_metadata pickle_loads fd (Some SWIFT_METADATA_KEY)
  end.

(** [set_swift_metadata(data_file, metadata)] *)
Definition set_swift_metadata (w : world) (path : string) (md : metadata)
  : outcome unit * world :=
  match files w !! path with
  | None => (Raise (OSError ENOENT), w)
  | Some fd =>
      let '(r, fd') :=
        Codec.write_metadata pickle_dumps fd md Codec.default_xattr_size
                             (Some SWIFT_METADATA_KEY) in
      (r, with_file w path fd')
  end.

(** [get_microcontroller_dict(vertigo)]; [Ok None] is Python's [None]. When
    no metadata is stored [read_metadata] answers [False], and
    [VERTIGO_MC_HEADER in False] is a [TypeError]. *)
Definition get_microcontroller_dict (w : world) (v : vertigo)
  : outcome (option mc_dict) :=
  match get_swift_metadata w (data_file v) with
  | Ok (Some md) =>
      match md !! VERTIGO_MC_HEADER with
      | Some (VDict d) => Ok (Some d)
      | Some (VStr s) =>
          match py_eval s with
          | Some d => Ok (Some d)
          | None => Raise TypeError
          end
      | None => Ok None
      end
  | Ok None => Raise TypeError
  | Raise e => Raise e
  | Diverge => Diverge
  end.

(** [set_microcontroller(vertigo, trigger, mc)].

    [mc_dict = DEFAULT_MD_STRING] binds the module-level dictionary itself:
    the two updates that follow are then made to that shared object
    ([shared] below), whatever the third step does. *)
Definition set_microcontroller (w : world) (v : vertigo) (trigger mc : string)
  : outcome unit * world :=
  match get_microcontroller_dict w v with
  | Diverge => (Diverge, w)
  | Raise _ => (Raise (ValueError msg_get_dict), w)
  | Ok got =>
      let shared := negb (truthy_dict got) in
      let mc_dict0 := if shared then DEFAULT_MD_STRING w else default ∅ got in
      match mc_dict0 !! trigger with
      | None => (Raise (KeyError trigger), w)
      | Some entry =>
          let l0 := if truthy_entry entry then default [] entry else [] in
          let l1 := if bool_decide (mc ∈ l0) then l0 else l0 ++ [mc] in
          let mc_dict1 := <[trigger := Some l1]> mc_dict0 in
          let w1 := if shared then with_default w mc_dict1 else w in
          let specific_md := rstrip (request_body v) in
          match get_swift_metadata w1 (data_file v) with
          | Ok (Some md) =>
              let md1 := <[VERTIGO_MC_HEADER := VDict mc_dict1]> md in
              let md2 :=
                if truthy_str specific_md
                then <[sysmeta_key trigger mc := VStr specific_md]> md1
                else delete (sysmeta_key trigger mc) md1 in
              match set_swift_metadata w1 (data_file v) md2 with
              | (Ok _, w2) => (Ok tt, w2)
              | (Raise _, w2) => (Raise (ValueError msg_set_dict), w2)
              | (Diverge, w2) => (Diverge, w2)
              end
          | Ok None | Raise _ => (Raise (ValueError msg_set_dict), w1)
          | Diverge => (Diverge, w1)
          end
      end
  end.

(** [clean_microcontroller_dict(metadata)] *)
Definition clean_microcontroller_dict (md : metadata) : outcome metadata :=
  match md !! VERTIGO_MC_HEADER with
  | None => Raise (KeyError VERTIGO_MC_HEADER)
  | Some (VStr _) => Raise AttributeError
  | Some (VDict d) =>
      let d' := (λ e, if truthy_entry e then e else None) <$> d in
      if bool_decide (map_Forall (λ _ e, e = None) d')
      then Ok (delete VERTIGO_MC_HEADER md)
      else Ok (<[VERTIGO_MC_HEADER := VDict d']> md)
  end.

(** The loop [for mc_k in mc_list] of [delete_microcontroller]. *)
Definition delete_sysmeta_keys (trigger : string) (mc_list : list string)
    (md : metadata) : metadata :=
  foldl (λ acc mc_k, delete (sysmeta_key trigger mc_k) acc) md mc_list.

(** The statements of the second [try] block of [delete_microcontroller]
    that come before [set_swift_metadata]: the metadata to persist, or the
    exception that sends control to the [except] clause. A bare [raise]
    with no active exception is a [TypeError]. *)
Definition delete_mutation (got : option metadata) (trigger mc : string)
  : outcome metadata :=
  if (bool_decide (trigger = "vertigo") && bool_decide (mc = "all"))%bool then
    match got with
    | None => Raise AttributeError
    | Some md => Ok (filter (λ kv, startswith kv.1 SYSMETA_HEADER = false) md)
    end
  else
    match got with
    | None => Raise TypeError
    | Some md =>
        match md !! VERTIGO_MC_HEADER with
        | None => Raise (KeyError VERTIGO_MC_HEADER)
        | Some (VStr s) => Raise TypeError
        | Some (VDict d) =>
            if bool_decide (d = ∅) then Raise TypeError
            else
              match d !! trigger with
              | None => Raise (KeyError trigger)
              | Some entry =>
                  if bool_decide (mc = "all") then
                    match entry with
                    | None => Raise TypeError
                    | Some mc_list =>
                        let md1 := <[VERTIGO_MC_HEADER := VDict (<[trigger := None]> d)]> md in
                        clean_microcontroller_dict (delete_sysmeta_keys trigger mc_list md1)
                    end
                  else
                    match entry with
                    | None => Raise TypeError
                    | Some l =>
                        if bool_decide (mc ∈ l) then
                          let d1 := <[trigger := Some (list_remove_first mc l)]> d in
                          let md1 := <[VERTIGO_MC_HEADER := VDict d1]> md in
                          clean_microcontroller_dict (delete (sysmeta_key trigger mc) md1)
                        else Raise TypeError
                    end
              end
        end
    end.

(** [delete_microcontroller(vertigo, trigger, mc)] *)
Definition delete_microcontroller (w : world) (v : vertigo) (trigger mc : string)
  : outcome unit * world :=
  match get_swift_metadata w (data_file v) with
  | Diverge => (Diverge, w)
  | Raise _ => (Raise (ValueError msg_get_md), w)
  | Ok got =>
      match delete_mutation got trigger mc with
      | Ok md' =>
          match set_swift_metadata w (data_file v) md' with
          | (Ok _, w') => (Ok tt, w')
          | (Raise _, w') => (Raise (ValueError (msg_not_assigned trigger mc)), w')
          | (Diverge, w') => (Diverge, w')
          end
      | Raise _ => (Raise (ValueError (msg_not_assigned trigger mc)), w)
      | Diverge => (Diverge, w)
      end
  end.

End Registry.
End Registry.

(** ** handlers/proxy.py and the request helpers of utils.py *)
Module Proxy.

Record request : Type := Request {
  req_method : string;
  req_path : string;                   (* PATH_INFO *)
  req_query : string;                  (* QUERY_STRING *)
  req_headers : gmap string string;
  req_body : string
}.

(** The headers of a response are a swob [HeaderKeyDict]: it brings every
    name it stores or looks up to one capitalisation ([key.title()]), and
    [d[name]] for a name it does not hold is [None], not a [KeyError]. A
    header name is written here in that capitalisation (['etag'] is
    [Etag]), and a lookup is the [option] the map gives. *)
Record response : Type := Response {
  status_int : Z;
  resp_headers : gmap string string;
  resp_body : string
}.

Definition default_content_type : string := "text/html; charset=UTF-8".

(** [swob.Response(body=..., headers=...)]. No status is passed, so the
    response has swob's default status, 200; the constructor starts from
    the default [Content-Type], setting the body sets [Content-Length] to
    its length, and the headers passed are then written over these. (At
    the places where the code builds a response, the headers passed
    have no [Content-Length] or the length of the body.) *)
Definition new_response (body : string) (headers : gmap string string) : response :=
  {| status_int := 200%Z;
     resp_headers :=
       headers ∪ {[ "Content-Type" := default_content_type;
                    "Content-Length" := pretty (String.length body) ]};
     resp_body := body |}.

(** [response.is_success] *)
Definition is_success (r : response) : bool :=
  ((200 <=? status_int r)%Z && (status_int r <=? 299)%Z)%bool.

(** The handler object [self]. The four [is_...] flags,
    [get_mc_assignation_data] and [is_account_storlet_enabled] belong to
    [VertigoBaseHandler]; their values are taken as given. *)
Record handler : Type := Handler {
  api_version : string;
  account : string;
  container : string;
  obj : string;
  request_ : request;
  mc_container : string;
  memcache : gmap string string;
  is_trigger_assignation : bool;
  is_trigger_deletion : bool;
  is_object_grouping : bool;
  is_object_move : bool;
  mc_assignation_data : string * string;
  account_storlet_enabled : bool
}.

Definition with_request (h : handler) (r : request) : handler :=
  {| api_version := api_version h; account := account h;
     container := container h; obj := obj h; request_ := r;
     mc_container := mc_container h; memcache := memcache h;
     is_trigger_assignation := is_trigger_assignation h;
     is_trigger_deletion := is_trigger_deletion h;
     is_object_grouping := is_object_grouping h;
     is_object_move := is_object_move h;
     mc_assignation_data := mc_assignation_data h;
     account_storlet_enabled := account_storlet_enabled h |}.

Definition set_method (r : request) (m : string) : request :=
  {| req_method := m; req_path := req_path r; req_query := req_query r;
     req_headers := req_headers r; req_body := req_body r |}.
Definition set_path (r : request) (p : string) : request :=
  {| req_method := req_method r; req_path := p; req_query := req_query r;
     req_headers := req_headers r; req_body := req_body r |}.
Definition set_headers (r : request) (hs : gmap string string) : request :=
  {| req_method := req_method r; req_path := req_path r; req_query := req_query r;
     req_headers := hs; req_body := req_body r |}.
Definition set_body (r : request) (b : string) : request :=
  {| req_method := req_method r; req_path := req_path r; req_query := req_query r;
     req_headers := req_headers r; req_body := b |}.

(** The marker the handlers test for, and the one [create_link] writes. *)
Definition link_content_type : string := "vertigo/link".
Definition create_link_content_type : string := "Vertigo-Link".
Definition link_to_header : string := "X-Object-Sysmeta-Vertigo-Link-To".

Definition msg_move_same : string :=
  "Vertigo - Error: Link path and destination pathare the same." +:+ nl.
Definition msg_put_same : string :=
  "Vertigo - Error: Link path and destination path cannot be the same." +:+ nl.

(** [os.path.join('/', a, b, ...)] *)
Definition join_all (parts : list string) : string :=
  foldl path_join "/" parts.

Section Proxy.

(** The rest of the WSGI pipeline, [self.app]: a state and what it answers
    to a request. *)
Variable backend : Type.
Variable app : backend → request → response * backend.
(** [pickle.loads] of a cache entry: its ["Headers"] and ["Body"]. *)
Variable loads_cached : string → option (gmap string string * string).

(** The pipeline behind the handler and the requests sent into it so far,
    oldest first. *)
Record pstate : Type := PState {
  backend_state : backend;
  issued : list request
}.

Definition PM (A : Type) : Type := pstate → outcome A * pstate.

Definition ret {A} (a : A) : PM A := λ s, (Ok a, s).
Definition throw {A} (e : exn) : PM A := λ s, (Raise e, s).
Definition bind {A B} (m : PM A) (k : A → PM B) : PM B :=
  λ s, match m s with
       | (Ok a, s') => k a s'
       | (Raise e, s') => (Raise e, s')
       | (Diverge, s') => (Diverge, s')
       end.

Notation "'let*' x ':=' m 'in' k" := (bind m (λ x, k))
  (at level 10, x name, m at level 100, k at level 200).

(** [self.apply_storlet_on_get(response, json.loads(storlet_list))] on the
    raw header value: [json.loads] and the method of the base handler,
    which may raise and may send requests of its own. *)
Variable apply_storlet_on_get : response → string → PM response.

(** [self.request.headers[key]]: the headers of a request raise [KeyError]
    for a name that is not there. *)
Definition header (hs : gmap string string) (key : string) : PM string :=
  match hs !! key with
  | Some v => ret v
  | None => throw (KeyError key)
  end.

(** [req.get_response(self.app)] *)
Definition get_response (req : request) : PM response :=
  λ s, let '(r, b) := app (backend_state s) req in
       (Ok r, {| backend_state := b; issued := issued s ++ [req] |}).

(** [make_subrequest(new_env, method, path, headers=..., swift_source=...)]:
    method, path and headers are the ones given, the query string is the
    environment's, there is no body. *)
Definition make_subrequest (env_query : string) (method path : string)
    (headers : gmap string string) : request :=
  {| req_method := method; req_path := path; req_query := env_query;
     req_headers := headers; req_body := "" |}.

(** [{'X-Auth-Token': self.request.headers.get('X-Auth-Token')}]: a header
    set to [None] is not sent. *)
Definition auth_headers (h : handler) : gmap string string :=
  match req_headers (request_ h) !! "X-Auth-Token" with
  | Some t => {[ "X-Auth-Token" := t ]}
  | None => ∅
  end.

(** utils.py [verify_access(vertigo, path)]: [inl tt] is [False], [inr]
    the headers of the response. *)
Definition verify_access (h : handler) (path : string)
  : PM (unit + gmap string string) :=
  let* resp := get_response (make_subrequest (req_query (request_ h)) "HEAD" path (auth_headers h)) in
  if is_success resp then ret (inr (resp_headers resp)) else ret (inl tt).

(** utils.py [create_link(vertigo, link_path, dest_path)] *)
Definition create_link (h : handler) (link_path dest_path : string) : PM response :=
  get_response
    (make_subrequest (req_query (request_ h)) "PUT" link_path
       (<[ "Content-Length" := "0" ]>
        (<[ "Content-Type" := create_link_content_type ]>
         (<[ link_to_header := dest_path ]> (auth_headers h))))).

(** [_is_object_in_cache] followed by [_get_cached_object]: [None] on a
    miss. The cached headers get a content length recomputed from the
    body. *)
Definition _get_cached_object (h : handler) (obj : string) : PM (option response) :=
  match memcache h !! obj with
  | None => ret None
  | Some cached =>
      match loads_cached cached with
      | None => throw UnpicklingError
      | Some (hs, body) =>
          ret (Some (new_response body
                       (<[ "Content-Length" := pretty (String.length body) ]> hs)))
      end
  end.

(** [_verify_access(cont, obj)]. What [verify_access] returns is [False] or
    a header dictionary; neither has the attribute [is_success] the method
    reads next. *)
Definition _verify_access (h : handler) (cont obj : string) : PM response :=
  let* _ := verify_access h (join_all [api_version h; account h; cont; obj]) in
  throw AttributeError.

(** [_get_object_list(path)] *)
Definition _get_object_list (h : handler) (path : string) : PM (list string) :=
  let dest_path := join_all [api_version h; account h; container h] in
  let '(obj_list, query) :=
    if bool_decide (path = "*") then ([""], req_query (request_ h))
    else ([], "prefix=" +:+ rsplit1_head "/" (obj h) +:+ "/") in
  let* resp := get_response (make_subrequest query "GET" dest_path (auth_headers h)) in
  ret (obj_list ++ filter (λ o, o ≠ "") (split_on (ascii_of_nat 10) (resp_body resp))).

(** The object-list step of
    [_process_trigger_assignation_deletion_request]:
    [if '*' in self.obj: ... else: obj_list.append(self.obj)]. *)
Definition expand_object_list (h : handler) : PM (list string) :=
  if contains_char "*" (obj h) then _get_object_list h (obj h)
  else ret [obj h].

(** [_get_linked_object(dest_obj)] *)
Definition _get_linked_object (h : handler) (req : request) (dest_obj : string)
  : PM response :=
  get_response (make_subrequest (req_query req) "GET"
                  (join_all [api_version h; account h; dest_obj])
                  (req_headers req)).

(** [_check_microcntroller_execution(obj)]: the request, with [mc-enabled]
    (as a header name, [Mc-Enabled]) switched off when a microcontroller
    presents its token. *)
Definition _check_microcntroller_execution (h : handler) (obj : string) : PM request :=
  let req := request_ h in
  let* user_agent := header (req_headers req) "User-Agent" in
  if bool_decide (user_agent = "vertigo/microcontroller") then
    let* req_token := header (req_headers req) "X-Vertigo-Token" in
    let key := "VERTIGO_TOKEN_" +:+ default "" (head (split_on "-" req_token))
               +:+ "_" +:+ obj in
    if bool_decide (memcache h !! key = Some req_token)
    then ret (set_headers req (<[ "Mc-Enabled" := "False" ]> (req_headers req)))
    else ret req
  else ret req.

(** [GET]. A response marked as a link that names no destination makes
    [os.path.join(self.account, None)] raise an [AttributeError]. *)
Definition GET (h : handler) : PM response :=
  let obj0 := path_join (path_join (account h) (container h)) (obj h) in
  let* req := _check_microcntroller_execution h obj0 in
  let* cached := _get_cached_object h obj0 in
  let* response0 := match cached with
                    | Some r => ret r
                    | None => get_response req
                    end in
  let* response1 :=
    (if bool_decide (resp_headers response0 !! "Content-Type" = Some link_content_type)
     then
       match resp_headers response0 !! link_to_header with
       | None => throw AttributeError
       | Some dest_obj =>
           let* cached' := _get_cached_object h (path_join (account h) dest_obj) in
           match cached' with
           | Some r => ret r
           | None => _get_linked_object h req dest_obj
           end
       end
     else ret response0) in
  let* response2 :=
    match resp_headers response1 !! "Storlet-List" with
    | Some storlet_list =>
        if account_storlet_enabled h then
          apply_storlet_on_get
            {| status_int := status_int response1;
               resp_headers := delete "Storlet-List" (resp_headers response1);
               resp_body := resp_body response1 |} storlet_list
        else ret response1
    | None => ret response1
    end in
  match resp_headers response2 !! "Content-Length" with
  | Some _ => ret response2
  | None =>
      ret {| status_int := status_int response2;
             resp_headers := delete "Transfer-Encoding" (resp_headers response2);
             resp_body := resp_body response2 |}
  end.

(** [MOVE] *)
Definition MOVE (h : handler) : PM response :=
  let link_path := path_join (container h) (obj h) in
  let* dest_path := header (req_headers (request_ h)) "Destination" in
  if bool_decide (link_path ≠ dest_path) then
    let* response := _verify_access h (container h) (obj h) in
    let* response' :=
      (if bool_decide (is_Some (resp_headers response !! link_to_header))
       then ret response
       else
         if bool_decide (resp_headers response !! "Content-Type" ≠ Some link_content_type)
         then get_response (set_method (request_ h) "COPY")
         else ret response) in
    if is_success response' then create_link h link_path dest_path
    else ret response'
  else ret (new_response msg_move_same {[ "Etag" := "" ]}).

(** The branch [elif self.is_object_move] of [PUT] (the method itself is
    below). [create_link] is called there with four arguments and takes
    three: a [TypeError]. *)
Definition PUT_object_move (h : handler) : PM response :=
  let link_path := path_join (container h) (obj h) in
  let* dest_path := header (req_headers (request_ h)) "X-Vertigo-Link-To" in
  if bool_decide (link_path ≠ dest_path) then
    let* response := _verify_access h (container h) (obj h) in
    let* response' :=
      (if bool_decide (is_Some (resp_headers response !! link_to_header))
       then ret response
       else
         if bool_decide (resp_headers response !! "Content-Type" ≠ Some link_content_type)
         then get_response
                (set_headers (set_method (request_ h) "COPY")
                   (<[ "Destination" := dest_path ]> (req_headers (request_ h))))
         else ret response) in
    if is_success response' then throw TypeError
    else ret response'
  else ret (new_response msg_put_same {[ "Etag" := "" ]}).

(** [_augment_empty_request()] *)
Definition _augment_empty_request (req : request) : request :=
  match req_headers req !! "Content-Length" with
  | Some _ => req
  | None => set_body (set_headers req (<[ "Content-Length" := "0" ]> (req_headers req))) ""
  end.

(** The loop [for obj in obj_list] of
    [_process_trigger_assignation_deletion_request] and the [return
    response] after it; [last] is the response bound so far. Unpacking
    [link.split('/', 2)] into two names needs exactly one slash. *)
Fixpoint process_objects (h : handler) (specific_md : string) (req : request)
    (obj_list : list string) (last : option response) : PM response :=
  match obj_list with
  | [] =>
      match last with
      | Some r => ret r
      | None => throw UnboundLocalError
      end
  | o :: rest =>
      let req1 := set_body req specific_md in
      let* response := _verify_access (with_request h req1) (container h) o in
      let* new_path :=
        (if bool_decide (resp_headers response !! "Content-Type" = Some link_content_type)
         then
           match resp_headers response !! link_to_header with
           | None => throw AttributeError
           | Some link =>
               match split_on "/" link with
               | [container'; obj'] =>
                   let* _ := _verify_access (with_request h req1) container' obj' in
                   ret (join_all [api_version h; account h; container'; obj'])
               | _ => throw (ValueError "need more than 1 value to unpack")
               end
           end
         else ret (join_all [api_version h; account h; container h; o])) in
      let req2 := _augment_empty_request (set_path req1 new_path) in
      let* response' := get_response req2 in
      process_objects h specific_md req2 rest (Some response')
  end.

(** [_process_trigger_assignation_deletion_request()] *)
Definition _process_trigger_assignation_deletion_request (h : handler) : PM response :=
  let req := set_method (request_ h) "PUT" in
  let h' := with_request h req in
  let* _ := (if is_trigger_assignation h
             then let* r := _verify_access h' (mc_container h) (snd (mc_assignation_data h)) in
                  ret tt
             else ret tt) in
  let* obj_list := expand_object_list h' in
  process_objects h' (req_body req) req obj_list None.

(** [PUT]. In the branch [elif self.is_object_grouping: pass] no response
    is bound when [return response] is reached. *)
Definition PUT (h : handler) : PM response :=
  if (is_trigger_assignation h || is_trigger_deletion h)%bool then
    _process_trigger_assignation_deletion_request h
  else if is_object_grouping h then throw UnboundLocalError
  else if is_object_move h then PUT_object_move h
  else get_response (request_ h).

(** [POST] *)
Definition POST (h : handler) : PM response :=
  if (is_trigger_assignation h || is_trigger_deletion h)%bool then
    _process_trigger_assignation_deletion_request h
  else get_response (request_ h).

(** [eval] of the trigger dictionary header, and [str] of a dictionary,
    which is what a header set to a dictionary holds. *)
Variable eval_header : string → outcome Registry.mc_dict.
Variable str_of_dict : Registry.mc_dict → string.

Definition vertigo_sysmeta_prefix : string := "X-Object-Sysmeta-Vertigo-".
Definition public_mc_header : string := "Vertigo-Microcontroller".

(** The first loop of [HEAD], over the list [response.headers.keys()]:
    [response.headers[new_key] = response.headers[key]] for every key of
    the engine; assigning [None] removes the header. *)
Fixpoint publish_sysmeta (keys : list string) (hs : gmap string string)
  : outcome (gmap string string) :=
  match keys with
  | [] => Ok hs
  | key :: rest =>
      if startswith key vertigo_sysmeta_prefix then
        match hs !! key with
        | Some v => publish_sysmeta rest (<[remove_all "X-Object-Sysmeta-" key := v]> hs)
        | None => publish_sysmeta rest (delete (remove_all "X-Object-Sysmeta-" key) hs)
        end
      else publish_sysmeta rest hs
  end.

(** [HEAD]. The keys are visited in the order of the dictionary, for which
    the order of the map stands; header names are the ones the response
    carries, in the capitalisation swob gives them. *)
Definition HEAD (h : handler) : PM response :=
  let* response := get_response (request_ h) in
  match publish_sysmeta (map_to_list (resp_headers response)).*1
                        (resp_headers response) with
  | Raise e => throw e
  | Diverge => λ s, (Diverge, s)
  | Ok headers1 =>
      match headers1 !! public_mc_header with
      | None =>
          ret {| status_int := status_int response; resp_headers := headers1;
                 resp_body := resp_body response |}
      | Some value =>
          match eval_header value with
          | Raise e => throw e
          | Diverge => λ s, (Diverge, s)
          | Ok mc_dict =>
              let mc_dict' := filter (λ kv, Registry.truthy_entry kv.2 = true) mc_dict in
              ret {| status_int := status_int response;
                     resp_headers := <[public_mc_header := str_of_dict mc_dict']> headers1;
                     resp_body := resp_body response |}
          end
      end
  end.

End Proxy.

Global Arguments PState {backend} _ _.
Global Arguments backend_state {backend} _.
Global Arguments issued {backend} _.

End Proxy.

(** ** Vocabulary of the statements *)
Module CodecSpec.

(** The number of slots a serialization needs: its length divided by the
    slot size, rounded up. *)
Definition slots_needed (xattr_size : Z) (metastr : bytes) : nat :=
  Z.to_nat ((Z.of_nat (length metastr) + xattr_size - 1) / xattr_size).

(** Bytes [xattr_size * k, xattr_size * (k + 1)) of the serialization. *)
Definition chunk (xattr_size : Z) (metastr : bytes) (k : nat) : bytes :=
  take (Z.to_nat xattr_size) (drop (k * Z.to_nat xattr_size) metastr).

(** A file that holds, from slot [key] on, the consecutive [n]-byte pieces
    of [s]. *)
Definition holds_chunks (fd : xfile) (mk : string) (n : nat) (s : bytes)
    (key : nat) : Prop :=
  ∀ j, (j * n < length s)%nat →
       xattrs fd !! Codec.slot_name mk (key + j) = Some (take n (drop (j * n) s)).

(** [return pickle.loads(b)] *)
Definition loads_outcome {M} (pickle_loads : bytes → option M) (b : bytes)
  : outcome (option M) :=
  match pickle_loads b with
  | Some m => Ok (Some m)
  | None => Raise UnpicklingError
  end.

End CodecSpec.

Module RegistrySpec.
Import Registry.

(** The trigger dictionary [set_microcontroller] works on: the stored one,
    or the module-level default when none (or an empty one) is stored. *)
Definition working_dict (w : world) (got : option mc_dict) : mc_dict :=
  if truthy_dict got then default ∅ got else DEFAULT_MD_STRING w.

(** The list [set_microcontroller] leaves under the trigger. *)
Definition added (mc : string) (entry : option (list string)) : list string :=
  if bool_decide (mc ∈ default [] entry) then default [] entry
  else default [] entry ++ [mc].

(** The trigger dictionary is absent, or it stores no empty list and has a
    trigger with handlers. *)
Definition collapsed (md : metadata) : Prop :=
  match md !! VERTIGO_MC_HEADER with
  | None => True
  | Some (VStr _) => False
  | Some (VDict d) =>
      (∀ t, d !! t ≠ Some (Some [])) ∧ (∃ t l, d !! t = Some (Some l))
  end.

(** The dictionary [delete_microcontroller] has in hand after its removal
    step, before the clean-up: the trigger's list is set to [None] for
    ["all"], and loses the first occurrence of the handler otherwise. *)
Definition after_removal (d : mc_dict) (trigger mc : string) (l : list string)
  : mc_dict :=
  <[trigger := if bool_decide (mc = "all") then None
               else Some (list_remove_first mc l)]> d.

(** The clean-up in the words of the specification: "for every trigger
    whose list became empty, set it to null". *)
Definition nulled (d : mc_dict) : mc_dict :=
  (λ e, match e with Some [] => None | _ => e end) <$> d.

(** "All trigger values are null." *)
Definition all_null (d : mc_dict) : Prop :=
  ∀ t e, d !! t = Some e → e = None.

Global Instance all_null_dec d : Decision (all_null d).
Proof. apply (map_Forall_dec (λ _ e, e = None)). Defined.

(** The trigger-map entry the specification prescribes for a dictionary:
    absent when every value is null once the emptied lists are, and
    otherwise the dictionary with the emptied lists set to null. *)
Definition collapsed_entry (d : mc_dict) : option md_value :=
  if decide (all_null (nulled d)) then None else Some (VDict (nulled d)).

(** The ways a handler is not assigned to a trigger: nothing is stored, no
    trigger dictionary is stored, the trigger's list is [None], or the
    list lacks the handler. *)
Inductive not_assigned (trigger mc : string) : option metadata → Prop :=
| no_metadata : not_assigned trigger mc None
| no_trigger_map md :
    md !! VERTIGO_MC_HEADER = None → not_assigned trigger mc (Some md)
| null_list md d :
    md !! VERTIGO_MC_HEADER = Some (VDict d) → d !! trigger = Some None →
    not_assigned trigger mc (Some md)
| handler_absent md d l :
    md !! VERTIGO_MC_HEADER = Some (VDict d) → d !! trigger = Some (Some l) →
    mc ≠ "all" → mc ∉ l →
    not_assigned trigger mc (Some md).

End RegistrySpec.

Module ProxySpec.
Import Proxy.

(** A plain-text container listing: one name per line. *)
Definition listing_body (names : list string) : string :=
  foldr (λ n acc, n +:+ nl +:+ acc) "" names.

(** A name that can stand on a line of a listing. *)
Definition line_name (n : string) : Prop :=
  n ≠ "" ∧ contains_char (ascii_of_nat 10) n = false.

(** The listing request [_get_object_list] sends for the handler's object
    name. *)
Definition listing_request (h : handler) : request :=
  make_subrequest
    (if bool_decide (obj h = "*") then req_query (request_ h)
     else "prefix=" +:+ rsplit1_head "/" (obj h) +:+ "/")
    "GET" (join_all [api_version h; account h; container h]) (auth_headers h).

(** The cache key [GET] computes for the requested object. *)
Definition GET_object_name (h : handler) : string :=
  path_join (path_join (account h) (container h)) (obj h).

End ProxySpec.

(** ** Serializers used to run the model on concrete inputs *)
Module Samples.

(** The identity serializer: the metadata value is its own serialized
    form, so a payload of any size, the empty one included, can be handed
    to the codec. *)
Definition raw_dumps (m : bytes) : bytes := m.
Definition raw_loads (b : bytes) : option bytes := Some b.

(** A self-delimiting serializer in the manner of pickle: the binary digits
    of the value's code, then a full stop. Reading stops at the full stop
    and ignores what follows, as [pickle.loads] does. *)
Fixpoint pos_digits (p : positive) : bytes :=
  match p with
  | xH => []
  | xO p' => x30 :: pos_digits p'
  | xI p' => x31 :: pos_digits p'
  end.

Fixpoint read_digits (bs : bytes) : option positive :=
  match bs with
  | [] => None
  | b :: bs' =>
      if Byte.eqb b x2e then Some xH
      else if Byte.eqb b x30 then xO <$> read_digits bs'
      else if Byte.eqb b x31 then xI <$> read_digits bs'
      else None
  end.

Definition dot_dumps {A} `{Countable A} (a : A) : bytes :=
  pos_digits (encode a) ++ [x2e].

Definition dot_loads {A} `{Countable A} (bs : bytes) : option A :=
  read_digits bs ≫= decode.

Global Instance md_value_eq_dec : EqDecision Registry.md_value.
Proof. solve_decision. Defined.

Global Instance md_value_countable : Countable Registry.md_value :=
  inj_countable'
    (λ v, match v with Registry.VStr s => inl s | Registry.VDict d => inr d end)
    (λ x, match x with inl s => Registry.VStr s | inr d => Registry.VDict d end)
    (λ v, match v with Registry.VStr _ | Registry.VDict _ => eq_refl end).

(** No stored string is evaluated in the sample runs. *)
Definition no_eval (s : string) : option Registry.mc_dict := None.

(** Byte strings of a given length. *)
Definition payload (n : Z) : bytes := repeat x41 (Z.to_nat n).

(** Equality test on byte strings, and the test that a read returned a
    given byte string. *)
Fixpoint bytes_eqb (a b : bytes) : bool :=
  match a, b with
  | [], [] => true
  | x :: a', y :: b' => (Byte.eqb x y && bytes_eqb a' b')%bool
  | _, _ => false
  end.

Definition reads_back (r : outcome (option bytes)) (expected : bytes) : bool :=
  match r with
  | Ok (Some b) => bytes_eqb b expected
  | _ => false
  end.

End Samples.

(** ** Sample data for running the model *)
Module SampleData.
Import Registry Proxy ProxySpec Samples.

(** An object with ordinary Swift metadata and no trigger dictionary. *)
Definition sample_metadata : metadata :=
  {[ "name" := VStr "/AUTH_test/c/o"; "Content-Length" := VStr "3" ]}.

Definition sample_path : string :=
  "/srv/node/sda/objects/42/abc/d41d8/1480000000.00000.data".

Definition sample_file : xfile :=
  snd (Codec.write_metadata dot_dumps fresh_file sample_metadata
         Codec.default_xattr_size (Some SWIFT_METADATA_KEY)).

Definition sample_world : world :=
  {| DEFAULT_MD_STRING := DEFAULT_MD_STRING_initial;
     files := {[ sample_path := sample_file ]} |}.

Definition sample_vertigo : vertigo :=
  {| request_body := ""; data_file := sample_path |}.

(** The same object after ["noop"] was bound to ["onget"]. *)
Definition bound_world : world :=
  snd (set_microcontroller dot_dumps dot_loads no_eval
         sample_world sample_vertigo "onget" "noop").

(** A file on a file system without extended attributes: the first
    [getxattr] already fails with [ENOTSUP]. *)
Definition unsupported_file : xfile :=
  {| xattrs := ∅;
     get_faults := {[ VERTIGO_METADATA_KEY := ENOTSUP ]};
     set_faults := ∅ |}.

(** A backend that keeps what is PUT and serves it on any other method. *)
Definition store_app (st : gmap string (gmap string string * string))
    (req : request) : response * gmap string (gmap string string * string) :=
  if bool_decide (req_method req = "PUT") then
    ({| status_int := 201; resp_headers := ∅; resp_body := "" |},
     <[req_path req := (req_headers req, req_body req)]> st)
  else
    match st !! req_path req with
    | Some (hs, body) =>
        ({| status_int := 200; resp_headers := hs; resp_body := body |}, st)
    | None => ({| status_int := 404; resp_headers := ∅; resp_body := "" |}, st)
    end.

(** A container server: answers every request with the plain-text listing
    of the names that start with the [prefix] of the query string. *)
Definition listing_app (objs : list string) (st : unit) (req : request)
  : response * unit :=
  let q := req_query req in
  let prefix :=
    if startswith q "prefix=" then String.substring 7 (String.length q - 7) q
    else "" in
  ({| status_int := 200; resp_headers := ∅;
      resp_body := ProxySpec.listing_body
                     (filter (λ o, startswith o prefix = true) objs) |}, st).

Definition no_cache_loads (s : string) : option (gmap string string * string) := None.
Definition no_storlets {B} (r : response) (l : string) : PM B response := ret B r.

Definition sample_handler (name : string) (hs : gmap string string) : handler :=
  {| api_version := "v1"; account := "AUTH_test"; container := "c"; obj := name;
     request_ := {| req_method := "GET";
                    req_path := "/v1/AUTH_test/c/" +:+ name;
                    req_query := ""; req_headers := hs; req_body := "" |};
     mc_container := "microcontroller"; memcache := ∅;
     is_trigger_assignation := false; is_trigger_deletion := false;
     is_object_grouping := false; is_object_move := false;
     mc_assignation_data := ("", ""); account_storlet_enabled := false |}.

Definition curl_headers : gmap string string :=
  {[ "User-Agent" := "curl"; "X-Auth-Token" := "tok" ]}.

(** A store that holds the real object ["c2/real"]. *)
Definition real_store : gmap string (gmap string string * string) :=
  {[ "/v1/AUTH_test/c2/real" :=
       ({[ "Content-Type" := "text/plain"; "Content-Length" := "9" ]}, "real data") ]}.

Definition start_state {B} (b : B) : pstate B := {| backend_state := b; issued := [] |}.

(** The pipeline after [create_link] made ["c/link"] point to ["c2/real"]. *)
Definition linked_state : pstate (gmap string (gmap string string * string)) :=
  snd (create_link _ store_app (sample_handler "link" curl_headers)
         "/v1/AUTH_test/c/link" "c2/real" (start_state real_store)).

Definition abcde : bytes := [x61; x62; x63; x64; x65].

(** A file that still holds the second slot of an earlier three-byte value
    written with a slot size of two. *)
Definition abc_file : xfile :=
  snd (Codec.write_metadata raw_dumps fresh_file [x61; x62; x63] 2 None).

(** A file that holds a larger value in slots of sixteen bytes. *)
Definition crowded_file : xfile :=
  snd (Codec.write_metadata dot_dumps fresh_file
         (<[ "X-Timestamp" := Registry.VStr "1480000000.00000" ]> sample_metadata)
         16 (Some SWIFT_METADATA_KEY)).

(** A value whose pickle is 200,000 bytes long. *)
Definition large_value : positive := Pos.shiftl 1 199999.

Definition bound_file : xfile :=
  default fresh_file (files bound_world !! sample_path).

Definition bound_metadata : metadata :=
  <[ VERTIGO_MC_HEADER :=
       VDict (<[ "onget" := Some ["noop"] ]> DEFAULT_MD_STRING_initial) ]>
    sample_metadata.

(** The bound object after ["compress"] was bound to ["onput"] as well. *)
Definition two_triggers_world : world :=
  snd (set_microcontroller dot_dumps dot_loads no_eval
         bound_world sample_vertigo "onput" "compress").

Definition two_triggers_file : xfile :=
  default fresh_file (files two_triggers_world !! sample_path).

Definition link_handler : handler := sample_handler "link" curl_headers.

Definition link_response : response :=
  {| status_int := 200;
     resp_headers :=
       <[ "Content-Length" := "0" ]>
         (<[ "Content-Type" := create_link_content_type ]>
            (<[ link_to_header := "c2/real" ]> (auth_headers link_handler)));
     resp_body := "" |}.

Definition move_handler : handler :=
  let h := sample_handler "o" (<[ "Destination" := "c/o" ]>
                                 (<[ "X-Vertigo-Link-To" := "c/o" ]> curl_headers)) in
  {| api_version := api_version h; account := account h;
     container := container h; obj := obj h; request_ := request_ h;
     mc_container := mc_container h; memcache := memcache h;
     is_trigger_assignation := false; is_trigger_deletion := false;
     is_object_grouping := false; is_object_move := true;
     mc_assignation_data := mc_assignation_data h;
     account_storlet_enabled := account_storlet_enabled h |}.

(** The names in the sample container. *)
Definition sample_names : list string := ["a"; "photos/1.jpg"; "photos/2.jpg"].

Definition folder_handler : handler := sample_handler "photos/*" curl_headers.

Definition folder_listing : response :=
  {| status_int := 200; resp_headers := ∅;
     resp_body := listing_body ["photos/1.jpg"; "photos/2.jpg"] |}.

End SampleData.

(** ** Further sample data: failing stores, a second object, a cache *)
Module MoreSamples.
Import Registry Proxy ProxySpec Samples SampleData.

(** A data file that vanishes after its first slot was read. *)
Definition vanishing_file : xfile :=
  {| xattrs := {[ VERTIGO_METADATA_KEY := [x61; x62] ]};
     get_faults := {[ VERTIGO_METADATA_KEY +:+ "1" := ENOENT ]};
     set_faults := ∅ |}.

(** A file system with room for one more attribute only: the second slot
    is refused with [ENOSPC]. *)
Definition full_after_one : xfile :=
  {| xattrs := {[ "user.mime_type" := [x74; x78; x74] ]};
     get_faults := ∅;
     set_faults := {[ VERTIGO_METADATA_KEY +:+ "1" := ENOSPC ]} |}.

(** The five-byte value written in slots of two bytes. *)
Definition abcde_file : xfile :=
  snd (Codec.write_metadata raw_dumps fresh_file abcde 2 None).

(** A request that carries a configuration for the handler. *)
Definition config_vertigo : vertigo :=
  {| request_body := "level=3 " +:+ nl; data_file := sample_path |}.

(** Two objects without trigger dictionary in one object server. *)
Definition other_path : string :=
  "/srv/node/sda/objects/77/def/8f14e/1480000001.00000.data".

Definition two_objects_world : world :=
  {| DEFAULT_MD_STRING := DEFAULT_MD_STRING_initial;
     files := {[ sample_path := sample_file; other_path := sample_file ]} |}.

Definition other_vertigo : vertigo :=
  {| request_body := ""; data_file := other_path |}.

(** The sample object on a disk that has no room for its metadata. *)
Definition full_disk_file : xfile :=
  {| xattrs := xattrs sample_file; get_faults := ∅;
     set_faults := {[ SWIFT_METADATA_KEY := ENOSPC ]} |}.

Definition full_disk_world : world :=
  {| DEFAULT_MD_STRING := DEFAULT_MD_STRING_initial;
     files := {[ sample_path := full_disk_file ]} |}.

(** The sample object on a file system without extended attributes. *)
Definition unreadable_file : xfile :=
  {| xattrs := ∅; get_faults := {[ SWIFT_METADATA_KEY := ENOTSUP ]}; set_faults := ∅ |}.

Definition unreadable_world : world :=
  {| DEFAULT_MD_STRING := DEFAULT_MD_STRING_initial;
     files := {[ sample_path := unreadable_file ]} |}.

(** The trigger dictionary of the bound sample object. *)
Definition bound_dict : mc_dict :=
  <[ "onget" := Some ["noop"] ]> DEFAULT_MD_STRING_initial.

(** A handler with a cache that holds the requested object. *)
Definition with_flags (h : handler) (cache : gmap string string)
    (deletion move : bool) : handler :=
  {| api_version := api_version h; account := account h;
     container := container h; obj := obj h; request_ := request_ h;
     mc_container := mc_container h; memcache := cache;
     is_trigger_assignation := false; is_trigger_deletion := deletion;
     is_object_grouping := false; is_object_move := move;
     mc_assignation_data := mc_assignation_data h;
     account_storlet_enabled := account_storlet_enabled h |}.

Definition cached_headers : gmap string string :=
  {[ "Content-Type" := "text/plain"; "Content-Length" := "999" ]}.

Definition sample_cache_loads (s : string) : option (gmap string string * string) :=
  if bool_decide (s = "pickled entry") then Some (cached_headers, "cached data")
  else None.

Definition cached_handler : handler :=
  with_flags (sample_handler "o" curl_headers)
    {[ "AUTH_test/c/o" := "pickled entry" ]} false false.

(** A backend in which ["c/link"] is a link, marked as the handlers expect
    it, to ["c2/real"], and every other path holds the real data. *)
Definition marked_link_app (st : unit) (req : request) : response * unit :=
  if bool_decide (req_path req = "/v1/AUTH_test/c/link") then
    ({| status_int := 200;
        resp_headers := {[ "Content-Type" := link_content_type;
                           link_to_header := "c2/real" ]};
        resp_body := "" |}, st)
  else
    ({| status_int := 200;
        resp_headers := {[ "Content-Type" := "text/plain" ]};
        resp_body := "real data" |}, st).

(** A move of ["c/o"] to ["c2/o2"]. *)
Definition move_away_handler : handler :=
  with_flags (sample_handler "o" (<[ "Destination" := "c2/o2" ]>
                                    (<[ "X-Vertigo-Link-To" := "c2/o2" ]> curl_headers)))
    ∅ false true.

(** The removal of a trigger from ["c/o"]. *)
Definition deletion_handler : handler :=
  with_flags (sample_handler "o" curl_headers) ∅ true false.

(** An object with a trigger dictionary and a handler configuration in
    its system metadata, and [eval] and [str] on the two dictionaries that
    occur. *)
Definition stored_dict_text : string := "{'onget': ['noop'], 'onput': None}".

Definition trigger_headers : gmap string string :=
  {[ "Content-Type" := "text/plain";
     VERTIGO_MC_HEADER := stored_dict_text;
     "X-Object-Sysmeta-Vertigo-Onget-Noop" := "level=3" ]}.

Definition trigger_store : gmap string (gmap string string * string) :=
  {[ "/v1/AUTH_test/c/o" := (trigger_headers, "data") ]}.

Definition trigger_response : response :=
  {| status_int := 200; resp_headers := trigger_headers; resp_body := "data" |}.

Definition sample_eval (s : string) : outcome mc_dict :=
  if bool_decide (s = stored_dict_text)
  then Ok {[ "onget" := Some ["noop"]; "onput" := None ]}
  else Raise TypeError.

Definition sample_str (d : mc_dict) : string :=
  if bool_decide (d = {[ "onget" := Some ["noop"] ]}) then "{'onget': ['noop']}"
  else "{}".

End MoreSamples.

(** ** The Python helpers on small inputs *)
Module PyExamples.
Import Samples SampleData.

Example slices :
  slice_to abcde 2 = [x61; x62] ∧ slice_from abcde 2 = [x63; x64; x65]
  ∧ slice_to abcde (-2) = [x61; x62; x63] ∧ slice_from abcde (-2) = [x64; x65]
  ∧ slice_to abcde (-9) = [] ∧ slice_from abcde (-9) = abcde
  ∧ slice_to abcde 0 = [] ∧ slice_from abcde 0 = abcde.
Proof. repeat split. Qed.

Example slot_names :
  Codec.slot_name SWIFT_METADATA_KEY 0 = "user.swift.metadata"
  ∧ Codec.slot_name SWIFT_METADATA_KEY 1 = "user.swift.metadata1"
  ∧ Codec.slot_name SWIFT_METADATA_KEY 12 = "user.swift.metadata12"
  ∧ Codec.choose_key None = "user.swift.microcontroller"
  ∧ Codec.choose_key (Some "") = "user.swift.microcontroller".
Proof. repeat split. Qed.

Example rstrip_examples :
  rstrip (" x " +:+ nl) = " x" ∧ rstrip "" = "" ∧ rstrip (nl +:+ nl) = ""
  ∧ rstrip "a b" = "a b".
Proof. repeat split. Qed.

Example split_examples :
  split_on (ascii_of_nat 10) ("a" +:+ nl +:+ "b" +:+ nl) = ["a"; "b"; ""]
  ∧ split_on (ascii_of_nat 10) "" = [""]
  ∧ split_on "-" "abc-def-ghi" = ["abc"; "def"; "ghi"]
  ∧ rsplit1_head "/" "a/b/c*" = "a/b"
  ∧ rsplit1_head "/" "abc*" = "abc*"
  ∧ rsplit1_head "/" "/x" = "".
Proof. repeat split. Qed.

Example path_join_examples :
  path_join "c" "o" = "c/o" ∧ path_join "c/" "o" = "c/o" ∧ path_join "" "o" = "o"
  ∧ path_join "c" "/o" = "/o"
  ∧ Proxy.join_all ["v1"; "AUTH_test"; "c"; "o"] = "/v1/AUTH_test/c/o"
  ∧ Proxy.join_all ["v1"; "AUTH_test"; "c"; ""] = "/v1/AUTH_test/c/".
Proof. repeat split. Qed.

Example header_names :
  VERTIGO_MC_HEADER = "X-Object-Sysmeta-Vertigo-Microcontroller"
  ∧ Registry.sysmeta_key "onget" "noop" = "X-Object-Sysmeta-Vertigo-onget-noop"
  ∧ startswith VERTIGO_MC_HEADER SYSMETA_HEADER = true.
Proof. repeat split. Qed.

End PyExamples.

(** * Properties *)

(** ** The metadata codec *)
Module CodecFacts.
Import CodecSpec.

Section WithPickle.
Context {M : Type}.
Variable pickle_dumps : M → bytes.
Variable pickle_loads : bytes → option M.

Lemma pretty_N_go_length x s :
  (String.length s ≤ String.length (pretty_N_go x s))%nat.
Proof.
  revert s. induction (N.lt_wf_0 x) as [x _ IH]; intros s.
  assert (x = 0 ∨ 0 < x)%N as [->|?] by lia; [by rewrite pretty_N_go_0|].
  rewrite pretty_N_go_step by done.
  etrans; [|by eapply IH, N.div_lt]. simpl; lia.
Qed.

Lemma pretty_nat_nonempty (n : nat) : pretty n ≠ "".
Proof.
  unfold pretty, pretty_nat, pretty, pretty_N.
  case_decide; [done|].
  rewrite pretty_N_go_step by lia.
  intros Heq.
  pose proof (pretty_N_go_length (N.of_nat n `div` 10)
                (String (pretty_N_char (N.of_nat n `mod` 10)) "")) as Hlen.
  rewrite Heq in Hlen. simpl in Hlen. lia.
Qed.

Lemma str_or_empty_inj i j : str_or_empty i = str_or_empty j → i = j.
Proof.
  destruct i as [|i], j as [|j]; simpl; intros Heq; [done| | |].
  - by destruct (pretty_nat_nonempty (S j)).
  - by destruct (pretty_nat_nonempty (S i)).
  - by apply (inj pretty) in Heq.
Qed.

Lemma slot_name_inj mk i j : Codec.slot_name mk i = Codec.slot_name mk j → i = j.
Proof.
  unfold Codec.slot_name. intros Heq.
  apply (inj (String.app mk)) in Heq. by apply str_or_empty_inj.
Qed.

(** Pigeonhole: a map that holds the first [n] slots has at least [n] entries. *)
Lemma slots_present_size {A} (m : gmap string A) mk n :
  (∀ k, (k < n)%nat → is_Some (m !! Codec.slot_name mk k)) → (n ≤ size m)%nat.
Proof.
  revert m. induction n as [|n IH]; intros m Hm; [lia|].
  destruct (Hm n) as [v Hv]; [lia|].
  assert (n ≤ size (delete (Codec.slot_name mk n) m))%nat as Hle.
  { apply IH. intros k Hk. rewrite lookup_delete_ne.
    - apply Hm. lia.
    - intros Heq. apply slot_name_inj in Heq. lia. }
  rewrite map_size_delete_Some in Hle by eauto.
  assert (size m ≠ 0)%nat.
  { intros H0. apply map_size_empty_inv in H0. subst. by rewrite lookup_empty in Hv. }
  lia.
Qed.

Abbreviation read_loop := (Codec.read_loop pickle_loads).
Abbreviation read_metadata := (Codec.read_metadata pickle_loads).
Abbreviation read_except := (Codec.read_except pickle_loads).
Abbreviation write_metadata := (Codec.write_metadata pickle_dumps).
Abbreviation slot_name := Codec.slot_name.

Lemma read_except_not_diverge acc e : read_except acc e ≠ Diverge.
Proof.
  unfold Codec.read_except.
  destruct (negb (truthy_list acc)); [done|].
  destruct ((e =? ENOTSUP)%Z || (e =? EOPNOTSUPP)%Z)%bool; [done|].
  destruct (e =? ENOENT)%Z; [done|]. by destruct (pickle_loads acc).
Qed.

Lemma getxattr_Ok fd name v :
  getxattr fd name = Ok v ↔ get_faults fd !! name = None ∧ xattrs fd !! name = Some v.
Proof.
  unfold getxattr.
  destruct (get_faults fd !! name), (xattrs fd !! name);
    (split; [intros Heq; by simplify_eq|intros [Hg Hx]; by simplify_eq]).
Qed.

Lemma getxattr_not_diverge fd name : getxattr fd name ≠ Diverge.
Proof. unfold getxattr. repeat case_match; done. Qed.

Lemma getxattr_raises fd name e :
  getxattr fd name = Raise e → ∃ n, e = IOError n.
Proof.
  unfold getxattr.
  destruct (get_faults fd !! name), (xattrs fd !! name);
    intros Heq; simplify_eq; eauto.
Qed.

Lemma read_loop_diverge_present fuel fd mk acc key :
  read_loop fuel fd mk acc key = Diverge →
  ∀ k, (key ≤ k < key + fuel)%nat → is_Some (xattrs fd !! slot_name mk k).
Proof.
  revert acc key. induction fuel as [|fuel IH]; intros acc key Hd k Hk; [lia|].
  simpl in Hd. destruct (getxattr fd (slot_name mk key)) as [c|e|] eqn:Hget.
  - destruct (decide (k = key)) as [->|Hne].
    + apply getxattr_Ok in Hget as [_ ->]. eauto.
    + eapply IH; [exact Hd|lia].
  - apply getxattr_raises in Hget as [n ->].
    by destruct (read_except_not_diverge acc n).
  - by destruct (getxattr_not_diverge fd (slot_name mk key)).
Qed.

(** The reading loop always ends: the fuel [read_metadata] grants is never
    used up. *)
Lemma read_metadata_terminates fd md_key : read_metadata fd md_key ≠ Diverge.
Proof.
  unfold Codec.read_metadata. intros Hd.
  pose proof (read_loop_diverge_present _ _ _ _ _ Hd) as Hp.
  assert (S (size (xattrs fd)) ≤ size (xattrs fd))%nat; [|lia].
  apply (slots_present_size _ (Codec.choose_key md_key)).
  intros k Hk. apply Hp. lia.
Qed.

Lemma read_loop_more_fuel f f' fd mk acc key :
  read_loop f fd mk acc key ≠ Diverge → (f ≤ f')%nat →
  read_loop f' fd mk acc key = read_loop f fd mk acc key.
Proof.
  revert f' acc key. induction f as [|f IH]; intros f' acc key Hnd Hle; [done|].
  destruct f' as [|f']; [lia|]. simpl in *.
  destruct (getxattr fd (slot_name mk key)); [|done..].
  apply IH; [done|lia].
Qed.

Lemma read_loop_step fd mk acc key f c :
  getxattr fd (slot_name mk key) = Ok c →
  read_loop (S f) fd mk acc key = read_loop f fd mk (acc ++ c) (S key).
Proof. intros Hget. simpl. by rewrite Hget. Qed.

Lemma read_loop_chunks fd mk n s i f :
  get_faults fd = ∅ → holds_chunks fd mk n s 0 →
  (i = 0 ∨ (i - 1) * n < length s)%nat →
  read_loop (i + f) fd mk [] 0 = read_loop f fd mk (take (i * n) s) i.
Proof.
  intros Hg Hc. revert f. induction i as [|i IH]; intros f Hi; [done|].
  assert ((i * n < length s)%nat) as Hlt by (destruct Hi; [lia|]; by replace (S i - 1)%nat with i in * by lia).
  replace (S i + f)%nat with (i + S f)%nat by lia.
  rewrite IH by (destruct i; [by left|right; nia]).
  erewrite read_loop_step.
  2:{ apply getxattr_Ok. split; [by rewrite Hg, lookup_empty|]. by apply (Hc i). }
  rewrite take_take_drop. do 2 f_equal. lia.
Qed.

Lemma slots_needed_lt sz (s : bytes) j :
  (0 < sz)%Z →
  (j < slots_needed sz s)%nat ↔ (j * Z.to_nat sz < length s)%nat.
Proof.
  intros Hs. unfold slots_needed.
  set (L := Z.of_nat (length s)).
  assert (0 ≤ (L + sz - 1) / sz)%Z as Hq by (apply Z.div_pos; lia).
  split; intros H.
  - assert (Z.of_nat j + 1 ≤ (L + sz - 1) / sz)%Z as H1 by lia.
    assert (sz * ((L + sz - 1) / sz) ≤ L + sz - 1)%Z as H2
      by (apply Z.mul_div_le; lia).
    assert (Z.of_nat j * sz < L)%Z by nia. nia.
  - assert (Z.of_nat j + 1 ≤ (L + sz - 1) / sz)%Z; [|lia].
    apply Z.div_le_lower_bound; [lia|]. nia.
Qed.

Lemma slice_to_pos {A} (s : list A) sz :
  (0 < sz)%Z → slice_to s sz = take (Z.to_nat sz) s.
Proof. intros. unfold slice_to. case_match; [done|lia]. Qed.

Lemma slice_from_pos {A} (s : list A) sz :
  (0 < sz)%Z → slice_from s sz = drop (Z.to_nat sz) s.
Proof. intros. unfold slice_from. case_match; [done|lia]. Qed.

(** What the writing loop does on a store that accepts every write: it
    ends, fills the slots from [key] on with the consecutive pieces of
    [metastr], and touches no other attribute. *)
Lemma write_loop_spec fuel fd mk sz s key :
  (0 < sz)%Z → set_faults fd = ∅ → (length s ≤ fuel)%nat →
  ∃ fd', Codec.write_loop fuel fd mk sz s key = (Ok tt, fd')
    ∧ get_faults fd' = get_faults fd ∧ set_faults fd' = set_faults fd
    ∧ holds_chunks fd' mk (Z.to_nat sz) s key
    ∧ (∀ name, (∀ j, (j * Z.to_nat sz < length s)%nat → name ≠ slot_name mk (key + j)) →
               xattrs fd' !! name = xattrs fd !! name).
Proof.
  intros Hs. revert fd s key.
  induction fuel as [|fuel IH]; intros fd s key Hf Hlen.
  - destruct s; [|simpl in Hlen; lia]. exists fd. simpl.
    split_and!; [done..| |done]. intros j Hj. simpl in Hj. lia.
  - destruct s as [|b s].
    { exists fd. simpl. split_and!; [done..| |done]. intros j Hj. simpl in Hj. lia. }
    set (s0 := b :: s) in *.
    cbn [Codec.write_loop truthy_list negb]. fold s0.
    unfold setxattr. rewrite Hf, lookup_empty.
    rewrite slice_to_pos, slice_from_pos by done.
    set (n := Z.to_nat sz). assert (0 < n)%nat as Hn by lia.
    set (fd1 := with_xattrs fd _).
    destruct (IH fd1 (drop n s0) (S key)) as (fd' & Hw & Hg & Hsf & Hc & Ho).
    { done. }
    { rewrite length_drop. subst s0. simpl in *. lia. }
    exists fd'. rewrite Hw, Hg, Hsf. split; [done|]. split; [done|]. split; [done|].
    split.
    + intros [|j] Hj.
      * rewrite Nat.add_0_r, Ho.
        { subst fd1. simpl. by rewrite lookup_insert_eq. }
        intros j' _ Heq. apply slot_name_inj in Heq. lia.
      * replace (key + S j)%nat with (S key + j)%nat by lia.
        rewrite Hc.
        { rewrite drop_drop. do 2 f_equal; lia. }
        rewrite length_drop. lia.
    + intros name Hname. rewrite Ho.
      * subst fd1. simpl. rewrite lookup_insert_ne; [done|].
        intros <-. apply (Hname 0%nat); [subst s0; simpl; lia|]. f_equal; lia.
      * intros j Hj. rewrite length_drop in Hj.
        replace (S key + j)%nat with (key + S j)%nat by lia.
        apply Hname. lia.
Qed.

(** With a positive slot size the writing loop ends whatever the store
    does: the fuel [write_metadata] grants is never used up. *)
Lemma write_loop_terminates fuel fd mk sz s key :
  (0 < sz)%Z → (length s ≤ fuel)%nat →
  (Codec.write_loop fuel fd mk sz s key).1 ≠ Diverge.
Proof.
  intros Hs. revert fd s key.
  induction fuel as [|fuel IH]; intros fd s key Hlen.
  - destruct s; [done|simpl in Hlen; lia].
  - destruct s as [|b s]; [done|].
    set (s0 := b :: s) in *.
    cbn [Codec.write_loop truthy_list negb]. fold s0.
    unfold setxattr. destruct (set_faults fd !! slot_name mk key); [done|].
    apply IH. rewrite slice_from_pos, length_drop by done.
    subst s0. simpl in *. lia.
Qed.

Lemma write_metadata_terminates fd m sz md_key :
  (0 < sz)%Z → (write_metadata fd m sz md_key).1 ≠ Diverge.
Proof. intros Hs. by apply write_loop_terminates. Qed.

Lemma write_metadata_spec fd m sz md_key :
  (0 < sz)%Z → set_faults fd = ∅ →
  let mk := Codec.choose_key md_key in
  let s := pickle_dumps m in
  ∃ fd', write_metadata fd m sz md_key = (Ok tt, fd')
    ∧ get_faults fd' = get_faults fd ∧ set_faults fd' = set_faults fd
    ∧ (∀ j, (j < slots_needed sz s)%nat →
            xattrs fd' !! slot_name mk j = Some (chunk sz s j))
    ∧ (∀ name, (∀ j, (j < slots_needed sz s)%nat → name ≠ slot_name mk j) →
               xattrs fd' !! name = xattrs fd !! name).
Proof.
  intros Hs Hf mk s. unfold Codec.write_metadata. fold s mk.
  destruct (write_loop_spec (length s) fd mk sz s 0 Hs Hf (le_n _))
    as (fd' & Hw & Hg & Hsf & Hc & Ho).
  exists fd'. split_and!; [done..| |].
  - intros j Hj. apply slots_needed_lt in Hj; [|done]. by apply (Hc j).
  - intros name Hname. apply Ho. intros j Hj. apply Hname.
    by apply slots_needed_lt.
Qed.

Lemma read_except_ENODATA acc :
  acc ≠ [] → read_except acc ENODATA = loads_outcome pickle_loads acc.
Proof. intros Hacc. unfold Codec.read_except. by destruct acc. Qed.

Lemma getxattr_missing fd name :
  get_faults fd = ∅ → xattrs fd !! name = None →
  getxattr fd name = Raise (IOError ENODATA).
Proof. intros Hg Hx. unfold getxattr. by rewrite Hg, lookup_empty, Hx. Qed.

(** On a store that answers every read, a loop that has already gathered
    some bytes ends by decoding them followed by whatever further slots it
    found. *)
Lemma read_loop_stale f fd mk acc key :
  get_faults fd = ∅ → acc ≠ [] → read_loop f fd mk acc key ≠ Diverge →
  ∃ stale, read_loop f fd mk acc key = loads_outcome pickle_loads (acc ++ stale).
Proof.
  intros Hg. revert acc key. induction f as [|f IH]; intros acc key Hacc Hnd; [done|].
  simpl in *. unfold getxattr in *. rewrite Hg, lookup_empty in *.
  destruct (xattrs fd !! slot_name mk key) as [c|].
  - destruct (IH (acc ++ c) (S key)) as [stale Hst]; [by destruct acc|done|].
    exists (c ++ stale). by rewrite Hst, <-(assoc_L (++)).
  - exists []. by rewrite app_nil_r, read_except_ENODATA.
Qed.

(** Reading a file that holds the pieces of [s] in its first slots gets to
    the slot after them with exactly [s] gathered. *)
Lemma read_metadata_chunks fd md_key sz s :
  (0 < sz)%Z → get_faults fd = ∅ →
  holds_chunks fd (Codec.choose_key md_key) (Z.to_nat sz) s 0 →
  ∃ f, read_metadata fd md_key
       = read_loop (S f) fd (Codec.choose_key md_key) s (slots_needed sz s).
Proof.
  intros Hs Hg Hc. set (mk := Codec.choose_key md_key) in *.
  set (N := slots_needed sz s).
  assert (N ≤ size (xattrs fd))%nat as HN.
  { apply (slots_present_size _ mk). intros k Hk.
    apply slots_needed_lt in Hk; [|done]. specialize (Hc k Hk). eauto. }
  exists (size (xattrs fd) - N)%nat. unfold Codec.read_metadata. fold mk.
  replace (S (size (xattrs fd))) with (N + S (size (xattrs fd) - N))%nat by lia.
  rewrite (read_loop_chunks fd mk (Z.to_nat sz) s); [|done|done|].
  - f_equal. apply take_ge.
    destruct (decide (length s ≤ N * Z.to_nat sz)%nat); [done|].
    assert (N < N)%nat; [|lia]. apply slots_needed_lt; [done|lia].
  - destruct N as [|N'] eqn:HN'; [by left|right].
    apply slots_needed_lt; [done|]. fold N. lia.
Qed.

Lemma write_then_read_general fd m sz md_key :
  (0 < sz)%Z → healthy fd → pickle_dumps m ≠ [] →
  ∃ fd' stale, write_metadata fd m sz md_key = (Ok tt, fd')
    ∧ read_metadata fd' md_key = loads_outcome pickle_loads (pickle_dumps m ++ stale)
    ∧ (xattrs fd !! slot_name (Codec.choose_key md_key)
                       (slots_needed sz (pickle_dumps m)) = None → stale = []).
Proof.
  intros Hs [Hg Hf] Hne.
  destruct (write_metadata_spec fd m sz md_key Hs Hf) as (fd' & Hw & Hg' & _ & Hc & Ho).
  set (mk := Codec.choose_key md_key) in *. set (s := pickle_dumps m) in *.
  assert (holds_chunks fd' mk (Z.to_nat sz) s 0) as Hh.
  { intros j Hj. apply Hc. by apply slots_needed_lt. }
  rewrite Hg in Hg'.
  destruct (read_metadata_chunks fd' md_key sz s Hs Hg' Hh) as [f Hr].
  fold mk in Hr.
  pose proof (read_metadata_terminates fd' md_key) as Hnd. rewrite Hr in Hnd.
  destruct (xattrs fd !! slot_name mk (slots_needed sz s)) as [old|] eqn:Hold.
  - destruct (read_loop_stale _ _ _ _ _ Hg' Hne Hnd) as [stale Hst].
    exists fd', stale. rewrite Hr, Hst. by split_and!.
  - exists fd', []. rewrite Hr. split; [done|]. split; [|done].
    simpl. rewrite getxattr_missing; [|done|].
    + by rewrite app_nil_r, read_except_ENODATA.
    + rewrite Ho; [done|]. intros j Hj Heq. apply slot_name_inj in Heq. lia.
Qed.

(** C1 (as amended). [write_metadata] removes nothing. On a store that
    accepts every write and with a positive slot size, a write that needs
    [n] slots ends, leaves piece [j] of the serialization in slot [j] for
    every [j < n], and leaves every slot of index [n] or more exactly as
    readable as before: [getxattr] answers there what it answered before
    the write. *)
Theorem write_metadata_keeps_later_slots fd m sz md_key :
  (0 < sz)%Z → set_faults fd = ∅ →
  let mk := Codec.choose_key md_key in
  let n := slots_needed sz (pickle_dumps m) in
  ∃ fd', write_metadata fd m sz md_key = (Ok tt, fd')
    ∧ (∀ j, (j < n)%nat → xattrs fd' !! slot_name mk j = Some (chunk sz (pickle_dumps m) j))
    ∧ (∀ j, (n ≤ j)%nat → getxattr fd' (slot_name mk j) = getxattr fd (slot_name mk j)).
Proof.
  intros Hs Hf mk n.
  destruct (write_metadata_spec fd m sz md_key Hs Hf) as (fd' & Hw & Hg & _ & Hc & Ho).
  exists fd'. split_and!; [done..|].
  intros j Hj. unfold getxattr. rewrite Hg, Ho; [done|].
  intros j' Hj' Heq. apply slot_name_inj in Heq. subst. fold n in Hj'. lia.
Qed.

(** C2. Take from pickle what it guarantees: [pickle.dumps] never returns
    the empty string, and [pickle.loads] reads one pickle and ignores the
    bytes after it. Then for every metadata value, whatever the length of
    its serialized form (one byte, exactly one slot, several slots), every
    positive slot size (65536 among them) and every data file whose
    attribute store answers every call, [write_metadata] succeeds and
    [read_metadata] with the same key then returns the value. *)
Theorem write_then_read fd m sz md_key :
  (∀ m', pickle_dumps m' ≠ []) →
  (∀ m' rest, pickle_loads (pickle_dumps m' ++ rest) = Some m') →
  (0 < sz)%Z → healthy fd →
  ∃ fd', write_metadata fd m sz md_key = (Ok tt, fd')
         ∧ read_metadata fd' md_key = Ok (Some m).
Proof.
  intros Hne Hl Hs Hh.
  destruct (write_then_read_general fd m sz md_key Hs Hh (Hne m))
    as (fd' & stale & Hw & Hr & _).
  exists fd'. split; [done|]. rewrite Hr. unfold loads_outcome. by rewrite Hl.
Qed.

(** The same round trip from the plain inverse law of pickle, for a file
    that holds no slot right after the last one the new value needs. *)
Lemma write_then_read_no_stale fd m sz md_key :
  (0 < sz)%Z → healthy fd → pickle_dumps m ≠ [] →
  pickle_loads (pickle_dumps m) = Some m →
  xattrs fd !! slot_name (Codec.choose_key md_key) (slots_needed sz (pickle_dumps m)) = None →
  ∃ fd', write_metadata fd m sz md_key = (Ok tt, fd')
         ∧ read_metadata fd' md_key = Ok (Some m).
Proof.
  intros Hs Hh Hne Hl Hx.
  destruct (write_then_read_general fd m sz md_key Hs Hh Hne) as (fd' & stale & Hw & Hr & Hst).
  exists fd'. split; [done|]. rewrite Hr, (Hst Hx), app_nil_r.
  unfold loads_outcome. by rewrite Hl.
Qed.

Lemma chunk_length sz (s : bytes) k :
  (0 < sz)%Z →
  Z.of_nat (length (chunk sz s k))
  = Z.max 0 (Z.min sz (Z.of_nat (length s) - Z.of_nat k * sz)).
Proof. intros Hs. unfold chunk. rewrite length_take, length_drop. nia. Qed.

(** C9. A metadata value whose serialized form is 200,000 bytes long,
    written with a slot size of 65,536 to a file whose attribute store
    answers every call: the write needs and fills four slots, slot [k]
    holding bytes [65536 * k, 65536 * (k + 1)) of the serialization, of
    lengths 65536, 65536, 65536 and 3392; no other attribute is touched;
    and reading back returns the value. *)
Theorem write_200000_bytes fd m md_key :
  healthy fd → Z.of_nat (length (pickle_dumps m)) = 200000%Z →
  (∀ rest, pickle_loads (pickle_dumps m ++ rest) = Some m) →
  let mk := Codec.choose_key md_key in
  let s := pickle_dumps m in
  ∃ fd', write_metadata fd m 65536 md_key = (Ok tt, fd')
    ∧ slots_needed 65536 s = 4%nat
    ∧ (∀ k, (k < 4)%nat → xattrs fd' !! slot_name mk k = Some (chunk 65536 s k))
    ∧ Z.of_nat (length (chunk 65536 s 0)) = 65536%Z
    ∧ Z.of_nat (length (chunk 65536 s 1)) = 65536%Z
    ∧ Z.of_nat (length (chunk 65536 s 2)) = 65536%Z
    ∧ Z.of_nat (length (chunk 65536 s 3)) = 3392%Z
    ∧ (∀ name, (∀ k, (k < 4)%nat → name ≠ slot_name mk k) →
               xattrs fd' !! name = xattrs fd !! name)
    ∧ read_metadata fd' md_key = Ok (Some m).
Proof.
  intros Hh Hlen Hl mk s.
  assert (slots_needed 65536 s = 4%nat) as HN.
  { unfold slots_needed. fold s in Hlen. by rewrite Hlen. }
  assert (s ≠ []) as Hne.
  { intros Hs. fold s in Hlen. rewrite Hs in Hlen. simpl in Hlen. lia. }
  destruct (write_metadata_spec fd m 65536 md_key) as (fd' & Hw & _ & _ & Hc & Ho);
    [lia|apply Hh|].
  fold s mk in Hc, Ho. rewrite HN in Hc, Ho.
  destruct (write_then_read_general fd m 65536 md_key)
    as (fd'' & stale & Hw' & Hr & _); [lia|done..|].
  rewrite Hw in Hw'. injection Hw' as <-.
  unfold loads_outcome in Hr. rewrite Hl in Hr.
  fold s in Hlen.
  exists fd'. rewrite !chunk_length, Hlen by lia.
  split; [exact Hw|]. split; [exact HN|]. split; [exact Hc|].
  do 4 (split; [reflexivity|]). split; [exact Ho|exact Hr].
Qed.

Lemma slot_name_0 mk : slot_name mk 0 = mk.
Proof.
  unfold Codec.slot_name. simpl.
  induction mk as [|a mk IH]; [done|].
  change (String a (mk +:+ "") = String a mk). by rewrite IH.
Qed.

(** C6 (what the code does). When the first [getxattr] already fails with
    [ENOTSUP], no byte has been read, and [read_metadata] returns [False]:
    the test [metadata == ''] comes before the test of [errno]. *)
Theorem read_metadata_unsupported_first_slot fd md_key :
  get_faults fd !! Codec.choose_key md_key = Some ENOTSUP →
  read_metadata fd md_key = Ok None.
Proof.
  intros Hf. unfold Codec.read_metadata. simpl.
  unfold getxattr. by rewrite slot_name_0, Hf.
Qed.

(** Once some bytes have been read, [ENOTSUP] does raise
    [DiskFileXattrNotSupported]. *)
Lemma read_metadata_unsupported_later_slot fd md_key c :
  c ≠ [] →
  get_faults fd !! Codec.choose_key md_key = None →
  xattrs fd !! Codec.choose_key md_key = Some c →
  get_faults fd !! slot_name (Codec.choose_key md_key) 1 = Some ENOTSUP →
  read_metadata fd md_key = Raise DiskFileXattrNotSupported.
Proof.
  intros Hc Hg Hx Hf. unfold Codec.read_metadata.
  assert (size (xattrs fd) ≠ 0)%nat as Hsz.
  { intros H0. apply map_size_empty_inv in H0. by rewrite H0, lookup_empty in Hx. }
  destruct (size (xattrs fd)) as [|f]; [done|].
  cbn [Codec.read_loop]. unfold getxattr.
  rewrite slot_name_0, Hg, Hx, Hf. unfold Codec.read_except. by destruct c.
Qed.
End WithPickle.
End CodecFacts.

(** ** The sample serializer *)
Module SampleFacts.
Import Samples.

Lemma read_digits_pos_digits p rest :
  read_digits (pos_digits p ++ x2e :: rest) = Some p.
Proof. induction p as [p IH|p IH|]; simpl; [by rewrite IH..|done]. Qed.

(** [dot_loads] stops at the full stop: bytes after it are ignored. *)
Lemma dot_loads_dumps_app {A} `{Countable A} (a : A) rest :
  dot_loads (dot_dumps a ++ rest) = Some a.
Proof.
  unfold dot_loads, dot_dumps. rewrite <-(assoc_L (++)). simpl.
  rewrite read_digits_pos_digits. simpl. apply decode_encode.
Qed.

Lemma dot_dumps_nonempty {A} `{Countable A} (a : A) : dot_dumps a ≠ [].
Proof. unfold dot_dumps. by destruct (pos_digits (encode a)). Qed.

Lemma bytes_eqb_eq a b : bytes_eqb a b = true → a = b.
Proof.
  revert b. induction a as [|x a IH]; intros [|y b]; simpl; try done.
  intros [Hxy Hab]%andb_prop. f_equal; [by apply Byte.byte_dec_bl|by apply IH].
Qed.

Lemma reads_back_eq r expected :
  reads_back r expected = true → r = Ok (Some expected).
Proof.
  destruct r as [[b|]| |]; simpl; try done.
  intros Hb. by rewrite (bytes_eqb_eq _ _ Hb).
Qed.

End SampleFacts.

(** ** The codec on concrete files *)
Module CodecRuns.
Import CodecSpec Samples SampleData SampleFacts.

(** C1 (as stated) fails. A value of 65,537 bytes is written with the
    default slot size and fills slots 0 and 1; a one-byte value is written
    next and needs one slot. Slot 1, of index >= 1, is still there:
    [getxattr] returns the last byte of the first value, and
    [read_metadata] hands [pickle.loads] the new byte followed by it. *)
Lemma stale_slot_still_readable :
  let big := payload 65537 in
  let small := [x42] in
  let w1 := Codec.write_metadata raw_dumps fresh_file big 65536 None in
  let w2 := Codec.write_metadata raw_dumps (snd w1) small 65536 None in
  fst w1 = Ok tt ∧ fst w2 = Ok tt
  ∧ slots_needed 65536 (raw_dumps small) = 1%nat
  ∧ getxattr (snd w2) (Codec.slot_name VERTIGO_METADATA_KEY 1) = Ok [x41]
  ∧ Codec.read_metadata raw_loads (snd w2) None = Ok (Some [x42; x41]).
Proof. vm_compute. done. Qed.

Lemma write_metadata_keeps_later_slots_witness :
  (0 < 2)%Z ∧ set_faults abc_file = ∅
  ∧ ∃ fd', Codec.write_metadata raw_dumps abc_file [x64] 2 None = (Ok tt, fd')
      ∧ (∀ j, (j < slots_needed 2 (raw_dumps [x64]))%nat →
              xattrs fd' !! Codec.slot_name (Codec.choose_key None) j
              = Some (chunk 2 (raw_dumps [x64]) j))
      ∧ (∀ j, (slots_needed 2 (raw_dumps [x64]) ≤ j)%nat →
              getxattr fd' (Codec.slot_name (Codec.choose_key None) j)
              = getxattr abc_file (Codec.slot_name (Codec.choose_key None) j)).
Proof.
  split; [lia|]. split; [reflexivity|].
  apply (CodecFacts.write_metadata_keeps_later_slots raw_dumps abc_file [x64] 2 None);
    [lia|reflexivity].
Defined.

Lemma write_then_read_witness :
  (∀ m' : Registry.metadata, dot_dumps m' ≠ [])
  ∧ (∀ (m' : Registry.metadata) rest, dot_loads (dot_dumps m' ++ rest) = Some m')
  ∧ (0 < 16)%Z ∧ healthy crowded_file
  ∧ ∃ fd', Codec.write_metadata dot_dumps crowded_file sample_metadata 16
             (Some SWIFT_METADATA_KEY) = (Ok tt, fd')
           ∧ Codec.read_metadata dot_loads fd' (Some SWIFT_METADATA_KEY)
             = Ok (Some sample_metadata).
Proof.
  assert (healthy crowded_file) as Hh by (split; reflexivity).
  split; [exact (λ m', dot_dumps_nonempty m')|].
  split; [exact (λ m' rest, dot_loads_dumps_app m' rest)|].
  split; [lia|]. split; [exact Hh|].
  apply (CodecFacts.write_then_read dot_dumps dot_loads crowded_file sample_metadata 16
           (Some SWIFT_METADATA_KEY) (λ m', dot_dumps_nonempty m')
           (λ m' rest, dot_loads_dumps_app m' rest) ltac:(lia) Hh).
Defined.

(** Round trips of payloads of one byte, one full slot, one byte more and
    200,000 bytes through a file without attributes. *)
Lemma round_trip_sizes :
  Forall (λ n, let w := Codec.write_metadata raw_dumps fresh_file (payload n)
                          Codec.default_xattr_size None in
               fst w = Ok tt
               ∧ Codec.read_metadata raw_loads (snd w) None = Ok (Some (payload n)))
         [1; 65536; 65537; 200000]%Z.
Proof.
  repeat (constructor; [split; [vm_compute; reflexivity|]; apply reads_back_eq;
                        vm_compute; reflexivity|]).
  constructor.
Qed.

Lemma write_200000_bytes_witness :
  healthy fresh_file
  ∧ Z.of_nat (length (dot_dumps large_value)) = 200000%Z
  ∧ (∀ rest, dot_loads (dot_dumps large_value ++ rest) = Some large_value)
  ∧ ∃ fd', Codec.write_metadata dot_dumps fresh_file large_value 65536 None = (Ok tt, fd')
      ∧ slots_needed 65536 (dot_dumps large_value) = 4%nat
      ∧ (∀ k, (k < 4)%nat →
           xattrs fd' !! Codec.slot_name (Codec.choose_key None) k
           = Some (chunk 65536 (dot_dumps large_value) k))
      ∧ Z.of_nat (length (chunk 65536 (dot_dumps large_value) 0)) = 65536%Z
      ∧ Z.of_nat (length (chunk 65536 (dot_dumps large_value) 1)) = 65536%Z
      ∧ Z.of_nat (length (chunk 65536 (dot_dumps large_value) 2)) = 65536%Z
      ∧ Z.of_nat (length (chunk 65536 (dot_dumps large_value) 3)) = 3392%Z
      ∧ (∀ name, (∀ k, (k < 4)%nat → name ≠ Codec.slot_name (Codec.choose_key None) k) →
                 xattrs fd' !! name = xattrs fresh_file !! name)
      ∧ Codec.read_metadata dot_loads fd' None = Ok (Some large_value).
Proof.
  assert (Z.of_nat (length (dot_dumps large_value)) = 200000%Z) as Hlen
    by (vm_compute; reflexivity).
  split; [by split|]. split; [exact Hlen|]. split; [apply dot_loads_dumps_app|].
  apply (CodecFacts.write_200000_bytes dot_dumps dot_loads fresh_file large_value None);
    [by split|exact Hlen|apply dot_loads_dumps_app].
Defined.

Lemma read_metadata_unsupported_first_slot_witness :
  get_faults unsupported_file !! Codec.choose_key None = Some ENOTSUP
  ∧ Codec.read_metadata raw_loads unsupported_file None = Ok None.
Proof.
  split; [reflexivity|].
  apply (CodecFacts.read_metadata_unsupported_first_slot raw_loads unsupported_file None).
  reflexivity.
Defined.

End CodecRuns.

(** ** The trigger registry *)
Module RegistryFacts.
Import Registry RegistrySpec.

Section WithPickle.
Variable pickle_dumps : metadata → bytes.
Variable pickle_loads : bytes → option metadata.
Variable py_eval : string → option mc_dict.

(** What the section takes from pickle: [pickle.loads] reads one pickle
    and ignores the bytes after it, and no pickle is empty. *)
Hypothesis loads_ignores_trailing :
  ∀ md rest, pickle_loads (pickle_dumps md ++ rest) = Some md.
Hypothesis dumps_nonempty : ∀ md, pickle_dumps md ≠ [].

Abbreviation get_swift_metadata := (Registry.get_swift_metadata pickle_loads).
Abbreviation set_swift_metadata := (Registry.set_swift_metadata pickle_dumps).
Abbreviation get_microcontroller_dict :=
  (Registry.get_microcontroller_dict pickle_loads py_eval).
Abbreviation set_microcontroller :=
  (Registry.set_microcontroller pickle_dumps pickle_loads py_eval).
Abbreviation delete_microcontroller :=
  (Registry.delete_microcontroller pickle_dumps pickle_loads).

Lemma set_swift_metadata_ok w p fd md :
  files w !! p = Some fd → healthy fd →
  ∃ fd', set_swift_metadata w p md = (Ok tt, with_file w p fd')
         ∧ healthy fd'
         ∧ get_swift_metadata (with_file w p fd') p = Ok (Some md).
Proof.
  intros Hp Hh. unfold Registry.set_swift_metadata, Registry.get_swift_metadata.
  rewrite Hp.
  destruct (CodecFacts.write_then_read_general pickle_dumps pickle_loads fd md
              Codec.default_xattr_size (Some SWIFT_METADATA_KEY))
    as (fd' & stale & Hw & Hr & _); [done|done|apply dumps_nonempty|].
  unfold CodecSpec.loads_outcome in Hr. rewrite loads_ignores_trailing in Hr.
  destruct (CodecFacts.write_metadata_spec pickle_dumps fd md Codec.default_xattr_size
              (Some SWIFT_METADATA_KEY)) as (fd'' & Hw' & Hg & Hs & _);
    [done|apply Hh|].
  rewrite Hw in Hw'. injection Hw' as <-.
  exists fd'. rewrite Hw. split; [done|]. split.
  - destruct Hh as [Hh1 Hh2]. split; congruence.
  - simpl. by rewrite lookup_insert_eq.
Qed.

Lemma contains_char_app c s1 s2 :
  contains_char c (s1 +:+ s2) = (contains_char c s1 || contains_char c s2)%bool.
Proof.
  induction s1 as [|a s1 IH]; [done|].
  change (contains_char c (String a (s1 +:+ s2))
          = (contains_char c (String a s1) || contains_char c s2)%bool).
  simpl. rewrite IH. by destruct (Ascii.eqb a c).
Qed.

Lemma sysmeta_key_ne_header trigger mc : sysmeta_key trigger mc ≠ VERTIGO_MC_HEADER.
Proof.
  unfold sysmeta_key, VERTIGO_MC_HEADER. intros Heq.
  apply (inj (String.app SYSMETA_HEADER)) in Heq.
  assert (contains_char "-" (trigger +:+ "-" +:+ mc) = true) as Hc.
  { rewrite !contains_char_app. simpl. by rewrite orb_true_r. }
  by rewrite Heq in Hc.
Qed.

Lemma get_microcontroller_dict_inv w v got :
  get_microcontroller_dict w v = Ok got →
  ∃ md, get_swift_metadata w (data_file v) = Ok (Some md).
Proof.
  unfold Registry.get_microcontroller_dict.
  destruct (get_swift_metadata w (data_file v)) as [[md|]| |]; [eauto|done..].
Qed.

Lemma set_microcontroller_ok w v trigger mc fd got entry :
  files w !! data_file v = Some fd → healthy fd →
  get_microcontroller_dict w v = Ok got →
  working_dict w got !! trigger = Some entry →
  ∃ w1 fd1,
    set_microcontroller w v trigger mc = (Ok tt, w1)
    ∧ files w1 = <[data_file v := fd1]> (files w) ∧ healthy fd1
    ∧ ∀ v', data_file v' = data_file v →
        get_microcontroller_dict w1 v'
        = Ok (Some (<[trigger := Some (added mc entry)]> (working_dict w got))).
Proof.
  intros Hp Hh Hgot Hentry.
  destruct (get_microcontroller_dict_inv _ _ _ Hgot) as [md Hmd].
  unfold Registry.set_microcontroller. rewrite Hgot.
  unfold working_dict in *.
  destruct (truthy_dict got) eqn:Htr; cbn [negb].
  - rewrite Hentry.
    assert ((if truthy_entry entry then default [] entry else []) = default [] entry) as ->.
    { by destruct entry as [[|??]|]. }
    fold (added mc entry). rewrite Hmd.
    set (d1 := <[trigger := Some (added mc entry)]> (default ∅ got)).
    set (md2 := if truthy_str _ then _ else _).
    destruct (set_swift_metadata_ok w (data_file v) fd md2 Hp Hh) as (fd1 & Hs & Hh1 & Hg1).
    rewrite Hs. exists (with_file w (data_file v) fd1), fd1.
    split_and!; [done..|]. intros v' Hv'.
    unfold Registry.get_microcontroller_dict. rewrite Hv', Hg1.
    assert (md2 !! VERTIGO_MC_HEADER = Some (VDict d1)) as ->; [|done].
    subst md2. pose proof (sysmeta_key_ne_header trigger mc).
    case_match; [rewrite lookup_insert_ne by done|rewrite lookup_delete_ne by done];
      by rewrite lookup_insert_eq.
  - rewrite Hentry.
    assert ((if truthy_entry entry then default [] entry else []) = default [] entry) as ->.
    { by destruct entry as [[|??]|]. }
    fold (added mc entry).
    set (d1 := <[trigger := Some (added mc entry)]> (DEFAULT_MD_STRING w)).
    change (Registry.get_swift_metadata pickle_loads (with_default w d1) (data_file v))
      with (get_swift_metadata w (data_file v)).
    rewrite Hmd.
    set (md2 := if truthy_str _ then _ else _).
    destruct (set_swift_metadata_ok (with_default w d1) (data_file v) fd md2 Hp Hh)
      as (fd1 & Hs & Hh1 & Hg1).
    rewrite Hs. exists (with_file (with_default w d1) (data_file v) fd1), fd1.
    split_and!; [done..|]. intros v' Hv'.
    unfold Registry.get_microcontroller_dict. rewrite Hv', Hg1.
    assert (md2 !! VERTIGO_MC_HEADER = Some (VDict d1)) as ->; [|done].
    subst md2. pose proof (sysmeta_key_ne_header trigger mc).
    case_match; [rewrite lookup_insert_ne by done|rewrite lookup_delete_ne by done];
      by rewrite lookup_insert_eq.
Qed.

Lemma count_occ_added mc entry :
  (count_occ string_dec (default [] entry) mc ≤ 1)%nat →
  count_occ string_dec (added mc entry) mc = 1%nat.
Proof.
  intros Hle. unfold added. case_bool_decide as Hin.
  - apply list_elem_of_In, (count_occ_In string_dec) in Hin. lia.
  - rewrite count_occ_app. simpl.
    rewrite list_elem_of_In, (count_occ_not_In string_dec) in Hin.
    rewrite Hin. by destruct (string_dec mc mc).
Qed.

Lemma added_elem mc entry : mc ∈ added mc entry.
Proof. unfold added. case_bool_decide; [done|]. set_solver. Qed.

(** C4. With pickle as above, take an object whose data file answers
    every attribute call and whose trigger dictionary can be read, a
    trigger that is a key of the dictionary the code works on, and a
    handler that occurs at most once in that trigger's list. Two calls of
    [set_microcontroller] with that trigger and handler both succeed;
    after the first the handler occurs exactly once in the stored list,
    and the second leaves the stored list as it is. *)
Theorem set_microcontroller_twice w v v' trigger mc fd got entry :
  data_file v' = data_file v →
  files w !! data_file v = Some fd → healthy fd →
  get_microcontroller_dict w v = Ok got →
  working_dict w got !! trigger = Some entry →
  (count_occ string_dec (default [] entry) mc ≤ 1)%nat →
  ∃ w1 w2 d1 d2 l,
    set_microcontroller w v trigger mc = (Ok tt, w1)
    ∧ get_microcontroller_dict w1 v = Ok (Some d1)
    ∧ d1 !! trigger = Some (Some l)
    ∧ set_microcontroller w1 v' trigger mc = (Ok tt, w2)
    ∧ get_microcontroller_dict w2 v = Ok (Some d2)
    ∧ d2 !! trigger = Some (Some l)
    ∧ count_occ string_dec l mc = 1%nat.
Proof.
  intros Hv Hp Hh Hgot Hentry Hcount.
  destruct (set_microcontroller_ok w v trigger mc fd got entry Hp Hh Hgot Hentry)
    as (w1 & fd1 & Hs1 & Hf1 & Hh1 & Hg1).
  set (d1 := <[trigger := Some (added mc entry)]> (working_dict w got)) in *.
  assert (working_dict w1 (Some d1) = d1) as Hwd.
  { unfold working_dict. simpl. case_bool_decide as He; [|done].
    exfalso. apply (insert_non_empty _ _ _ He). }
  destruct (set_microcontroller_ok w1 v' trigger mc fd1 (Some d1) (Some (added mc entry)))
    as (w2 & fd2 & Hs2 & Hf2 & Hh2 & Hg2).
  { by rewrite Hf1, Hv, lookup_insert_eq. }
  { done. }
  { by apply Hg1. }
  { rewrite Hwd. apply lookup_insert_eq. }
  rewrite Hwd in Hg2.
  assert (added mc (Some (added mc entry)) = added mc entry) as Hadd.
  { unfold added at 1. simpl. rewrite bool_decide_eq_true_2; [done|apply added_elem]. }
  rewrite Hadd in Hg2.
  exists w1, w2, d1, d1, (added mc entry).
  split_and!; [done|by apply Hg1|apply lookup_insert_eq|done| |apply lookup_insert_eq
              |by apply count_occ_added].
  rewrite (Hg2 v) by done. subst d1. by rewrite insert_insert_eq.
Qed.

Lemma clean_microcontroller_dict_collapsed md md' :
  clean_microcontroller_dict md = Ok md' → collapsed md'.
Proof.
  unfold clean_microcontroller_dict, collapsed.
  destruct (md !! VERTIGO_MC_HEADER) as [[s|d]|]; [done| |done].
  case_bool_decide as Hall; intros [= <-].
  - by rewrite lookup_delete_eq.
  - rewrite lookup_insert_eq. split.
    + intros t. rewrite lookup_fmap.
      destruct (d !! t) as [[[|??]|]|]; done.
    + apply map_not_Forall in Hall as (t & e & Ht & He); [|apply _].
      destruct e as [l|]; [eauto|done].
Qed.

Lemma delete_mutation_collapsed got trigger mc md' :
  delete_mutation got trigger mc = Ok md' → collapsed md'.
Proof.
  unfold delete_mutation. case_match.
  - destruct got as [md|]; [|done]. intros [= <-]. unfold collapsed.
    assert (filter (λ kv : string * md_value, startswith kv.1 SYSMETA_HEADER = false) md
              !! VERTIGO_MC_HEADER = None) as ->; [|done].
    apply map_lookup_filter_None. right. intros x _. by vm_compute.
  - repeat case_match; try done; apply clean_microcontroller_dict_collapsed.
Qed.

Lemma nulled_clean (d : mc_dict) :
  (λ e, if truthy_entry e then e else None) <$> d = nulled d.
Proof. unfold nulled. apply map_fmap_ext. by intros t [[|??]|] _. Qed.

(** What the clean-up leaves under the trigger-map key is what the
    specification prescribes. *)
Lemma clean_microcontroller_dict_entry md d :
  md !! VERTIGO_MC_HEADER = Some (VDict d) →
  ∃ md', clean_microcontroller_dict md = Ok md'
         ∧ md' !! VERTIGO_MC_HEADER = collapsed_entry d.
Proof.
  intros Hd. unfold clean_microcontroller_dict, collapsed_entry. rewrite Hd.
  rewrite nulled_clean.
  case_bool_decide as Hall; eexists; (split; [reflexivity|]).
  - rewrite lookup_delete_eq. by rewrite decide_True.
  - rewrite lookup_insert_eq. by rewrite decide_False.
Qed.

Lemma delete_sysmeta_keys_header trigger mc_list : ∀ md : metadata,
  delete_sysmeta_keys trigger mc_list md !! VERTIGO_MC_HEADER
  = md !! VERTIGO_MC_HEADER.
Proof.
  unfold delete_sysmeta_keys.
  induction mc_list as [|m l IH]; intros md; [done|].
  cbn [foldl]. rewrite IH. apply lookup_delete_ne, sysmeta_key_ne_header.
Qed.

(** The two ways [delete_microcontroller] gets to [set_swift_metadata]:
    everything of the engine is removed, or one trigger's list is changed
    and the dictionary cleaned up. *)
Lemma delete_mutation_entry got trigger mc md' :
  delete_mutation got trigger mc = Ok md' →
  ∃ md, got = Some md
    ∧ ((trigger = "vertigo" ∧ mc = "all" ∧ md' !! VERTIGO_MC_HEADER = None)
       ∨ ∃ d l, md !! VERTIGO_MC_HEADER = Some (VDict d)
                ∧ d !! trigger = Some (Some l)
                ∧ md' !! VERTIGO_MC_HEADER
                  = collapsed_entry (after_removal d trigger mc l)).
Proof.
  unfold delete_mutation.
  destruct (bool_decide (trigger = "vertigo") && bool_decide (mc = "all"))%bool eqn:Hva.
  - destruct got as [md|]; [|done]. intros [= <-]. exists md. split; [done|]. left.
    apply andb_prop in Hva as [Ht Hm].
    apply bool_decide_eq_true_1 in Ht. apply bool_decide_eq_true_1 in Hm.
    split; [done|]. split; [done|].
    apply map_lookup_filter_None. right. intros x _. by vm_compute.
  - clear Hva. destruct got as [md|]; [|done].
    destruct (md !! VERTIGO_MC_HEADER) as [[s|d]|] eqn:Hd; [done| |done].
    case_bool_decide as Hempty; [done|].
    destruct (d !! trigger) as [entry|] eqn:Ht; [|done].
    unfold after_removal.
    case_bool_decide as Hall.
    + destruct entry as [mc_list|]; [|done]. intros Hclean.
      exists md. split; [done|]. right. exists d, mc_list.
      split; [done|]. split; [done|].
      destruct (clean_microcontroller_dict_entry
                  (delete_sysmeta_keys trigger mc_list
                     (<[VERTIGO_MC_HEADER := VDict (<[trigger := None]> d)]> md))
                  (<[trigger := None]> d)) as (md'' & Hc & He).
      { by rewrite delete_sysmeta_keys_header, lookup_insert_eq. }
      rewrite Hc in Hclean. by injection Hclean as <-.
    + destruct entry as [l|]; [|done].
      case_bool_decide as Hin; [|done]. intros Hclean.
      exists md. split; [done|]. right. exists d, l.
      split; [done|]. split; [done|].
      destruct (clean_microcontroller_dict_entry
                  (delete (sysmeta_key trigger mc)
                     (<[VERTIGO_MC_HEADER :=
                          VDict (<[trigger := Some (list_remove_first mc l)]> d)]> md))
                  (<[trigger := Some (list_remove_first mc l)]> d)) as (md'' & Hc & He).
      { rewrite lookup_delete_ne by apply sysmeta_key_ne_header.
        by rewrite lookup_insert_eq. }
      rewrite Hc in Hclean. by injection Hclean as <-.
Qed.

(** C5. With pickle as above, consider a call of [delete_microcontroller]
    that returns normally (it persisted its change), on a data file whose
    attribute store answers every call. It either removed everything of
    the engine, and the next read finds no trigger-map key; or it changed
    the list of one trigger of the stored trigger map, and the next read
    finds under the trigger-map key exactly what the specification
    prescribes for the map after that change: no key at all when every
    value is null once the emptied lists are, and otherwise the map with
    every emptied list stored as null and every other value as it was.
    In particular the map read back is never present with only null
    values, and never holds an empty list. *)
Theorem delete_microcontroller_collapses w v trigger mc w' fd :
  files w !! data_file v = Some fd → healthy fd →
  delete_microcontroller w v trigger mc = (Ok tt, w') →
  ∃ md md',
    get_swift_metadata w (data_file v) = Ok (Some md)
    ∧ get_swift_metadata w' (data_file v) = Ok (Some md')
    ∧ collapsed md'
    ∧ ((trigger = "vertigo" ∧ mc = "all" ∧ md' !! VERTIGO_MC_HEADER = None)
       ∨ ∃ d l, md !! VERTIGO_MC_HEADER = Some (VDict d)
                ∧ d !! trigger = Some (Some l)
                ∧ md' !! VERTIGO_MC_HEADER
                  = collapsed_entry (after_removal d trigger mc l)).
Proof.
  intros Hp Hh. unfold Registry.delete_microcontroller.
  destruct (get_swift_metadata w (data_file v)) as [got| |]; [|done..].
  destruct (delete_mutation got trigger mc) as [md'| |] eqn:Hmut; [|done..].
  destruct (set_swift_metadata_ok w (data_file v) fd md' Hp Hh) as (fd' & Hs & _ & Hg).
  rewrite Hs. intros [= <-].
  destruct (delete_mutation_entry got trigger mc md' Hmut) as (md & -> & Hcase).
  exists md, md'. split; [done|]. split; [done|].
  split; [by apply (delete_mutation_collapsed (Some md) trigger mc)|done].
Qed.

End WithPickle.

Section AnyPickle.
Variable pickle_dumps : metadata → bytes.
Variable pickle_loads : bytes → option metadata.

Abbreviation get_swift_metadata := (Registry.get_swift_metadata pickle_loads).
Abbreviation delete_microcontroller :=
  (Registry.delete_microcontroller pickle_dumps pickle_loads).

(** C10. When the handler is not in the trigger's list, the trigger's list
    is [None], or no trigger dictionary (or no metadata at all) is stored,
    and the request is not the removal of everything, the statements
    before [set_swift_metadata] raise, [delete_microcontroller] raises its
    [ValueError], and the world, data files included, is what it was. *)
Theorem delete_microcontroller_failure_keeps_metadata w v trigger mc got :
  get_swift_metadata w (data_file v) = Ok got →
  ¬ (trigger = "vertigo" ∧ mc = "all") →
  not_assigned trigger mc got →
  (∃ e, delete_mutation got trigger mc = Raise e)
  ∧ delete_microcontroller w v trigger mc
    = (Raise (ValueError (msg_not_assigned trigger mc)), w).
Proof.
  intros Hget Hnot Hna.
  assert (∃ e, delete_mutation got trigger mc = Raise e) as [e He].
  { unfold delete_mutation.
    assert ((bool_decide (trigger = "vertigo") && bool_decide (mc = "all"))%bool = false)
      as -> by (repeat case_bool_decide; naive_solver).
    destruct Hna as [|md Hmd|md d Hmd Hd|md d l Hmd Hd Hall Hl].
    - eauto.
    - rewrite Hmd. eauto.
    - rewrite Hmd, Hd. repeat case_match; eauto.
    - rewrite Hmd, Hd, (bool_decide_eq_false_2 (mc = "all")),
        (bool_decide_eq_false_2 (mc ∈ l)) by done.
      case_match; eauto. }
  split; [eauto|].
  unfold Registry.delete_microcontroller. by rewrite Hget, He.
Qed.
End AnyPickle.
End RegistryFacts.

(** ** The registry on a concrete object *)
Module RegistryRuns.
Import Registry RegistrySpec Samples SampleData SampleFacts.

Lemma sample_file_healthy : healthy sample_file.
Proof. split; vm_compute; reflexivity. Qed.

Lemma set_microcontroller_twice_witness :
  data_file sample_vertigo = data_file sample_vertigo
  ∧ files sample_world !! data_file sample_vertigo = Some sample_file
  ∧ healthy sample_file
  ∧ get_microcontroller_dict dot_loads no_eval sample_world sample_vertigo = Ok None
  ∧ working_dict sample_world None !! "onget" = Some None
  ∧ (count_occ string_dec (default [] None) "noop" ≤ 1)%nat
  ∧ ∃ w1 w2 d1 d2 l,
      set_microcontroller dot_dumps dot_loads no_eval sample_world sample_vertigo
        "onget" "noop" = (Ok tt, w1)
      ∧ get_microcontroller_dict dot_loads no_eval w1 sample_vertigo = Ok (Some d1)
      ∧ d1 !! "onget" = Some (Some l)
      ∧ set_microcontroller dot_dumps dot_loads no_eval w1 sample_vertigo
          "onget" "noop" = (Ok tt, w2)
      ∧ get_microcontroller_dict dot_loads no_eval w2 sample_vertigo = Ok (Some d2)
      ∧ d2 !! "onget" = Some (Some l)
      ∧ count_occ string_dec l "noop" = 1%nat.
Proof.
  assert (get_microcontroller_dict dot_loads no_eval sample_world sample_vertigo
          = Ok None) as Hgot by (vm_compute; reflexivity).
  assert (files sample_world !! data_file sample_vertigo = Some sample_file) as Hfile
    by apply lookup_singleton_eq.
  split; [reflexivity|]. split; [exact Hfile|]. split; [exact sample_file_healthy|].
  split; [exact Hgot|]. split; [reflexivity|]. split; [simpl; lia|].
  apply (RegistryFacts.set_microcontroller_twice dot_dumps dot_loads no_eval
           (λ md rest, dot_loads_dumps_app md rest) (λ md, dot_dumps_nonempty md)
           sample_world sample_vertigo sample_vertigo "onget" "noop"
           sample_file None None);
    [reflexivity|exact Hfile|exact sample_file_healthy|exact Hgot|reflexivity
    |simpl; lia].
Defined.

(** The module-level default dictionary is the object the first call
    updates: after it, the default itself lists the handler. *)
Lemma default_dictionary_is_shared :
  DEFAULT_MD_STRING sample_world !! "onget" = Some None
  ∧ DEFAULT_MD_STRING bound_world !! "onget" = Some (Some ["noop"]).
Proof. split; vm_compute; reflexivity. Qed.

Lemma bound_world_metadata :
  get_swift_metadata dot_loads bound_world sample_path = Ok (Some bound_metadata).
Proof. vm_compute. reflexivity. Qed.

Lemma delete_microcontroller_collapses_witness :
  let w' := snd (delete_microcontroller dot_dumps dot_loads two_triggers_world
                   sample_vertigo "onget" "noop") in
  files two_triggers_world !! data_file sample_vertigo = Some two_triggers_file
  ∧ healthy two_triggers_file
  ∧ delete_microcontroller dot_dumps dot_loads two_triggers_world sample_vertigo
      "onget" "noop" = (Ok tt, w')
  ∧ ∃ md md',
      get_swift_metadata dot_loads two_triggers_world (data_file sample_vertigo)
      = Ok (Some md)
      ∧ get_swift_metadata dot_loads w' (data_file sample_vertigo) = Ok (Some md')
      ∧ collapsed md'
      ∧ (("onget" = "vertigo" ∧ "noop" = "all" ∧ md' !! VERTIGO_MC_HEADER = None)
         ∨ ∃ d l, md !! VERTIGO_MC_HEADER = Some (VDict d)
                  ∧ d !! "onget" = Some (Some l)
                  ∧ md' !! VERTIGO_MC_HEADER
                    = collapsed_entry (after_removal d "onget" "noop" l)).
Proof.
  intros w'.
  assert (files two_triggers_world !! data_file sample_vertigo = Some two_triggers_file)
    as Hfile by (vm_compute; reflexivity).
  assert (healthy two_triggers_file) as Hh by (split; vm_compute; reflexivity).
  assert (delete_microcontroller dot_dumps dot_loads two_triggers_world sample_vertigo
            "onget" "noop" = (Ok tt, w')) as Hdel by (vm_compute; reflexivity).
  split; [exact Hfile|]. split; [exact Hh|]. split; [exact Hdel|].
  apply (RegistryFacts.delete_microcontroller_collapses dot_dumps dot_loads
           (λ md rest, dot_loads_dumps_app md rest) (λ md, dot_dumps_nonempty md)
           two_triggers_world sample_vertigo "onget" "noop" w' two_triggers_file
           Hfile Hh Hdel).
Defined.

(** On that object, removing the only handler of ["onget"] leaves the
    trigger map in place, with ["onget"] stored as null and ["onput"]
    as it was; removing the only handler of ["onput"] next leaves no
    trigger-map key at all. *)
Lemma emptied_trigger_is_stored_as_null :
  let w1 := snd (delete_microcontroller dot_dumps dot_loads two_triggers_world
                   sample_vertigo "onget" "noop") in
  let w2 := snd (delete_microcontroller dot_dumps dot_loads w1
                   sample_vertigo "onput" "compress") in
  match get_swift_metadata dot_loads w1 sample_path with
  | Ok (Some md) => Some (md !! VERTIGO_MC_HEADER)
  | _ => None
  end
  = Some (Some (VDict {[ "onget" := None; "onput" := Some ["compress"];
                         "ondelete" := None; "ontimer" := None ]}))
  ∧ match get_swift_metadata dot_loads w2 sample_path with
    | Ok (Some md) => Some (md !! VERTIGO_MC_HEADER)
    | _ => None
    end = Some None.
Proof. vm_compute. done. Qed.

(** After the last handler of the only bound trigger is removed, the
    stored metadata is the object's original metadata: no trigger
    dictionary is left. *)
Lemma last_handler_removed :
  let w' := snd (delete_microcontroller dot_dumps dot_loads bound_world
                   sample_vertigo "onget" "noop") in
  get_swift_metadata dot_loads w' sample_path = Ok (Some sample_metadata).
Proof. vm_compute. reflexivity. Qed.

Lemma delete_microcontroller_failure_keeps_metadata_witness :
  get_swift_metadata dot_loads bound_world (data_file sample_vertigo)
  = Ok (Some bound_metadata)
  ∧ ¬ ("onget" = "vertigo" ∧ "other" = "all")
  ∧ not_assigned "onget" "other" (Some bound_metadata)
  ∧ (∃ e, delete_mutation (Some bound_metadata) "onget" "other" = Raise e)
  ∧ delete_microcontroller dot_dumps dot_loads bound_world sample_vertigo
      "onget" "other"
    = (Raise (ValueError (msg_not_assigned "onget" "other")), bound_world).
Proof.
  assert (not_assigned "onget" "other" (Some bound_metadata)) as Hna.
  { apply (handler_absent _ _ bound_metadata
             (<[ "onget" := Some ["noop"] ]> DEFAULT_MD_STRING_initial) ["noop"]).
    - reflexivity.
    - reflexivity.
    - discriminate.
    - intros Hin. apply list_elem_of_singleton in Hin. discriminate. }
  assert (¬ ("onget" = "vertigo" ∧ "other" = "all")) as Hne
    by (intros [? _]; discriminate).
  split; [exact bound_world_metadata|]. split; [exact Hne|]. split; [exact Hna|].
  apply (RegistryFacts.delete_microcontroller_failure_keeps_metadata
           dot_dumps dot_loads bound_world sample_vertigo "onget" "other"
           (Some bound_metadata) bound_world_metadata Hne Hna).
Defined.

End RegistryRuns.

(** ** The proxy handlers *)
Module ProxyFacts.
Import Proxy ProxySpec.

Section WithBackend.
Variable backend : Type.
Variable app : backend → request → response * backend.
Variable loads_cached : string → option (gmap string string * string).
Variable apply_storlet_on_get : response → string → Proxy.PM backend response.

Abbreviation GET := (Proxy.GET backend app loads_cached apply_storlet_on_get).
Abbreviation MOVE := (Proxy.MOVE backend app).
Abbreviation PUT := (Proxy.PUT backend app).
Abbreviation expand_object_list := (Proxy.expand_object_list backend app).
Abbreviation create_link := (Proxy.create_link backend app).
Abbreviation pstate := (Proxy.pstate backend).

Lemma same_path_answer msg :
  new_response msg {[ "Etag" := "" ]}
  = {| status_int := 200;
       resp_headers := {[ "Etag" := ""; "Content-Type" := default_content_type;
                          "Content-Length" := pretty (String.length msg) ]};
       resp_body := msg |}.
Proof. unfold new_response. by rewrite <-insert_union_singleton_l. Qed.

(** C7 (as amended). When the destination a move names is the path of the
    requested object itself, [MOVE] (destination in the [Destination]
    header) and [PUT] of an object move (destination in
    [X-Vertigo-Link-To]) send no request at all into the pipeline, so
    nothing is copied, linked or written, and answer with the response
    built on the spot: its status is 200, which counts as a success; its
    body is the same-path error message; its headers are an empty [Etag],
    swob's default [Content-Type] and the length of the message as
    [Content-Length]. *)
Theorem same_path_is_rejected h (s : pstate) :
  let link_path := path_join (container h) (obj h) in
  let answer := λ msg,
    {| status_int := 200;
       resp_headers := {[ "Etag" := ""; "Content-Type" := default_content_type;
                          "Content-Length" := pretty (String.length msg) ]};
       resp_body := msg |} in
  (req_headers (request_ h) !! "Destination" = Some link_path →
   MOVE h s = (Ok (answer msg_move_same), s))
  ∧ (is_trigger_assignation h = false → is_trigger_deletion h = false →
     is_object_grouping h = false → is_object_move h = true →
     req_headers (request_ h) !! "X-Vertigo-Link-To" = Some link_path →
     PUT h s = (Ok (answer msg_put_same), s))
  ∧ is_success (answer msg_move_same) = true
  ∧ is_success (answer msg_put_same) = true.
Proof.
  intros link_path answer. split_and!; [| |done..].
  - intros Hd. unfold Proxy.MOVE, bind, header. fold link_path. rewrite Hd. unfold ret.
    rewrite bool_decide_eq_false_2 by (intros Hne; by apply Hne).
    by rewrite same_path_answer.
  - intros Ha Hdel Hg Hm Hd. unfold Proxy.PUT. rewrite Ha, Hdel, Hg, Hm. simpl.
    unfold Proxy.PUT_object_move, bind, header. fold link_path. rewrite Hd. unfold ret.
    rewrite bool_decide_eq_false_2 by (intros Hne; by apply Hne).
    by rewrite same_path_answer.
Qed.

(** The content type [create_link] writes is not the one the handlers
    compare with. *)
Lemma marker_mismatch : create_link_content_type ≠ link_content_type.
Proof. done. Qed.

(** C3 (what the code does). If the object the request names is not cached
    and the backend answers with the content type [create_link] writes,
    [GET] does not resolve the link: it sends the one request for the object
    itself, none for the destination, and returns the status and body of
    the link object. *)
Theorem GET_ignores_created_link h (s : pstate) req r b :
  _check_microcntroller_execution backend h (GET_object_name h) s = (Ok req, s) →
  memcache h !! GET_object_name h = None →
  app (backend_state s) req = (r, b) →
  resp_headers r !! "Content-Type" = Some create_link_content_type →
  resp_headers r !! "Storlet-List" = None →
  ∃ r', GET h s = (Ok r', {| backend_state := b; issued := issued s ++ [req] |})
        ∧ status_int r' = status_int r ∧ resp_body r' = resp_body r.
Proof.
  intros Hchk Hcache Happ Hct Hst.
  unfold Proxy.GET. fold (GET_object_name h).
  unfold bind at 1. rewrite Hchk.
  unfold bind at 1. unfold _get_cached_object at 1. rewrite Hcache. unfold ret at 1.
  unfold bind at 1. unfold get_response at 1. rewrite Happ.
  unfold bind at 1. cbn [resp_headers]. rewrite Hct.
  rewrite bool_decide_eq_false_2 by (intros Heq; discriminate Heq).
  unfold ret at 1. unfold bind at 1. rewrite Hst. unfold ret.
  destruct (resp_headers r !! "Content-Length"); eauto.
Qed.

(** With the content type the handler compares with, [GET] does follow the
    link: one further request, for the destination, whose status and body
    it returns. *)
Theorem GET_follows_marked_link h (s : pstate) req r b dest r2 b2 :
  _check_microcntroller_execution backend h (GET_object_name h) s = (Ok req, s) →
  memcache h !! GET_object_name h = None →
  app (backend_state s) req = (r, b) →
  resp_headers r !! "Content-Type" = Some link_content_type →
  resp_headers r !! link_to_header = Some dest →
  memcache h !! path_join (account h) dest = None →
  let req2 := make_subrequest (req_query req) "GET"
                (join_all [api_version h; account h; dest]) (req_headers req) in
  app b req2 = (r2, b2) →
  resp_headers r2 !! "Storlet-List" = None →
  ∃ r', GET h s = (Ok r', {| backend_state := b2; issued := issued s ++ [req; req2] |})
        ∧ status_int r' = status_int r2 ∧ resp_body r' = resp_body r2.
Proof.
  intros Hchk Hcache Happ Hct Hto Hcache2 req2 Happ2 Hst.
  unfold Proxy.GET. fold (GET_object_name h).
  unfold bind at 1. rewrite Hchk.
  unfold bind at 1. unfold _get_cached_object at 1. rewrite Hcache. unfold ret at 1.
  unfold bind at 1. unfold get_response at 1. rewrite Happ.
  unfold bind at 1. cbn [resp_headers]. rewrite Hct.
  rewrite bool_decide_eq_true_2 by done. rewrite Hto.
  unfold bind at 1. unfold _get_cached_object at 1. rewrite Hcache2. unfold ret at 1.
  unfold _get_linked_object, get_response. simpl. fold req2. rewrite Happ2.
  unfold bind at 1. rewrite Hst. unfold ret. rewrite <-(assoc_L (++)). simpl.
  destruct (resp_headers r2 !! "Content-Length"); eauto.
Qed.

Lemma split_on_line c n rest :
  contains_char c n = false →
  split_on c (n +:+ String c rest) = n :: split_on c rest.
Proof.
  induction n as [|a n IH]; intros Hc.
  - change ("" +:+ String c rest) with (String c rest). simpl.
    by rewrite Ascii.eqb_refl.
  - change (String a n +:+ String c rest) with (String a (n +:+ String c rest)).
    simpl in *. apply orb_false_iff in Hc as [Ha Hn].
    by rewrite Ha, IH.
Qed.

Lemma listing_lines names :
  Forall line_name names →
  filter (λ o, o ≠ "") (split_on (ascii_of_nat 10) (listing_body names)) = names.
Proof.
  induction 1 as [|n names [Hne Hnl] _ IH]; [done|].
  cbn [listing_body foldr]. fold (listing_body names).
  change (nl +:+ listing_body names) with (String (ascii_of_nat 10) (listing_body names)).
  rewrite split_on_line by done.
  rewrite filter_cons_True by done. by rewrite IH.
Qed.

(** What [_get_object_list] makes of a container listing. *)
Lemma get_object_list_listing h (s : pstate) r b names :
  app (backend_state s) (listing_request h) = (r, b) →
  resp_body r = listing_body names →
  Forall line_name names →
  _get_object_list backend app h (obj h) s
  = (Ok ((if bool_decide (obj h = "*") then [""] else []) ++ names),
     {| backend_state := b; issued := issued s ++ [listing_request h] |}).
Proof.
  intros Happ Hbody Hnames.
  unfold _get_object_list, listing_request in *.
  case_bool_decide; unfold bind, get_response; rewrite Happ; unfold ret;
    by rewrite Hbody, listing_lines.
Qed.

(** C8 (as amended). For an object name that contains a star,
    [expand_object_list] sends one listing request for the container, with
    the query string of the request for the bare name ["*"] and with
    [prefix=] the text before the last slash of the name, followed by a
    slash, otherwise. When the answer lists the names [names], one per
    line, the object list is [names], preceded by the empty name in the
    case of the bare ["*"]. *)
Theorem wildcard_expansion h (s : pstate) r b names :
  contains_char "*" (obj h) = true →
  app (backend_state s) (listing_request h) = (r, b) →
  resp_body r = listing_body names →
  Forall line_name names →
  expand_object_list h s
  = (Ok ((if bool_decide (obj h = "*") then [""] else []) ++ names),
     {| backend_state := b; issued := issued s ++ [listing_request h] |}).
Proof.
  intros Hstar Happ Hbody Hnames.
  unfold Proxy.expand_object_list. rewrite Hstar.
  by apply (get_object_list_listing h s r b names).
Qed.
End WithBackend.
End ProxyFacts.

(** ** The proxy handlers on concrete pipelines *)
Module ProxyRuns.
Import Proxy ProxySpec Samples SampleData.

Lemma GET_ignores_created_link_witness :
  _check_microcntroller_execution _ link_handler (GET_object_name link_handler)
    linked_state = (Ok (request_ link_handler), linked_state)
  ∧ memcache link_handler !! GET_object_name link_handler = None
  ∧ store_app (backend_state linked_state) (request_ link_handler)
    = (link_response, backend_state linked_state)
  ∧ resp_headers link_response !! "Content-Type" = Some create_link_content_type
  ∧ resp_headers link_response !! "Storlet-List" = None
  ∧ ∃ r', GET _ store_app no_cache_loads no_storlets link_handler linked_state
          = (Ok r', {| backend_state := backend_state linked_state;
                       issued := issued linked_state ++ [request_ link_handler] |})
          ∧ status_int r' = status_int link_response
          ∧ resp_body r' = resp_body link_response.
Proof.
  assert (store_app (backend_state linked_state) (request_ link_handler)
          = (link_response, backend_state linked_state)) as Happ
    by (vm_compute; reflexivity).
  split; [reflexivity|]. split; [reflexivity|]. split; [exact Happ|].
  split; [reflexivity|]. split; [reflexivity|].
  apply (ProxyFacts.GET_ignores_created_link _ store_app no_cache_loads no_storlets
           link_handler linked_state (request_ link_handler) link_response
           (backend_state linked_state));
    [reflexivity|reflexivity|exact Happ|reflexivity|reflexivity].
Defined.

(** [create_link] makes ["c/link"] point to ["c2/real"], whose body is
    ["real data"]; [GET] of the link then returns an empty body, and the two
    requests sent in all are the PUT and the GET of the link. *)
Lemma created_link_read_returns_link_body :
  let s := create_link _ store_app link_handler "/v1/AUTH_test/c/link" "c2/real"
             (start_state real_store) in
  let g := GET _ store_app no_cache_loads no_storlets link_handler (snd s) in
  status_int <$> (match fst s with Ok r => Some r | _ => None end) = Some 201%Z
  ∧ resp_body <$> (match fst g with Ok r => Some r | _ => None end) = Some ""
  ∧ (λ q, (req_method q, req_path q)) <$> issued (snd g)
    = [("PUT", "/v1/AUTH_test/c/link"); ("GET", "/v1/AUTH_test/c/link")].
Proof. vm_compute. done. Qed.

Lemma same_path_is_rejected_witness :
  let answer := λ msg,
    {| status_int := 200;
       resp_headers := {[ "Etag" := ""; "Content-Type" := default_content_type;
                          "Content-Length" := pretty (String.length msg) ]};
       resp_body := msg |} in
  req_headers (request_ move_handler) !! "Destination"
  = Some (path_join (container move_handler) (obj move_handler))
  ∧ req_headers (request_ move_handler) !! "X-Vertigo-Link-To"
    = Some (path_join (container move_handler) (obj move_handler))
  ∧ MOVE _ store_app move_handler (start_state real_store)
    = (Ok (answer msg_move_same), start_state real_store)
  ∧ PUT _ store_app move_handler (start_state real_store)
    = (Ok (answer msg_put_same), start_state real_store).
Proof.
  intros answer. split; [reflexivity|]. split; [reflexivity|].
  destruct (ProxyFacts.same_path_is_rejected _ store_app move_handler
              (start_state real_store)) as (Hmove & Hput & _).
  split; [apply Hmove; reflexivity|apply Hput; reflexivity].
Defined.

(** C7 (as stated) fails: what a same-path [MOVE] or [PUT] returns is not
    a conflict response. Its status is 200, [is_success] holds of it, and
    its body is not empty. *)
Lemma same_path_answer_is_a_success :
  ∃ r r',
    MOVE _ store_app move_handler (start_state real_store)
    = (Ok r, start_state real_store)
    ∧ PUT _ store_app move_handler (start_state real_store)
      = (Ok r', start_state real_store)
    ∧ status_int r = 200%Z ∧ is_success r = true ∧ resp_body r ≠ ""
    ∧ status_int r' = 200%Z ∧ is_success r' = true ∧ resp_body r' ≠ "".
Proof.
  eexists _, _. split; [reflexivity|]. split; [reflexivity|].
  repeat split; discriminate.
Qed.

(** C8 (as stated) fails for the bare wildcard: the object list starts with
    the empty name, which is no object of the container. *)
Lemma bare_wildcard_adds_empty_name :
  fst (expand_object_list _ (listing_app sample_names)
         (sample_handler "*" curl_headers) (start_state tt))
  = Ok ("" :: sample_names)
  ∧ "" ∉ sample_names.
Proof.
  split; [vm_compute; reflexivity|].
  intros Hin. repeat (apply elem_of_cons in Hin as [Hin|Hin]; [discriminate|]).
  by apply elem_of_nil in Hin.
Qed.

Lemma substring_0_length s : String.substring 0 (String.length s) s = s.
Proof. induction s as [|a s IH]; [done|]. simpl. by rewrite IH. Qed.

Lemma prefix_query rest :
  startswith ("prefix=" +:+ rest) "prefix=" = true
  ∧ String.substring 7 (String.length ("prefix=" +:+ rest) - 7) ("prefix=" +:+ rest)
    = rest.
Proof.
  change ("prefix=" +:+ rest)
    with (String "p" (String "r" (String "e" (String "f" (String "i"
           (String "x" (String "=" rest))))))).
  split; [by destruct rest|].
  cbn [String.length Nat.sub String.substring].
  rewrite Nat.sub_0_r. apply substring_0_length.
Qed.

Lemma Forall_line_name_filter (P : string → Prop) `{∀ o, Decision (P o)} objs :
  Forall line_name objs → Forall line_name (filter P objs).
Proof.
  induction 1 as [|o objs Ho _ IH]; [constructor|].
  rewrite filter_cons. case_decide; [by constructor|done].
Qed.

(** Against a container server that lists the names starting with the
    requested prefix, a wildcard other than the bare star expands to
    exactly the names of the container that start with the text before the
    last slash of the wildcard, followed by a slash. *)
Lemma folder_wildcard_lists_prefix objs h (s : pstate unit) :
  Forall line_name objs → contains_char "*" (obj h) = true → obj h ≠ "*" →
  expand_object_list _ (listing_app objs) h s
  = (Ok (filter (λ o, startswith o (rsplit1_head "/" (obj h) +:+ "/") = true) objs),
     {| backend_state := tt; issued := issued s ++ [listing_request h] |}).
Proof.
  intros Hobjs Hstar Hne.
  set (names := filter (λ o, startswith o (rsplit1_head "/" (obj h) +:+ "/") = true) objs).
  unfold expand_object_list. rewrite Hstar.
  rewrite (ProxyFacts.get_object_list_listing _ (listing_app objs) h s
             {| status_int := 200; resp_headers := ∅; resp_body := listing_body names |}
             tt names).
  - by rewrite bool_decide_eq_false_2.
  - unfold listing_app, listing_request. rewrite bool_decide_eq_false_2 by done.
    cbn [req_query make_subrequest].
    destruct (prefix_query (rsplit1_head "/" (obj h) +:+ "/")) as [-> ->].
    by destruct (backend_state s).
  - done.
  - by apply Forall_line_name_filter.
Qed.

(** Against the same server, the bare star expands to the empty name
    followed by every name of the container. *)
Lemma bare_wildcard_lists_all objs h (s : pstate unit) :
  Forall line_name objs → obj h = "*" → req_query (request_ h) = "" →
  expand_object_list _ (listing_app objs) h s
  = (Ok ("" :: objs),
     {| backend_state := tt; issued := issued s ++ [listing_request h] |}).
Proof.
  intros Hobjs Hstar Hq.
  assert (contains_char "*" (obj h) = true) as Hc by (by rewrite Hstar).
  unfold expand_object_list. rewrite Hc.
  rewrite (ProxyFacts.get_object_list_listing _ (listing_app objs) h s
             {| status_int := 200; resp_headers := ∅; resp_body := listing_body objs |}
             tt objs).
  - by rewrite bool_decide_eq_true_2.
  - unfold listing_app, listing_request. rewrite bool_decide_eq_true_2 by done.
    cbn [req_query make_subrequest]. rewrite Hq. cbn.
    destruct (backend_state s). do 3 f_equal.
    clear. induction objs as [|o objs IH]; [done|].
    rewrite filter_cons_True; [by rewrite IH|by destruct o].
  - done.
  - done.
Qed.

Lemma sample_names_lines : Forall line_name ["photos/1.jpg"; "photos/2.jpg"].
Proof. repeat constructor; discriminate. Qed.

Lemma wildcard_expansion_witness :
  contains_char "*" (obj folder_handler) = true
  ∧ listing_app sample_names (backend_state (start_state tt))
      (listing_request folder_handler)
    = (folder_listing, tt)
  ∧ resp_body folder_listing = listing_body ["photos/1.jpg"; "photos/2.jpg"]
  ∧ Forall line_name ["photos/1.jpg"; "photos/2.jpg"]
  ∧ expand_object_list _ (listing_app sample_names) folder_handler (start_state tt)
    = (Ok ((if bool_decide (obj folder_handler = "*") then [""] else [])
           ++ ["photos/1.jpg"; "photos/2.jpg"]),
       {| backend_state := tt;
          issued := issued (start_state tt) ++ [listing_request folder_handler] |}).
Proof.
  assert (listing_app sample_names (backend_state (start_state tt))
            (listing_request folder_handler)
          = (folder_listing, tt))
    as Happ by (vm_compute; reflexivity).
  split; [reflexivity|]. split; [exact Happ|]. split; [reflexivity|].
  split; [exact sample_names_lines|].
  apply (ProxyFacts.wildcard_expansion _ (listing_app sample_names) folder_handler
           (start_state tt) folder_listing tt ["photos/1.jpg"; "photos/2.jpg"]);
    [reflexivity|exact Happ|reflexivity|exact sample_names_lines].
Defined.

End ProxyRuns.

(** ** More on the metadata codec: failures, termination, independent keys *)
Module CodecMore.
Import CodecSpec CodecFacts.

Section WithPickle.
Context {M : Type}.
Variable pickle_dumps : M → bytes.
Variable pickle_loads : bytes → option M.

Abbreviation read_loop := (Codec.read_loop pickle_loads).
Abbreviation read_metadata := (Codec.read_metadata pickle_loads).
Abbreviation read_except := (Codec.read_except pickle_loads).
Abbreviation write_metadata := (Codec.write_metadata pickle_dumps).
Abbreviation slot_name := Codec.slot_name.

Lemma read_loop_gathers fd mk chunks acc key f :
  (∀ j c, chunks !! j = Some c → getxattr fd (slot_name mk (key + j)) = Ok c) →
  read_loop (length chunks + f) fd mk acc key
  = read_loop f fd mk (acc ++ concat chunks) (key + length chunks).
Proof.
  revert acc key. induction chunks as [|c chunks IH]; intros acc key Hc.
  - simpl. by rewrite app_nil_r, Nat.add_0_r.
  - cbn [length Nat.add]. rewrite (read_loop_step pickle_loads fd mk acc key _ c).
    + rewrite IH.
      * simpl. rewrite <-(assoc_L (++)). do 2 f_equal. lia.
      * intros j c' Hj. replace (S key + j)%nat with (key + S j)%nat by lia.
        by apply Hc.
    + specialize (Hc 0%nat c eq_refl). by rewrite Nat.add_0_r in Hc.
Qed.

Lemma read_metadata_gathered fd md_key chunks e :
  (∀ j c, chunks !! j = Some c →
          getxattr fd (slot_name (Codec.choose_key md_key) j) = Ok c) →
  getxattr fd (slot_name (Codec.choose_key md_key) (length chunks)) = Raise (IOError e) →
  read_metadata fd md_key = read_except (concat chunks) e.
Proof.
  set (mk := Codec.choose_key md_key).
  intros Hc He. unfold Codec.read_metadata. fold mk.
  assert (length chunks ≤ size (xattrs fd))%nat as Hsz.
  { apply (slots_present_size _ mk). intros k Hk.
    destruct (lookup_lt_is_Some_2 chunks k Hk) as [c Hkc].
    apply Hc, getxattr_Ok in Hkc as [_ ->]. eauto. }
  replace (S (size (xattrs fd)))
    with (length chunks + S (size (xattrs fd) - length chunks))%nat by lia.
  rewrite (read_loop_gathers fd mk chunks [] 0); [|done].
  simpl. by rewrite He.
Qed.

(** X1. [read_metadata] gathers the slots in order up to the first one
    whose [getxattr] fails, and answers from the bytes gathered so far and
    the [errno] of that failure alone: what the file holds in the slots
    after the failing one is never looked at. *)
Theorem read_metadata_first_failure fd md_key chunks e :
  (∀ j c, chunks !! j = Some c →
          getxattr fd (slot_name (Codec.choose_key md_key) j) = Ok c) →
  getxattr fd (slot_name (Codec.choose_key md_key) (length chunks)) = Raise (IOError e) →
  read_metadata fd md_key = read_except (concat chunks) e.
Proof. apply read_metadata_gathered. Qed.

(** X2. The [while True] loop of [read_metadata] ends on every file: the
    attribute names it asks for are pairwise distinct and the file holds
    finitely many. Granting the loop more iterations than the model does
    never changes the answer. *)
Theorem read_metadata_fuel_independent fd md_key f :
  (S (size (xattrs fd)) ≤ f)%nat →
  read_metadata fd md_key ≠ Diverge
  ∧ read_loop f fd (Codec.choose_key md_key) [] 0 = read_metadata fd md_key.
Proof.
  intros Hf. pose proof (read_metadata_terminates pickle_loads fd md_key) as Hnd.
  split; [done|]. by apply read_loop_more_fuel.
Qed.

Lemma slice_from_nonpos_nonempty (s : bytes) sz :
  (sz ≤ 0)%Z → s ≠ [] → slice_from s sz ≠ [].
Proof.
  intros Hsz Hs. unfold slice_from. case_match.
  - assert (sz = 0%Z) as -> by lia. done.
  - intros Hd. apply (f_equal length) in Hd. rewrite length_drop in Hd.
    simpl in Hd. destruct s; [done|]. simpl in *. lia.
Qed.

Lemma write_loop_nonpositive_size fuel fd mk sz s key :
  (sz ≤ 0)%Z → set_faults fd = ∅ → s ≠ [] →
  (Codec.write_loop fuel fd mk sz s key).1 = Diverge.
Proof.
  intros Hsz. revert fd s key. induction fuel as [|fuel IH]; intros fd s key Hf Hs.
  - by destruct s.
  - destruct s as [|b s]; [done|]. set (s0 := b :: s) in *.
    cbn [Codec.write_loop truthy_list negb]. fold s0.
    unfold setxattr. rewrite Hf, lookup_empty.
    apply IH; [done|]. by apply slice_from_nonpos_nonempty.
Qed.

(** X3. With an [xattr_size] of zero or less, on a store that accepts every
    write, the [while metastr] loop of [write_metadata] never empties a
    non-empty serialization: however many iterations it is granted it has
    not finished, and [write_metadata] does not return. *)
Theorem write_metadata_nonpositive_size fd m sz md_key :
  (sz ≤ 0)%Z → set_faults fd = ∅ → pickle_dumps m ≠ [] →
  (∀ fuel, (Codec.write_loop fuel fd (Codec.choose_key md_key) sz (pickle_dumps m) 0).1
           = Diverge)
  ∧ (write_metadata fd m sz md_key).1 = Diverge.
Proof.
  intros Hsz Hf Hne. split.
  - intros fuel. by apply write_loop_nonpositive_size.
  - unfold Codec.write_metadata. by apply write_loop_nonpositive_size.
Qed.

Lemma write_loop_fault j : ∀ fuel fd mk sz s key e,
  (0 < sz)%Z → (length s ≤ fuel)%nat →
  (j * Z.to_nat sz < length s)%nat →
  set_faults fd !! slot_name mk (key + j) = Some e →
  (∀ i, (i < j)%nat → set_faults fd !! slot_name mk (key + i) = None) →
  ∃ fd', Codec.write_loop fuel fd mk sz s key = (Raise (Codec.write_except e), fd')
    ∧ get_faults fd' = get_faults fd ∧ set_faults fd' = set_faults fd
    ∧ (∀ i, (i < j)%nat →
            xattrs fd' !! slot_name mk (key + i)
            = Some (take (Z.to_nat sz) (drop (i * Z.to_nat sz) s)))
    ∧ (∀ name, (∀ i, (i < j)%nat → name ≠ slot_name mk (key + i)) →
               xattrs fd' !! name = xattrs fd !! name).
Proof.
  induction j as [|j IH]; intros fuel fd mk sz s key e Hs Hlen Hj He Hok.
  - destruct s as [|b s]; [simpl in Hj; lia|].
    destruct fuel as [|fuel]; [simpl in Hlen; lia|].
    set (s0 := b :: s) in *.
    cbn [Codec.write_loop truthy_list negb]. fold s0.
    unfold setxattr. rewrite Nat.add_0_r in He. rewrite He.
    exists fd. split_and!; [done..| |done]. intros i Hi. lia.
  - destruct s as [|b s]; [simpl in Hj; lia|].
    destruct fuel as [|fuel]; [simpl in Hlen; lia|].
    set (s0 := b :: s) in *.
    cbn [Codec.write_loop truthy_list negb]. fold s0.
    unfold setxattr. pose proof (Hok 0%nat ltac:(lia)) as H0.
    rewrite Nat.add_0_r in H0. rewrite H0.
    rewrite slice_to_pos, slice_from_pos by done.
    set (n := Z.to_nat sz) in *. assert (0 < n)%nat as Hn by lia.
    set (fd1 := with_xattrs fd _).
    destruct (IH fuel fd1 mk sz (drop n s0) (S key) e) as (fd' & Hw & Hg & Hsf & Hc & Ho).
    { done. }
    { rewrite length_drop. subst s0. simpl in *. lia. }
    { rewrite length_drop. fold n. lia. }
    { change (set_faults fd !! slot_name mk (S key + j) = Some e).
      replace (S key + j)%nat with (key + S j)%nat by lia. exact He. }
    { intros i Hi. change (set_faults fd !! slot_name mk (S key + i) = None).
      replace (S key + i)%nat with (key + S i)%nat by lia. apply Hok. lia. }
    exists fd'. rewrite Hw, Hg, Hsf. split_and!; [done..| |].
    + intros [|i] Hi.
      * rewrite Nat.add_0_r, Ho.
        { subst fd1. simpl. by rewrite lookup_insert_eq. }
        intros i' _ Heq. apply slot_name_inj in Heq. lia.
      * replace (key + S i)%nat with (S key + i)%nat by lia.
        rewrite Hc by lia. fold n. rewrite drop_drop. do 2 f_equal; lia.
    + intros name Hname. rewrite Ho.
      * subst fd1. simpl. rewrite lookup_insert_ne; [done|].
        intros <-. apply (Hname 0%nat); [lia|]. f_equal; lia.
      * intros i Hi. replace (S key + i)%nat with (key + S i)%nat by lia.
        apply Hname. lia.
Qed.

(** X4. A failing write is not undone. When slot [j] is the first slot the
    file system refuses with [errno] [e], and the serialization needs more
    than [j] slots, [write_metadata] raises what its [except] clause makes
    of [e] ([DiskFileXattrNotSupported], [DiskFileNoSpace] or the
    [IOError] itself), the slots before [j] already hold the new value's
    pieces, and every other attribute is as it was. *)
Theorem write_metadata_fails_midway fd m sz md_key j e :
  let mk := Codec.choose_key md_key in
  let s := pickle_dumps m in
  (0 < sz)%Z → (j < slots_needed sz s)%nat →
  set_faults fd !! slot_name mk j = Some e →
  (∀ i, (i < j)%nat → set_faults fd !! slot_name mk i = None) →
  ∃ fd', write_metadata fd m sz md_key = (Raise (Codec.write_except e), fd')
    ∧ (∀ i, (i < j)%nat → xattrs fd' !! slot_name mk i = Some (chunk sz s i))
    ∧ (∀ name, (∀ i, (i < j)%nat → name ≠ slot_name mk i) →
               xattrs fd' !! name = xattrs fd !! name).
Proof.
  intros mk s Hs Hj He Hok. unfold Codec.write_metadata. fold s mk.
  apply slots_needed_lt in Hj; [|done].
  destruct (write_loop_fault j (length s) fd mk sz s 0 e Hs (le_n _) Hj He Hok)
    as (fd' & Hw & _ & _ & Hc & Ho).
  exists fd'. split_and!; [done| |].
  - intros i Hi. by apply (Hc i).
  - intros name Hname. apply Ho. intros i Hi. by apply Hname.
Qed.

(** Whatever happens, the writing loop changes no fault table and no
    attribute outside the slots of its own key. *)
Lemma write_loop_frame fuel : ∀ fd mk sz s key,
  let fd' := (Codec.write_loop fuel fd mk sz s key).2 in
  get_faults fd' = get_faults fd ∧ set_faults fd' = set_faults fd
  ∧ ∀ name, (∀ k, name ≠ slot_name mk k) → xattrs fd' !! name = xattrs fd !! name.
Proof.
  induction fuel as [|fuel IH]; intros fd mk sz s key.
  - by destruct s.
  - destruct s as [|b s]; [done|]. set (s0 := b :: s).
    cbn [Codec.write_loop truthy_list negb]. fold s0. unfold setxattr.
    destruct (set_faults fd !! slot_name mk key) as [e|]; [done|].
    set (fd1 := with_xattrs fd _).
    destruct (IH fd1 mk sz (slice_from s0 sz) (S key)) as (Hg & Hsf & Ho).
    simpl. rewrite Hg, Hsf. split_and!; [done..|].
    intros name Hname. rewrite Ho by done. subst fd1. simpl.
    by rewrite lookup_insert_ne.
Qed.

Lemma read_loop_ext f : ∀ fd fd' mk acc key,
  get_faults fd' = get_faults fd →
  (∀ k, xattrs fd' !! slot_name mk k = xattrs fd !! slot_name mk k) →
  read_loop f fd' mk acc key = read_loop f fd mk acc key.
Proof.
  induction f as [|f IH]; intros fd fd' mk acc key Hg Hx; [done|].
  simpl. unfold getxattr. rewrite Hg, Hx.
  destruct (get_faults fd !! slot_name mk key); [done|].
  destruct (xattrs fd !! slot_name mk key); [|done]. by apply IH.
Qed.

Lemma read_metadata_ext fd fd' md_key :
  get_faults fd' = get_faults fd →
  (∀ k, xattrs fd' !! slot_name (Codec.choose_key md_key) k
        = xattrs fd !! slot_name (Codec.choose_key md_key) k) →
  read_metadata fd' md_key = read_metadata fd md_key.
Proof.
  intros Hg Hx.
  set (f := (S (size (xattrs fd)) `max` S (size (xattrs fd')))%nat).
  transitivity (read_loop f fd' (Codec.choose_key md_key) [] 0).
  - symmetry. apply read_loop_more_fuel; [apply read_metadata_terminates|lia].
  - rewrite (read_loop_ext f fd fd') by done.
    apply read_loop_more_fuel; [apply read_metadata_terminates|lia].
Qed.

Lemma metadata_slots_disjoint i j :
  slot_name SWIFT_METADATA_KEY i ≠ slot_name VERTIGO_METADATA_KEY j.
Proof.
  unfold Codec.slot_name. generalize (str_or_empty i) (str_or_empty j).
  intros x y Heq. vm_compute in Heq. congruence.
Qed.

(** X5. The two attribute families do not interfere. Writing under the
    default key [user.swift.microcontroller], whether the write succeeds
    or fails part way, leaves what [read_metadata] answers for
    [user.swift.metadata] unchanged, and the other way round; the values
    written and read may be of different types. *)
Theorem metadata_keys_independent {M'} (dumps' : M' → bytes) fd (m : M') sz :
  read_metadata (Codec.write_metadata dumps' fd m sz None).2 (Some SWIFT_METADATA_KEY)
  = read_metadata fd (Some SWIFT_METADATA_KEY)
  ∧ read_metadata (Codec.write_metadata dumps' fd m sz (Some SWIFT_METADATA_KEY)).2 None
    = read_metadata fd None.
Proof.
  split.
  - destruct (write_loop_frame (length (dumps' m)) fd VERTIGO_METADATA_KEY sz (dumps' m) 0)
      as (Hg & _ & Ho).
    apply read_metadata_ext; [exact Hg|].
    intros k. apply Ho. intros k'. apply metadata_slots_disjoint.
  - destruct (write_loop_frame (length (dumps' m)) fd SWIFT_METADATA_KEY sz (dumps' m) 0)
      as (Hg & _ & Ho).
    apply read_metadata_ext; [exact Hg|].
    intros k. apply Ho. intros k' Heq. by apply (metadata_slots_disjoint k' k).
Qed.

(** X6. Writing the same value a second time changes nothing: on a store
    that accepts every write and with a positive slot size, the file after
    the second [write_metadata] is the file after the first. *)
Theorem write_metadata_again fd m sz md_key fd' :
  (0 < sz)%Z → set_faults fd = ∅ →
  write_metadata fd m sz md_key = (Ok tt, fd') →
  write_metadata fd' m sz md_key = (Ok tt, fd').
Proof.
  intros Hs Hf Hw.
  destruct (write_metadata_spec pickle_dumps fd m sz md_key Hs Hf)
    as (fd0 & Hw0 & Hg0 & Hsf0 & Hc0 & _).
  rewrite Hw in Hw0. injection Hw0 as <-.
  assert (set_faults fd' = ∅) as Hf' by congruence.
  destruct (write_metadata_spec pickle_dumps fd' m sz md_key Hs Hf')
    as (fd2 & Hw2 & Hg2 & Hsf2 & Hc2 & Ho2).
  rewrite Hw2. f_equal.
  assert (xattrs fd2 = xattrs fd') as Hx.
  { apply map_eq. intros name.
    set (N := slots_needed sz (pickle_dumps m)) in *.
    set (mk := Codec.choose_key md_key) in *.
    destruct (decide (Exists (λ j, name = slot_name mk j) (seq 0 N))) as [He|He].
    - apply Exists_exists in He as (j & Hj & ->). apply in_seq in Hj.
      rewrite Hc2, Hc0 by lia. done.
    - apply Ho2. intros j Hj Hname. apply He, Exists_exists.
      exists j. split; [|done]. apply in_seq. lia. }
  destruct fd2, fd'. simpl in *. by subst.
Qed.

Lemma concat_chunks sz (s : bytes) n : ∀ a,
  concat (chunk sz s <$> seq a n)
  = take (n * Z.to_nat sz) (drop (a * Z.to_nat sz) s).
Proof.
  induction n as [|n IH]; intros a; [done|].
  cbn [seq fmap list_fmap concat]. rewrite IH. unfold chunk.
  rewrite <-(take_take_drop _ (Z.to_nat sz) (n * Z.to_nat sz)), drop_drop.
  do 3 f_equal. lia.
Qed.

Lemma concat_all_chunks sz (s : bytes) :
  (0 < sz)%Z → concat (chunk sz s <$> seq 0 (slots_needed sz s)) = s.
Proof.
  intros Hs. rewrite concat_chunks. simpl. rewrite drop_0. apply take_ge.
  pose proof (slots_needed_lt sz s (slots_needed sz s) Hs) as [_ H]. lia.
Qed.

(** X19. What a read finds after a value was replaced by a shorter one. On
    a file that had no slot under the key, write a value and then, with
    the same slot size, one that needs no more slots. Both writes succeed,
    and the bytes [read_metadata] hands to [pickle.loads] are the new
    serialization followed by the old one from the first slot the new
    value did not overwrite: the old tail is never removed, and the read
    is right only because [pickle.loads] stops at the end of a pickle. *)
Theorem shorter_rewrite_reads_old_tail fd big small sz md_key :
  let mk := Codec.choose_key md_key in
  let n := slots_needed sz (pickle_dumps small) in
  (0 < sz)%Z → healthy fd →
  (∀ k, xattrs fd !! slot_name mk k = None) →
  pickle_dumps small ≠ [] →
  (n ≤ slots_needed sz (pickle_dumps big))%nat →
  ∃ fd1 fd2,
    write_metadata fd big sz md_key = (Ok tt, fd1)
    ∧ write_metadata fd1 small sz md_key = (Ok tt, fd2)
    ∧ read_metadata fd2 md_key
      = loads_outcome pickle_loads
          (pickle_dumps small ++ drop (n * Z.to_nat sz) (pickle_dumps big)).
Proof.
  intros mk n Hs [Hg Hf] Hfree Hne Hle.
  set (sb := pickle_dumps big) in *. set (ss := pickle_dumps small) in *.
  set (N := slots_needed sz sb) in *.
  destruct (write_metadata_spec pickle_dumps fd big sz md_key Hs Hf)
    as (fd1 & Hw1 & Hg1 & Hf1 & Hc1 & Ho1).
  fold mk sb N in Hc1, Ho1.
  assert (set_faults fd1 = ∅) as Hf1' by congruence.
  destruct (write_metadata_spec pickle_dumps fd1 small sz md_key Hs Hf1')
    as (fd2 & Hw2 & Hg2 & Hf2 & Hc2 & Ho2).
  fold mk ss n in Hc2, Ho2.
  assert (get_faults fd2 = ∅) as Hg2' by congruence.
  exists fd1, fd2. split; [exact Hw1|]. split; [exact Hw2|].
  set (piece := λ j, if decide (j < n)%nat then chunk sz ss j else chunk sz sb j).
  assert (∀ j, (j < N)%nat → xattrs fd2 !! slot_name mk j = Some (piece j)) as Hpiece.
  { intros j Hj. unfold piece. destruct (decide (j < n)%nat) as [Hjn|Hjn].
    - by apply Hc2.
    - rewrite Ho2; [by apply Hc1|].
      intros i Hi Heq. apply slot_name_inj in Heq. lia. }
  assert (xattrs fd2 !! slot_name mk N = None) as Hend.
  { rewrite Ho2, Ho1; [apply Hfree| |];
      intros i Hi Heq; apply slot_name_inj in Heq; lia. }
  rewrite (read_metadata_gathered fd2 md_key (piece <$> seq 0 N) ENODATA).
  - assert (concat (piece <$> seq 0 N) = ss ++ drop (n * Z.to_nat sz) sb) as ->.
    { replace N with (n + (N - n))%nat by lia. rewrite seq_app, fmap_app, concat_app.
      f_equal.
      - rewrite <-(concat_all_chunks sz ss Hs). fold n. f_equal.
        apply list_fmap_ext. intros i j Hij. apply lookup_seq in Hij as [-> Hi].
        unfold piece. by rewrite decide_True by lia.
      - transitivity (concat (chunk sz sb <$> seq n (N - n))).
        + f_equal. apply list_fmap_ext. intros i j Hij.
          apply lookup_seq in Hij as [-> Hi]. unfold piece.
          by rewrite decide_False by lia.
        + rewrite concat_chunks. apply take_ge. rewrite length_drop.
          pose proof (slots_needed_lt sz sb N Hs) as [_ H].
          assert (¬ (N * Z.to_nat sz < length sb)%nat) by (intros H'; apply H in H'; lia).
          nia. }
    apply read_except_ENODATA. by destruct ss.
  - intros j c Hj. rewrite list_lookup_fmap in Hj.
    destruct (seq 0 N !! j) as [i|] eqn:Hi; [|done]. simpl in Hj. injection Hj as <-.
    apply lookup_seq in Hi as [-> Hi]. simpl.
    apply getxattr_Ok. split; [by rewrite Hg2', lookup_empty|by apply Hpiece].
  - rewrite length_fmap, length_seq. by apply getxattr_missing.
Qed.

End WithPickle.
End CodecMore.

(** ** More on the trigger registry: what a call stores, removes and shares *)
Module RegistryMore.
Import Registry RegistrySpec RegistryFacts.

Section WithPickle.
Variable pickle_dumps : metadata → bytes.
Variable pickle_loads : bytes → option metadata.
Variable py_eval : string → option mc_dict.

Hypothesis loads_ignores_trailing :
  ∀ md rest, pickle_loads (pickle_dumps md ++ rest) = Some md.
Hypothesis dumps_nonempty : ∀ md, pickle_dumps md ≠ [].

Abbreviation get_swift_metadata := (Registry.get_swift_metadata pickle_loads).
Abbreviation set_swift_metadata := (Registry.set_swift_metadata pickle_dumps).
Abbreviation get_microcontroller_dict :=
  (Registry.get_microcontroller_dict pickle_loads py_eval).
Abbreviation set_microcontroller :=
  (Registry.set_microcontroller pickle_dumps pickle_loads py_eval).
Abbreviation delete_microcontroller :=
  (Registry.delete_microcontroller pickle_dumps pickle_loads).

(** A successful [set_microcontroller], step by step: the world it leaves
    and the metadata it persists. *)
Lemma set_microcontroller_run w v trigger mc fd md got entry :
  files w !! data_file v = Some fd → healthy fd →
  get_swift_metadata w (data_file v) = Ok (Some md) →
  get_microcontroller_dict w v = Ok got →
  working_dict w got !! trigger = Some entry →
  let d1 := <[trigger := Some (added mc entry)]> (working_dict w got) in
  let w0 := if truthy_dict got then w else with_default w d1 in
  let body := rstrip (request_body v) in
  let md1 := <[VERTIGO_MC_HEADER := VDict d1]> md in
  let md2 := if truthy_str body then <[sysmeta_key trigger mc := VStr body]> md1
             else delete (sysmeta_key trigger mc) md1 in
  ∃ fd1, set_microcontroller w v trigger mc = (Ok tt, with_file w0 (data_file v) fd1)
    ∧ healthy fd1
    ∧ get_swift_metadata (with_file w0 (data_file v) fd1) (data_file v) = Ok (Some md2).
Proof.
  intros Hp Hh Hmd Hgot Hentry d1 w0 body md1 md2.
  unfold Registry.set_microcontroller. rewrite Hgot.
  subst md2 md1 body w0 d1. unfold working_dict in *.
  assert ((if truthy_entry entry then default [] entry else []) = default [] entry) as Hl.
  { by destruct entry as [[|??]|]. }
  destruct (truthy_dict got) eqn:Htr; cbn [negb].
  - rewrite Hentry, Hl. fold (added mc entry). rewrite Hmd.
    set (md2 := if truthy_str _ then _ else _).
    destruct (set_swift_metadata_ok pickle_dumps pickle_loads loads_ignores_trailing
                dumps_nonempty w (data_file v) fd md2 Hp Hh) as (fd1 & Hs & Hh1 & Hg1).
    rewrite Hs. by exists fd1.
  - rewrite Hentry, Hl. fold (added mc entry).
    set (d1 := <[trigger := Some (added mc entry)]> (DEFAULT_MD_STRING w)).
    change (Registry.get_swift_metadata pickle_loads (with_default w d1) (data_file v))
      with (get_swift_metadata w (data_file v)).
    rewrite Hmd.
    set (md2 := if truthy_str _ then _ else _).
    destruct (set_swift_metadata_ok pickle_dumps pickle_loads loads_ignores_trailing
                dumps_nonempty (with_default w d1) (data_file v) fd md2 Hp Hh)
      as (fd1 & Hs & Hh1 & Hg1).
    rewrite Hs. by exists fd1.
Qed.

(** X7. A successful [set_microcontroller] touches two entries of the
    object's metadata and no other: the trigger dictionary, and the
    handler's own entry [X-Object-Sysmeta-Vertigo-<trigger>-<mc>], which
    afterwards holds the request body with trailing white space removed,
    or is absent when nothing is left of the body. *)
Theorem set_microcontroller_stores_body w v trigger mc fd md got entry :
  files w !! data_file v = Some fd → healthy fd →
  get_swift_metadata w (data_file v) = Ok (Some md) →
  get_microcontroller_dict w v = Ok got →
  working_dict w got !! trigger = Some entry →
  ∃ w1 md1,
    set_microcontroller w v trigger mc = (Ok tt, w1)
    ∧ get_swift_metadata w1 (data_file v) = Ok (Some md1)
    ∧ md1 !! sysmeta_key trigger mc
      = (if truthy_str (rstrip (request_body v))
         then Some (VStr (rstrip (request_body v))) else None)
    ∧ ∀ k, k ≠ VERTIGO_MC_HEADER → k ≠ sysmeta_key trigger mc → md1 !! k = md !! k.
Proof.
  intros Hp Hh Hmd Hgot Hentry.
  destruct (set_microcontroller_run w v trigger mc fd md got entry Hp Hh Hmd Hgot Hentry)
    as (fd1 & Hs & _ & Hg).
  eexists _, _. split; [exact Hs|]. split; [exact Hg|].
  destruct (truthy_str (rstrip (request_body v))).
  - split; [by rewrite lookup_insert_eq|]. intros k Hk1 Hk2.
    by rewrite !lookup_insert_ne.
  - split; [by rewrite lookup_delete_eq|]. intros k Hk1 Hk2.
    by rewrite lookup_delete_ne, lookup_insert_ne.
Qed.

Lemma get_microcontroller_dict_other_file w w' v :
  files w' !! data_file v = files w !! data_file v →
  get_microcontroller_dict w' v = get_microcontroller_dict w v.
Proof.
  intros Hf. unfold Registry.get_microcontroller_dict, Registry.get_swift_metadata.
  by rewrite Hf.
Qed.

(** X8. The default trigger dictionary is one shared object. When an
    object without a trigger dictionary gets its first handler, the
    dictionary updated is the module-level [DEFAULT_MD_STRING] itself; the
    first handler bound to a second such object then lands in a list that
    already holds the first object's handler, and both are stored with the
    second object. *)
Theorem default_dictionary_leaks w v v2 trigger mc mc2 fd fd2 :
  data_file v ≠ data_file v2 →
  files w !! data_file v = Some fd → healthy fd →
  files w !! data_file v2 = Some fd2 → healthy fd2 →
  get_microcontroller_dict w v = Ok None →
  get_microcontroller_dict w v2 = Ok None →
  DEFAULT_MD_STRING w !! trigger = Some None →
  ∃ w1 w2 d2 l,
    set_microcontroller w v trigger mc = (Ok tt, w1)
    ∧ DEFAULT_MD_STRING w1 !! trigger = Some (Some [mc])
    ∧ set_microcontroller w1 v2 trigger mc2 = (Ok tt, w2)
    ∧ get_microcontroller_dict w2 v2 = Ok (Some d2)
    ∧ d2 !! trigger = Some (Some l) ∧ mc ∈ l ∧ mc2 ∈ l.
Proof.
  intros Hne Hp Hh Hp2 Hh2 Hgot Hgot2 Hdef.
  destruct (get_microcontroller_dict_inv _ _ _ _ _ Hgot) as [md Hmd].
  destruct (set_microcontroller_run w v trigger mc fd md None None Hp Hh Hmd Hgot Hdef)
    as (fd1 & Hs & _ & _).
  cbn [truthy_dict] in Hs. unfold working_dict in Hs. cbn [truthy_dict] in Hs.
  set (d1 := <[trigger := Some (added mc None)]> (DEFAULT_MD_STRING w)) in *.
  set (w1 := with_file (with_default w d1) (data_file v) fd1) in *.
  assert (files w1 !! data_file v2 = Some fd2) as Hp2'.
  { subst w1. simpl. by rewrite lookup_insert_ne. }
  assert (get_microcontroller_dict w1 v2 = Ok None) as Hgot2'.
  { rewrite <-Hgot2. apply get_microcontroller_dict_other_file. by rewrite Hp2'. }
  assert (working_dict w1 None !! trigger = Some (Some [mc])) as Hentry2.
  { unfold working_dict. subst w1 d1. simpl. by rewrite lookup_insert_eq. }
  destruct (set_microcontroller_ok pickle_dumps pickle_loads py_eval loads_ignores_trailing
              dumps_nonempty w1 v2 trigger mc2 fd2 None (Some [mc]) Hp2' Hh2 Hgot2' Hentry2)
    as (w2 & fd3 & Hs2 & _ & _ & Hg2).
  exists w1, w2, (<[trigger := Some (added mc2 (Some [mc]))]> (working_dict w1 None)),
    (added mc2 (Some [mc])).
  split; [exact Hs|]. split; [exact Hentry2|]. split; [exact Hs2|].
  split; [by apply Hg2|]. split; [apply lookup_insert_eq|]. split.
  - unfold added. simpl. case_bool_decide; simpl; constructor.
  - unfold added. simpl. case_bool_decide as Hc; [exact Hc|]. simpl. do 2 constructor.
Qed.

Lemma xfile_eq fd fd' :
  xattrs fd' = xattrs fd → get_faults fd' = get_faults fd →
  set_faults fd' = set_faults fd → fd' = fd.
Proof. destruct fd, fd'. simpl. by intros -> -> ->. Qed.

(** X9. A [set_microcontroller] that fails at the write still updates the
    shared default. When the object has no trigger dictionary and the file
    system refuses the first attribute write, the call raises its
    [ValueError], no data file has changed, and [DEFAULT_MD_STRING]
    nevertheless lists the handler. *)
Theorem failed_set_updates_default w v trigger mc fd e entry :
  files w !! data_file v = Some fd →
  set_faults fd !! SWIFT_METADATA_KEY = Some e →
  get_microcontroller_dict w v = Ok None →
  DEFAULT_MD_STRING w !! trigger = Some entry →
  ∃ w1, set_microcontroller w v trigger mc = (Raise (ValueError msg_set_dict), w1)
    ∧ files w1 = files w
    ∧ DEFAULT_MD_STRING w1 !! trigger = Some (Some (added mc entry)).
Proof.
  intros Hp He Hgot Hdef.
  destruct (get_microcontroller_dict_inv _ _ _ _ _ Hgot) as [md Hmd].
  unfold Registry.set_microcontroller. rewrite Hgot. cbn [truthy_dict negb].
  rewrite Hdef.
  assert ((if truthy_entry entry then default [] entry else []) = default [] entry) as ->.
  { by destruct entry as [[|??]|]. }
  fold (added mc entry).
  set (d1 := <[trigger := Some (added mc entry)]> (DEFAULT_MD_STRING w)).
  change (Registry.get_swift_metadata pickle_loads (with_default w d1) (data_file v))
    with (get_swift_metadata w (data_file v)).
  rewrite Hmd. set (md2 := if truthy_str _ then _ else _).
  unfold Registry.set_swift_metadata. cbn [files with_default]. rewrite Hp.
  unfold Codec.write_metadata.
  destruct (pickle_dumps md2) as [|b s] eqn:Hd; [by apply dumps_nonempty in Hd|].
  cbn [length Codec.write_loop truthy_list negb Codec.choose_key truthy_str
       SWIFT_METADATA_KEY].
  rewrite CodecFacts.slot_name_0. unfold setxattr.
  change "user.swift.metadata" with SWIFT_METADATA_KEY. rewrite He.
  eexists. split; [reflexivity|]. split.
  - simpl. by apply insert_id.
  - simpl. subst d1. by rewrite lookup_insert_eq.
Qed.

(** A [delete_microcontroller] whose change of the metadata goes through,
    on a store that answers every call. *)
Lemma delete_microcontroller_run w v trigger mc fd got md' :
  files w !! data_file v = Some fd → healthy fd →
  get_swift_metadata w (data_file v) = Ok got →
  delete_mutation got trigger mc = Ok md' →
  ∃ w', delete_microcontroller w v trigger mc = (Ok tt, w')
    ∧ (∃ fd', files w' = <[data_file v := fd']> (files w) ∧ healthy fd')
    ∧ DEFAULT_MD_STRING w' = DEFAULT_MD_STRING w
    ∧ get_swift_metadata w' (data_file v) = Ok (Some md').
Proof.
  intros Hp Hh Hget Hmut. unfold Registry.delete_microcontroller.
  rewrite Hget, Hmut.
  destruct (set_swift_metadata_ok pickle_dumps pickle_loads loads_ignores_trailing
              dumps_nonempty w (data_file v) fd md' Hp Hh) as (fd' & Hs & Hh' & Hg).
  rewrite Hs. eexists. split; [done|]. split; [by exists fd'|]. by split.
Qed.

(** X10. [delete_microcontroller(vertigo, "vertigo", "all")] removes every
    metadata entry whose name starts with [X-Object-Sysmeta-Vertigo-], the
    trigger dictionary among them, and keeps every other entry as it was. *)
Theorem delete_everything w v fd md :
  files w !! data_file v = Some fd → healthy fd →
  get_swift_metadata w (data_file v) = Ok (Some md) →
  ∃ w' md',
    delete_microcontroller w v "vertigo" "all" = (Ok tt, w')
    ∧ get_swift_metadata w' (data_file v) = Ok (Some md')
    ∧ ∀ k, md' !! k = if startswith k SYSMETA_HEADER then None else md !! k.
Proof.
  intros Hp Hh Hmd.
  destruct (delete_microcontroller_run w v "vertigo" "all" fd (Some md)
              (filter (λ kv, startswith kv.1 SYSMETA_HEADER = false) md) Hp Hh Hmd)
    as (w' & Hd & _ & _ & Hg); [done|].
  eexists _, _. split; [exact Hd|]. split; [exact Hg|].
  intros k. destruct (startswith k SYSMETA_HEADER) eqn:Hk.
  - apply map_lookup_filter_None. right. intros x _. simpl. by rewrite Hk.
  - destruct (md !! k) as [x|] eqn:Hx.
    + by apply map_lookup_filter_Some.
    + apply map_lookup_filter_None. by left.
Qed.

Lemma clean_microcontroller_dict_spec md d :
  md !! VERTIGO_MC_HEADER = Some (VDict d) →
  ∃ md', clean_microcontroller_dict md = Ok md'
    ∧ (∀ k, k ≠ VERTIGO_MC_HEADER → md' !! k = md !! k)
    ∧ (∀ d', md' !! VERTIGO_MC_HEADER = Some (VDict d') →
             ∀ t, d' !! t = (λ e, if truthy_entry e then e else None) <$> d !! t)
    ∧ (∀ t x xs, d !! t = Some (Some (x :: xs)) →
                 ∃ d', md' !! VERTIGO_MC_HEADER = Some (VDict d')).
Proof.
  intros Hd. unfold clean_microcontroller_dict. rewrite Hd.
  case_bool_decide as Hall; eexists; (split; [done|]).
  - split; [by intros k Hk; rewrite lookup_delete_ne|]. split.
    + intros d'. by rewrite lookup_delete_eq.
    + intros t x xs Ht. specialize (Hall t (Some (x :: xs))).
      rewrite lookup_fmap, Ht in Hall. by specialize (Hall eq_refl).
  - split; [by intros k Hk; rewrite lookup_insert_ne|]. split.
    + intros d'. rewrite lookup_insert_eq. intros [= <-] t. by rewrite lookup_fmap.
    + intros t x xs _. rewrite lookup_insert_eq. eauto.
Qed.

(** X11. Removing one handler from a trigger that lists it: the call
    succeeds, the handler's own configuration entry is gone, every other
    metadata entry except the trigger dictionary is as it was, and every
    trigger that still has handlers, once the first occurrence of the
    handler is taken out of the list, keeps its list in the stored
    dictionary. *)
Theorem delete_one_handler w v fd md d l trigger mc :
  mc ≠ "all" →
  files w !! data_file v = Some fd → healthy fd →
  get_swift_metadata w (data_file v) = Ok (Some md) →
  md !! VERTIGO_MC_HEADER = Some (VDict d) →
  d !! trigger = Some (Some l) → mc ∈ l →
  ∃ w' md',
    delete_microcontroller w v trigger mc = (Ok tt, w')
    ∧ get_swift_metadata w' (data_file v) = Ok (Some md')
    ∧ md' !! sysmeta_key trigger mc = None
    ∧ (∀ k, k ≠ VERTIGO_MC_HEADER → k ≠ sysmeta_key trigger mc → md' !! k = md !! k)
    ∧ (∀ t x xs,
         <[trigger := Some (list_remove_first mc l)]> d !! t = Some (Some (x :: xs)) →
         ∃ d', md' !! VERTIGO_MC_HEADER = Some (VDict d')
               ∧ d' !! t = Some (Some (x :: xs))).
Proof.
  intros Hall Hp Hh Hmd Hd Ht Hin.
  set (d1 := <[trigger := Some (list_remove_first mc l)]> d).
  set (md1 := delete (sysmeta_key trigger mc) (<[VERTIGO_MC_HEADER := VDict d1]> md)).
  pose proof (sysmeta_key_ne_header trigger mc) as Hne.
  assert (md1 !! VERTIGO_MC_HEADER = Some (VDict d1)) as Hd1.
  { subst md1. rewrite lookup_delete_ne by done. by rewrite lookup_insert_eq. }
  destruct (clean_microcontroller_dict_spec md1 d1 Hd1) as (md' & Hc & Hother & Hdict & Hkept).
  assert (delete_mutation (Some md) trigger mc = Ok md') as Hmut.
  { unfold delete_mutation.
    rewrite (bool_decide_eq_false_2 (mc = "all")) by done. rewrite andb_false_r.
    rewrite Hd. rewrite bool_decide_eq_false_2.
    2:{ intros ->. by rewrite lookup_empty in Ht. }
    rewrite Ht. by rewrite (bool_decide_eq_true_2 (mc ∈ l)). }
  destruct (delete_microcontroller_run w v trigger mc fd (Some md) md' Hp Hh Hmd Hmut)
    as (w' & Hdel & _ & _ & Hg).
  exists w', md'. split; [exact Hdel|]. split; [exact Hg|]. split.
  - rewrite Hother by done. subst md1. by rewrite lookup_delete_eq.
  - split.
    + intros k Hk1 Hk2. rewrite Hother by done. subst md1.
      by rewrite lookup_delete_ne, lookup_insert_ne.
    + intros t x xs Hx. destruct (Hkept t x xs Hx) as [d' Hd'].
      exists d'. split; [done|]. rewrite (Hdict d' Hd' t). fold d1 in Hx.
      by rewrite Hx.
Qed.

Lemma delete_sysmeta_keys_lookup trigger mc_list : ∀ (md : metadata) k,
  delete_sysmeta_keys trigger mc_list md !! k
  = if bool_decide (Exists (λ mc_k, k = sysmeta_key trigger mc_k) mc_list)
    then None else md !! k.
Proof.
  unfold delete_sysmeta_keys.
  induction mc_list as [|m l IH]; intros md k; cbn [foldl].
  - case_bool_decide as H; [by apply Exists_nil in H|done].
  - rewrite IH. case_bool_decide as H1.
    + rewrite bool_decide_eq_true_2; [done|]. by apply Exists_cons_tl.
    + case_bool_decide as H2.
      * apply Exists_cons in H2 as [->|H2]; [|done]. by rewrite lookup_delete_eq.
      * rewrite lookup_delete_ne; [done|]. intros <-. apply H2. by apply Exists_cons_hd.
Qed.

(** X12. Removing all handlers of one trigger: the call succeeds, the
    configuration entry of every handler that was in the trigger's list is
    gone, every other metadata entry except the trigger dictionary is as
    it was, the other triggers that have handlers keep their lists, and
    the trigger itself is left without a list. *)
Theorem delete_all_of_trigger w v fd md d mc_list trigger :
  trigger ≠ "vertigo" →
  files w !! data_file v = Some fd → healthy fd →
  get_swift_metadata w (data_file v) = Ok (Some md) →
  md !! VERTIGO_MC_HEADER = Some (VDict d) →
  d !! trigger = Some (Some mc_list) →
  ∃ w' md',
    delete_microcontroller w v trigger "all" = (Ok tt, w')
    ∧ get_swift_metadata w' (data_file v) = Ok (Some md')
    ∧ (∀ mc_k, mc_k ∈ mc_list → md' !! sysmeta_key trigger mc_k = None)
    ∧ (∀ k, k ≠ VERTIGO_MC_HEADER →
            (∀ mc_k, mc_k ∈ mc_list → k ≠ sysmeta_key trigger mc_k) →
            md' !! k = md !! k)
    ∧ (∀ d', md' !! VERTIGO_MC_HEADER = Some (VDict d') → d' !! trigger = Some None)
    ∧ (∀ t x xs, t ≠ trigger → d !! t = Some (Some (x :: xs)) →
         ∃ d', md' !! VERTIGO_MC_HEADER = Some (VDict d')
               ∧ d' !! t = Some (Some (x :: xs))).
Proof.
  intros Hv Hp Hh Hmd Hd Ht.
  set (d1 := <[trigger := None]> d).
  set (md1 := delete_sysmeta_keys trigger mc_list (<[VERTIGO_MC_HEADER := VDict d1]> md)).
  assert (∀ k, (∃ mc_k, mc_k ∈ mc_list ∧ k = sysmeta_key trigger mc_k) →
               md1 !! k = None) as Hgone.
  { intros k (mc_k & Hin & ->). subst md1. rewrite delete_sysmeta_keys_lookup.
    rewrite bool_decide_eq_true_2; [done|]. apply Exists_exists. exists mc_k.
    split; [by apply list_elem_of_In|done]. }
  assert (∀ k, (∀ mc_k, mc_k ∈ mc_list → k ≠ sysmeta_key trigger mc_k) →
               md1 !! k = <[VERTIGO_MC_HEADER := VDict d1]> md !! k) as Hkeep.
  { intros k Hk. subst md1. rewrite delete_sysmeta_keys_lookup.
    rewrite bool_decide_eq_false_2; [done|]. intros (mc_k & Hin & ->)%Exists_exists.
    apply list_elem_of_In in Hin. by apply (Hk mc_k). }
  assert (md1 !! VERTIGO_MC_HEADER = Some (VDict d1)) as Hd1.
  { rewrite Hkeep; [by rewrite lookup_insert_eq|].
    intros mc_k _ Heq. by apply (sysmeta_key_ne_header trigger mc_k). }
  destruct (clean_microcontroller_dict_spec md1 d1 Hd1) as (md' & Hc & Hother & Hdict & Hkept).
  assert (delete_mutation (Some md) trigger "all" = Ok md') as Hmut.
  { unfold delete_mutation.
    rewrite (bool_decide_eq_false_2 (trigger = "vertigo")) by done. cbn [andb].
    rewrite Hd. rewrite bool_decide_eq_false_2.
    2:{ intros ->. by rewrite lookup_empty in Ht. }
    rewrite Ht. by rewrite (bool_decide_eq_true_2 ("all" = "all")). }
  destruct (delete_microcontroller_run w v trigger "all" fd (Some md) md' Hp Hh Hmd Hmut)
    as (w' & Hdel & _ & _ & Hg).
  exists w', md'. split; [exact Hdel|]. split; [exact Hg|]. split_and!.
  - intros mc_k Hin. rewrite Hother by (intros Heq; by apply (sysmeta_key_ne_header trigger mc_k)).
    apply Hgone. eauto.
  - intros k Hk1 Hk2. rewrite Hother by done. rewrite Hkeep by done.
    by rewrite lookup_insert_ne.
  - intros d' Hd'. rewrite (Hdict d' Hd' trigger). subst d1.
    by rewrite lookup_insert_eq.
  - intros t x xs Hne Hx.
    assert (d1 !! t = Some (Some (x :: xs))) as Hx1.
    { subst d1. by rewrite lookup_insert_ne. }
    destruct (Hkept t x xs Hx1) as [d' Hd']. exists d'. split; [done|].
    rewrite (Hdict d' Hd' t). by rewrite Hx1.
Qed.

(** X13. Binding a handler and removing it again restores the object's
    metadata. On an object that has no trigger dictionary and no entry for
    the handler, with a default dictionary none of whose triggers has
    handlers, [set_microcontroller] followed by [delete_microcontroller]
    of the same trigger and handler both succeed, and the metadata read
    afterwards is the metadata the object had. *)
Theorem set_then_delete_restores w v fd md trigger mc entry :
  mc ≠ "all" →
  files w !! data_file v = Some fd → healthy fd →
  get_swift_metadata w (data_file v) = Ok (Some md) →
  md !! VERTIGO_MC_HEADER = None →
  md !! sysmeta_key trigger mc = None →
  DEFAULT_MD_STRING w !! trigger = Some entry →
  (∀ t e, DEFAULT_MD_STRING w !! t = Some e → truthy_entry e = false) →
  ∃ w1 w2,
    set_microcontroller w v trigger mc = (Ok tt, w1)
    ∧ delete_microcontroller w1 v trigger mc = (Ok tt, w2)
    ∧ get_swift_metadata w2 (data_file v) = Ok (Some md).
Proof.
  intros Hall Hp Hh Hmd Hnod Hnoc Hdef Hfalsy.
  assert (get_microcontroller_dict w v = Ok None) as Hgot.
  { unfold Registry.get_microcontroller_dict. by rewrite Hmd, Hnod. }
  destruct (set_microcontroller_run w v trigger mc fd md None entry Hp Hh Hmd Hgot Hdef)
    as (fd1 & Hs & Hh1 & Hg1).
  unfold working_dict in Hs, Hg1. cbn [truthy_dict] in Hs, Hg1.
  assert (added mc entry = [mc]) as Hadd.
  { specialize (Hfalsy trigger entry Hdef). by destruct entry as [[|??]|]. }
  rewrite Hadd in Hs, Hg1.
  set (d1 := <[trigger := Some [mc]]> (DEFAULT_MD_STRING w)) in *.
  set (w1 := with_file (with_default w d1) (data_file v) fd1) in *.
  set (md2 := if truthy_str _ then _ else _) in Hg1.
  pose proof (sysmeta_key_ne_header trigger mc) as Hne.
  assert (md2 !! VERTIGO_MC_HEADER = Some (VDict d1)) as Hd2.
  { subst md2. case_match; [rewrite lookup_insert_ne by done|rewrite lookup_delete_ne by done];
      by rewrite lookup_insert_eq. }
  assert (delete_mutation (Some md2) trigger mc = Ok md) as Hmut.
  { unfold delete_mutation.
    rewrite (bool_decide_eq_false_2 (mc = "all")) by done. rewrite andb_false_r.
    rewrite Hd2. rewrite bool_decide_eq_false_2 by (subst d1; apply insert_non_empty).
    assert (d1 !! trigger = Some (Some [mc])) as -> by (subst d1; apply lookup_insert_eq).
    rewrite bool_decide_eq_true_2 by set_solver.
    cbn [list_remove_first]. rewrite bool_decide_eq_true_2 by done.
    unfold clean_microcontroller_dict.
    rewrite lookup_delete_ne, lookup_insert_eq by done.
    rewrite bool_decide_eq_true_2.
    2:{ intros t e. rewrite lookup_fmap. subst d1. rewrite insert_insert_eq.
        destruct (decide (t = trigger)) as [->|Ht].
        - rewrite lookup_insert_eq. by intros [= <-].
        - rewrite lookup_insert_ne by done.
          destruct (DEFAULT_MD_STRING w !! t) as [e0|] eqn:He0; [|done].
          simpl. intros [= <-]. by rewrite (Hfalsy t e0 He0). }
    f_equal. apply map_eq. intros k.
    destruct (decide (k = VERTIGO_MC_HEADER)) as [->|Hk1].
    { by rewrite lookup_delete_eq, Hnod. }
    rewrite lookup_delete_ne by done.
    destruct (decide (k = sysmeta_key trigger mc)) as [->|Hk2].
    { by rewrite lookup_delete_eq, Hnoc. }
    rewrite lookup_delete_ne, lookup_insert_ne by done.
    subst md2. case_match; [rewrite lookup_insert_ne by done|rewrite lookup_delete_ne by done];
      by rewrite lookup_insert_ne. }
  assert (files w1 !! data_file v = Some fd1) as Hp1.
  { subst w1. simpl. by rewrite lookup_insert_eq. }
  destruct (delete_microcontroller_run w1 v trigger mc fd1 (Some md2) md Hp1 Hh1 Hg1 Hmut)
    as (w2 & Hdel & _ & _ & Hg2).
  by exists w1, w2.
Qed.

Lemma with_file_same w p fd : files w !! p = Some fd → with_file w p fd = w.
Proof.
  intros Hp. destruct w as [d fs]. unfold with_file. simpl in *. f_equal.
  by apply insert_id.
Qed.

Lemma set_swift_metadata_refused w p fd e md :
  files w !! p = Some fd → set_faults fd !! SWIFT_METADATA_KEY = Some e →
  set_swift_metadata w p md = (Raise (Codec.write_except e), w).
Proof.
  intros Hp He. unfold Registry.set_swift_metadata. rewrite Hp.
  unfold Codec.write_metadata.
  destruct (pickle_dumps md) as [|b s] eqn:Hd; [by apply dumps_nonempty in Hd|].
  cbn [length Codec.write_loop truthy_list negb Codec.choose_key truthy_str
       SWIFT_METADATA_KEY].
  rewrite CodecFacts.slot_name_0. unfold setxattr.
  change "user.swift.metadata" with SWIFT_METADATA_KEY. rewrite He.
  by rewrite with_file_same.
Qed.

(** X20. Whatever makes the write fail, [delete_microcontroller] reports
    that the handler is not assigned. When the change of the metadata goes
    through but the file system refuses the first attribute write (a full
    disk, say), the call raises the [ValueError] with the not-assigned
    message, and neither the data files nor the default dictionary have
    changed. *)
Theorem failed_delete_reports_not_assigned w v trigger mc fd e got md' :
  files w !! data_file v = Some fd →
  set_faults fd !! SWIFT_METADATA_KEY = Some e →
  get_swift_metadata w (data_file v) = Ok got →
  delete_mutation got trigger mc = Ok md' →
  delete_microcontroller w v trigger mc
  = (Raise (ValueError (msg_not_assigned trigger mc)), w).
Proof.
  intros Hp He Hget Hmut. unfold Registry.delete_microcontroller.
  rewrite Hget, Hmut. by rewrite (set_swift_metadata_refused w (data_file v) fd e md').
Qed.

(** X21. [set_microcontroller] on an object whose metadata cannot be read.
    When the data file is missing, or the first [getxattr] of
    [user.swift.metadata] fails with any [errno], the call raises the
    [ValueError] about getting the trigger dictionary and changes nothing:
    no data file, and not the shared default dictionary either. *)
Theorem set_microcontroller_unreadable w v trigger mc :
  (files w !! data_file v = None
   ∨ ∃ fd e, files w !! data_file v = Some fd
             ∧ getxattr fd SWIFT_METADATA_KEY = Raise (IOError e)) →
  set_microcontroller w v trigger mc = (Raise (ValueError msg_get_dict), w).
Proof.
  intros Hcase.
  assert (∃ e, get_microcontroller_dict w v = Raise e) as [e0 He0].
  { unfold Registry.get_microcontroller_dict, Registry.get_swift_metadata.
    destruct Hcase as [->|(fd & e & -> & He)]; [eauto|].
    unfold Codec.read_metadata.
    cbn [Codec.read_loop Codec.choose_key truthy_str SWIFT_METADATA_KEY].
    rewrite CodecFacts.slot_name_0.
    change "user.swift.metadata" with SWIFT_METADATA_KEY. rewrite He. simpl. eauto. }
  unfold Registry.set_microcontroller. by rewrite He0.
Qed.

End WithPickle.
End RegistryMore.

(** ** More on the proxy handlers *)
Module ProxyMore.
Import Proxy ProxySpec.

Section WithBackend.
Variable backend : Type.
Variable app : backend → request → response * backend.
Variable loads_cached : string → option (gmap string string * string).
Variable apply_storlet_on_get : response → string → Proxy.PM backend response.
Variable eval_header : string → outcome Registry.mc_dict.
Variable str_of_dict : Registry.mc_dict → string.

Abbreviation GET := (Proxy.GET backend app loads_cached apply_storlet_on_get).
Abbreviation MOVE := (Proxy.MOVE backend app).
Abbreviation PUT := (Proxy.PUT backend app).
Abbreviation POST := (Proxy.POST backend app).
Abbreviation HEAD := (Proxy.HEAD backend app eval_header str_of_dict).
Abbreviation pstate := (Proxy.pstate backend).
Abbreviation PM := (Proxy.PM backend).



Lemma cached_no_storlets hs body :
  hs !! "Storlet-List" = None →
  resp_headers (new_response body (<[ "Content-Length" := pretty (String.length body) ]> hs))
    !! "Storlet-List" = None.
Proof.
  intros Hs. cbn [resp_headers new_response]. apply lookup_union_None.
  split; [by rewrite lookup_insert_ne|].
  rewrite lookup_insert_ne by done. by rewrite lookup_singleton_ne.
Qed.


(** X15. A cached object is served without the backend. When the cache
    holds the requested object and the cached headers do not mark it as a
    link, [GET] sends no request: it answers with status 200, the cached
    body and the cached headers, whose [Content-Length] is replaced by the
    length of the cached body. *)
Theorem GET_cache_hit h (s : pstate) req cached hs body ct :
  _check_microcntroller_execution backend h (GET_object_name h) s = (Ok req, s) →
  memcache h !! GET_object_name h = Some cached →
  loads_cached cached = Some (hs, body) →
  hs !! "Content-Type" = Some ct → ct ≠ link_content_type →
  hs !! "Storlet-List" = None →
  GET h s
  = (Ok (new_response body (<[ "Content-Length" := pretty (String.length body) ]> hs)), s).
Proof.
  intros Hchk Hcache Hloads Hct Hne Hst.
  set (r := new_response body (<[ "Content-Length" := pretty (String.length body) ]> hs)).
  assert (resp_headers r !! "Content-Type" = Some ct) as Hct'.
  { apply lookup_union_Some_l. by rewrite lookup_insert_ne. }
  assert (resp_headers r !! "Storlet-List" = None) as Hst'
    by by apply cached_no_storlets.
  assert (is_Some (resp_headers r !! "Content-Length")) as [n Hcl].
  { eexists. apply lookup_union_Some_l. apply lookup_insert_eq. }
  unfold Proxy.GET. fold (GET_object_name h).
  unfold bind at 1. rewrite Hchk.
  unfold bind at 1. unfold _get_cached_object at 1. rewrite Hcache, Hloads.
  unfold ret at 1. unfold bind at 1. unfold ret at 1. fold r.
  unfold bind at 1. rewrite Hct'.
  rewrite bool_decide_eq_false_2 by (intros [= ?]; by apply Hne).
  unfold ret at 1. unfold bind at 1. rewrite Hst'. unfold ret. by rewrite Hcl.
Qed.

(** The [HEAD] sub-request [verify_access] sends for an object. *)
Lemma _verify_access_raises h cont o (s : pstate) :
  let hd := make_subrequest (req_query (request_ h)) "HEAD"
              (join_all [api_version h; account h; cont; o]) (auth_headers h) in
  _verify_access backend app h cont o s
  = (Raise AttributeError,
     {| backend_state := (app (backend_state s) hd).2; issued := issued s ++ [hd] |}).
Proof.
  intros hd. unfold _verify_access, bind, verify_access, bind, get_response. fold hd.
  destruct (app (backend_state s) hd) as [r b]. simpl.
  by destruct (is_success r).
Qed.

(** X16. A move to another path never takes place. When the destination
    differs from the path of the requested object, [MOVE] and the object
    move of [PUT] send one [HEAD] request for the object and then fail with
    an [AttributeError], whatever the backend answered: what
    [verify_access] returns has no attribute [is_success]. No [COPY] is
    sent and no link is created. *)
Theorem move_to_other_path_fails h (s : pstate) dest :
  dest ≠ path_join (container h) (obj h) →
  let hd := make_subrequest (req_query (request_ h)) "HEAD"
              (join_all [api_version h; account h; container h; obj h])
              (auth_headers h) in
  let s' := {| backend_state := (app (backend_state s) hd).2;
               issued := issued s ++ [hd] |} in
  (req_headers (request_ h) !! "Destination" = Some dest →
   MOVE h s = (Raise AttributeError, s'))
  ∧ (is_trigger_assignation h = false → is_trigger_deletion h = false →
     is_object_grouping h = false → is_object_move h = true →
     req_headers (request_ h) !! "X-Vertigo-Link-To" = Some dest →
     PUT h s = (Raise AttributeError, s')).
Proof.
  intros Hne hd s'. split.
  - intros Hd. unfold Proxy.MOVE. unfold bind at 1. unfold header at 1.
    rewrite Hd. unfold ret at 1.
    rewrite bool_decide_eq_true_2 by (intros Heq; by apply Hne).
    unfold bind at 1. by rewrite _verify_access_raises.
  - intros Ha Hdel Hg Hm Hd. unfold Proxy.PUT. rewrite Ha, Hdel, Hg, Hm. cbn [orb].
    unfold Proxy.PUT_object_move. unfold bind at 1. unfold header at 1.
    rewrite Hd. unfold ret at 1.
    rewrite bool_decide_eq_true_2 by (intros Heq; by apply Hne).
    unfold bind at 1. by rewrite _verify_access_raises.
Qed.

Lemma process_objects_fails h md req objs (s : pstate) :
  ∃ e s' new,
    process_objects backend app h md req objs None s = (Raise e, s')
    ∧ (e = AttributeError ∨ e = UnboundLocalError)
    ∧ issued s' = issued s ++ new
    ∧ (length new ≤ 1)%nat
    ∧ Forall (λ q, req_method q = "HEAD" ∨ req_method q = "GET") new.
Proof.
  destruct objs as [|o rest].
  - exists UnboundLocalError, s, []. simpl. rewrite app_nil_r.
    split; [done|]. split; [by right|]. split; [done|]. split; [lia|constructor].
  - cbn [process_objects]. unfold bind at 1. rewrite _verify_access_raises.
    eexists AttributeError, _, [_].
    split; [reflexivity|]. split; [by left|]. split; [reflexivity|]. split; [simpl; lia|].
    constructor; [by left|constructor].
Qed.

(** X17. Assigning or removing triggers through the proxy never reaches
    the object. For a request that is a trigger assignation or deletion,
    [PUT] and [POST] do the same thing, never return a response, and send
    at most two requests, each a [HEAD] or the [GET] of a container
    listing: the request itself is never forwarded. The exception is the
    [AttributeError] of [_verify_access], or [UnboundLocalError] when a
    wildcard matches no object. *)
Theorem trigger_request_is_never_forwarded h (s : pstate) :
  (is_trigger_assignation h || is_trigger_deletion h)%bool = true →
  ∃ e s' new,
    PUT h s = (Raise e, s') ∧ POST h s = (Raise e, s')
    ∧ (e = AttributeError ∨ e = UnboundLocalError)
    ∧ issued s' = issued s ++ new
    ∧ (length new ≤ 2)%nat
    ∧ Forall (λ q, req_method q = "HEAD" ∨ req_method q = "GET") new.
Proof.
  intros Htr. unfold Proxy.POST, Proxy.PUT. rewrite Htr.
  cut (∃ e s' new,
         _process_trigger_assignation_deletion_request backend app h s = (Raise e, s')
         ∧ (e = AttributeError ∨ e = UnboundLocalError)
         ∧ issued s' = issued s ++ new
         ∧ (length new ≤ 2)%nat
         ∧ Forall (λ q, req_method q = "HEAD" ∨ req_method q = "GET") new).
  { intros (e & s' & new & -> & H). by exists e, s', new. }
  unfold _process_trigger_assignation_deletion_request.
  set (req := set_method (request_ h) "PUT"). set (h' := with_request h req).
  destruct (is_trigger_assignation h).
  - unfold bind at 1. unfold bind at 1. rewrite _verify_access_raises.
    eexists AttributeError, _, [_].
    split; [reflexivity|]. split; [by left|]. split; [reflexivity|]. split; [simpl; lia|].
    constructor; [by left|constructor].
  - unfold bind at 1. unfold ret at 1. unfold bind at 1.
    unfold expand_object_list. destruct (contains_char "*" (obj h')).
    + unfold _get_object_list.
      destruct (if bool_decide (obj h' = "*") then _ else _) as [obj_list query].
      unfold bind at 1. unfold get_response at 1.
      set (q := make_subrequest query "GET" _ _).
      destruct (app (backend_state s) q) as [r b]. unfold ret at 1.
      set (s1 := {| backend_state := b; issued := _ |}).
      destruct (process_objects_fails h' (req_body req) req
                  (obj_list ++ filter (λ o, o ≠ "") (split_on (ascii_of_nat 10) (resp_body r)))
                  s1) as (e & s' & new & He & Hcase & Hi & Hl & HP).
      exists e, s', (q :: new). rewrite He, Hi. subst s1. cbn [issued].
      rewrite <-(assoc_L (++)).
      split; [done|]. split; [done|]. split; [done|]. split; [simpl; lia|].
      constructor; [by right|done].
    + unfold ret at 1.
      destruct (process_objects_fails h' (req_body req) req [obj h'] s)
        as (e & s' & new & He & Hcase & Hi & Hl & HP).
      exists e, s', new. split; [done|]. split; [done|]. split; [done|]. split; [lia|done].
Qed.

Lemma prefix_split p : ∀ s, String.prefix p s = true → ∃ rest, s = p +:+ rest.
Proof.
  induction p as [|a p IH]; intros s Hp.
  - by exists s.
  - destruct s as [|b s]; [done|]. simpl in Hp.
    destruct (ascii_dec a b) as [->|]; [|done].
    destruct (IH s Hp) as [rest ->]. by exists rest.
Qed.

Lemma alias_of_sysmeta rest :
  remove_all "X-Object-Sysmeta-" (vertigo_sysmeta_prefix +:+ rest)
  = "Vertigo-" +:+ remove_all "X-Object-Sysmeta-" rest.
Proof. reflexivity. Qed.

Lemma alias_startswith k :
  startswith k vertigo_sysmeta_prefix = true →
  startswith (remove_all "X-Object-Sysmeta-" k) "Vertigo-" = true.
Proof.
  intros Hk. apply prefix_split in Hk as [rest ->]. rewrite alias_of_sysmeta.
  generalize (remove_all "X-Object-Sysmeta-" rest). intros x. by destruct x.
Qed.

Lemma sysmeta_not_public k :
  startswith k vertigo_sysmeta_prefix = true → startswith k "Vertigo-" = false.
Proof. intros Hk. apply prefix_split in Hk as [rest ->]. reflexivity. Qed.

(** The first loop of [HEAD] on the keys of the dictionary it updates:
    it ends, leaves every header whose name does not
    start with [Vertigo-] as it was, changes an entry only if it is the
    alias of an engine header, and leaves under each alias the value of an
    engine header with that alias. *)
Lemma publish_sysmeta_spec keys : ∀ hs hs0 : gmap string string,
  (∀ k, k ∈ keys → is_Some (hs0 !! k)) →
  (∀ k, startswith k "Vertigo-" = false → hs !! k = hs0 !! k) →
  ∃ hs', publish_sysmeta keys hs = Ok hs'
    ∧ (∀ k, startswith k "Vertigo-" = false → hs' !! k = hs0 !! k)
    ∧ (∀ a, (∀ k, k ∈ keys → startswith k vertigo_sysmeta_prefix = true →
                  remove_all "X-Object-Sysmeta-" k ≠ a) →
            hs' !! a = hs !! a)
    ∧ (∀ k, k ∈ keys → startswith k vertigo_sysmeta_prefix = true →
            ∃ k', k' ∈ keys ∧ startswith k' vertigo_sysmeta_prefix = true
                  ∧ remove_all "X-Object-Sysmeta-" k' = remove_all "X-Object-Sysmeta-" k
                  ∧ hs' !! remove_all "X-Object-Sysmeta-" k = hs0 !! k').
Proof.
  induction keys as [|key rest IH]; intros hs hs0 Hdom Hinv.
  - exists hs. split; [done|]. split; [done|]. split; [done|].
    intros k Hk. by apply elem_of_nil in Hk.
  - cbn [publish_sysmeta].
    assert (∀ k, k ∈ rest → is_Some (hs0 !! k)) as Hdom'.
    { intros k Hk. apply Hdom. by apply list_elem_of_further. }
    destruct (startswith key vertigo_sysmeta_prefix) eqn:Hkey.
    + destruct (Hdom key) as [v Hv]; [apply list_elem_of_here|].
      rewrite (Hinv key (sysmeta_not_public key Hkey)), Hv.
      set (alias := remove_all "X-Object-Sysmeta-" key).
      assert (startswith alias "Vertigo-" = true) as Halias by by apply alias_startswith.
      destruct (IH (<[alias := v]> hs) hs0 Hdom') as (hs' & Hrun & H2 & HA & H3).
      { intros k Hk. rewrite lookup_insert_ne; [by apply Hinv|].
        intros <-. by rewrite Halias in Hk. }
      exists hs'. split; [done|]. split; [done|]. split.
      * intros a Ha. rewrite HA.
        -- rewrite lookup_insert_ne; [done|]. apply Ha; [apply list_elem_of_here|done].
        -- intros k Hk. apply Ha. by apply list_elem_of_further.
      * intros k Hk Hpre. apply elem_of_cons in Hk as [->|Hk].
        -- destruct (decide (Exists (λ k', startswith k' vertigo_sysmeta_prefix = true
                                          ∧ remove_all "X-Object-Sysmeta-" k' = alias) rest))
             as [He|He].
           ++ apply Exists_exists in He as (k' & Hin & Hpre' & Hal).
              apply list_elem_of_In in Hin.
              destruct (H3 k' Hin Hpre') as (k'' & Hin'' & Hpre'' & Hal'' & Hval).
              exists k''. split; [by apply list_elem_of_further|]. split; [done|].
              split; [by rewrite Hal'', Hal|]. fold alias. by rewrite <-Hal.
           ++ exists key. split; [apply list_elem_of_here|]. split; [done|].
              split; [done|]. fold alias. rewrite HA.
              ** by rewrite lookup_insert_eq.
              ** intros k' Hin Hpre' Hal. apply He, Exists_exists. exists k'.
                 split; [by apply list_elem_of_In|done].
        -- destruct (H3 k Hk Hpre) as (k' & Hin' & Hpre' & Hal' & Hval).
           exists k'. split; [by apply list_elem_of_further|done].
    + destruct (IH hs hs0 Hdom' Hinv) as (hs' & Hrun & H2 & HA & H3).
      exists hs'. split; [done|]. split; [done|]. split.
      * intros a Ha. apply HA. intros k Hk. apply Ha. by apply list_elem_of_further.
      * intros k Hk Hpre. apply elem_of_cons in Hk as [->|Hk]; [congruence|].
        destruct (H3 k Hk Hpre) as (k' & Hin' & Hpre' & Hal' & Hval).
        exists k'. split; [by apply list_elem_of_further|done].
Qed.

(** X18. What [HEAD] adds to the backend's answer. When the answer carries
    the trigger dictionary in [X-Object-Sysmeta-Vertigo-Microcontroller],
    [eval] reads it, and no other header has the same public name, [HEAD]
    sends the one request, keeps status and body, and returns every header
    whose name does not start with [Vertigo-] as it was; the header
    [Vertigo-Microcontroller] holds the dictionary without the triggers
    that have no handler, and every other engine header whose public name
    is its own is repeated under that name, without the prefix
    [X-Object-Sysmeta-]. *)
Theorem HEAD_publishes h (s : pstate) r b v d :
  app (backend_state s) (request_ h) = (r, b) →
  resp_headers r !! VERTIGO_MC_HEADER = Some v →
  eval_header v = Ok d →
  (∀ k, is_Some (resp_headers r !! k) →
        startswith k vertigo_sysmeta_prefix = true →
        remove_all "X-Object-Sysmeta-" k = public_mc_header → k = VERTIGO_MC_HEADER) →
  ∃ r',
    HEAD h s = (Ok r', {| backend_state := b; issued := issued s ++ [request_ h] |})
    ∧ status_int r' = status_int r ∧ resp_body r' = resp_body r
    ∧ (∀ k, startswith k "Vertigo-" = false →
            resp_headers r' !! k = resp_headers r !! k)
    ∧ resp_headers r' !! public_mc_header
      = Some (str_of_dict (filter (λ kv, Registry.truthy_entry kv.2 = true) d))
    ∧ (∀ k x, resp_headers r !! k = Some x →
              startswith k vertigo_sysmeta_prefix = true → k ≠ VERTIGO_MC_HEADER →
              (∀ k', is_Some (resp_headers r !! k') →
                     startswith k' vertigo_sysmeta_prefix = true →
                     remove_all "X-Object-Sysmeta-" k' = remove_all "X-Object-Sysmeta-" k →
                     k' = k) →
              resp_headers r' !! remove_all "X-Object-Sysmeta-" k = Some x).
Proof.
  intros Happ Hmc Heval Honly.
  set (hs0 := resp_headers r) in *.
  assert (∀ k, k ∈ (map_to_list hs0).*1 ↔ is_Some (hs0 !! k)) as Hkeys.
  { intros k. rewrite list_elem_of_fmap. split.
    - intros ([k' x] & -> & Hin). apply elem_of_map_to_list in Hin. by exists x.
    - intros [x Hx]. exists (k, x). split; [done|]. by apply elem_of_map_to_list. }
  destruct (publish_sysmeta_spec (map_to_list hs0).*1 hs0 hs0)
    as (hs1 & Hrun & H2 & HA & H3); [by intros k Hk; apply Hkeys|done|].
  assert (hs1 !! public_mc_header = Some v) as Hpub.
  { destruct (H3 VERTIGO_MC_HEADER) as (k' & Hin & Hpre & Hal & Hval);
      [by apply Hkeys|done|].
    change (remove_all "X-Object-Sysmeta-" VERTIGO_MC_HEADER) with public_mc_header in *.
    rewrite Hval. rewrite (Honly k'); [done|by apply Hkeys|done|done]. }
  unfold Proxy.HEAD. unfold bind at 1. unfold get_response at 1. rewrite Happ.
  fold hs0. rewrite Hrun, Hpub, Heval. unfold ret.
  eexists. split; [reflexivity|]. cbn [status_int resp_body resp_headers].
  split; [done|]. split; [done|]. split.
  { intros k Hk. rewrite lookup_insert_ne; [by apply H2|]. by intros <-. }
  split; [by rewrite lookup_insert_eq|].
  intros k x Hx Hpre Hne Huniq.
  destruct (H3 k) as (k' & Hin & Hpre' & Hal & Hval); [apply Hkeys; by exists x|done|].
  rewrite lookup_insert_ne.
  - rewrite Hval. rewrite (Huniq k'); [done|by apply Hkeys|done|done].
  - intros Heq. apply Hne, Honly; [by exists x|done|done].
Qed.

End WithBackend.
End ProxyMore.

(** ** The further codec properties on concrete files *)
Module CodecMoreRuns.
Import CodecSpec Samples SampleData MoreSamples.

Lemma read_metadata_first_failure_witness :
  (∀ j c, [[x61; x62]] !! j = Some c →
          getxattr vanishing_file (Codec.slot_name (Codec.choose_key None) j) = Ok c)
  ∧ getxattr vanishing_file
      (Codec.slot_name (Codec.choose_key None) (length [[x61; x62]]))
    = Raise (IOError ENOENT)
  ∧ Codec.read_metadata raw_loads vanishing_file None
    = Codec.read_except raw_loads (concat [[x61; x62]]) ENOENT.
Proof.
  assert (∀ j c, [[x61; x62]] !! j = Some c →
            getxattr vanishing_file (Codec.slot_name (Codec.choose_key None) j) = Ok c)
    as Hc.
  { intros [|j] c Hj; [|destruct j; discriminate Hj].
    injection Hj as <-. vm_compute. reflexivity. }
  assert (getxattr vanishing_file
            (Codec.slot_name (Codec.choose_key None) (length [[x61; x62]]))
          = Raise (IOError ENOENT)) as He by (vm_compute; reflexivity).
  split; [exact Hc|]. split; [exact He|].
  apply (CodecMore.read_metadata_first_failure raw_loads vanishing_file None
           [[x61; x62]] ENOENT Hc He).
Defined.

Lemma read_metadata_fuel_independent_witness :
  (S (size (xattrs abcde_file)) ≤ 10)%nat
  ∧ Codec.read_metadata raw_loads abcde_file None ≠ Diverge
  ∧ Codec.read_loop raw_loads 10 abcde_file (Codec.choose_key None) [] 0
    = Codec.read_metadata raw_loads abcde_file None.
Proof.
  assert (S (size (xattrs abcde_file)) ≤ 10)%nat as Hf by (vm_compute; lia).
  split; [exact Hf|].
  apply (CodecMore.read_metadata_fuel_independent raw_loads abcde_file None 10 Hf).
Defined.

Lemma write_metadata_nonpositive_size_witness :
  (0 ≤ 0)%Z ∧ set_faults fresh_file = ∅ ∧ raw_dumps abcde ≠ []
  ∧ (∀ fuel, (Codec.write_loop fuel fresh_file (Codec.choose_key None) 0
                (raw_dumps abcde) 0).1 = Diverge)
  ∧ (Codec.write_metadata raw_dumps fresh_file abcde 0 None).1 = Diverge.
Proof.
  assert (raw_dumps abcde ≠ []) as Hne by discriminate.
  split; [lia|]. split; [reflexivity|]. split; [exact Hne|].
  apply (CodecMore.write_metadata_nonpositive_size raw_dumps fresh_file abcde 0 None);
    [lia|reflexivity|exact Hne].
Defined.

Lemma write_metadata_fails_midway_witness :
  (0 < 2)%Z
  ∧ (1 < slots_needed 2 (raw_dumps abcde))%nat
  ∧ set_faults full_after_one !! Codec.slot_name (Codec.choose_key None) 1 = Some ENOSPC
  ∧ (∀ i, (i < 1)%nat →
          set_faults full_after_one !! Codec.slot_name (Codec.choose_key None) i = None)
  ∧ ∃ fd', Codec.write_metadata raw_dumps full_after_one abcde 2 None
           = (Raise (Codec.write_except ENOSPC), fd')
    ∧ (∀ i, (i < 1)%nat →
            xattrs fd' !! Codec.slot_name (Codec.choose_key None) i
            = Some (chunk 2 (raw_dumps abcde) i))
    ∧ (∀ name, (∀ i, (i < 1)%nat → name ≠ Codec.slot_name (Codec.choose_key None) i) →
               xattrs fd' !! name = xattrs full_after_one !! name).
Proof.
  assert (1 < slots_needed 2 (raw_dumps abcde))%nat as Hj by (vm_compute; lia).
  assert (set_faults full_after_one !! Codec.slot_name (Codec.choose_key None) 1
          = Some ENOSPC) as He by (vm_compute; reflexivity).
  assert (∀ i, (i < 1)%nat →
            set_faults full_after_one !! Codec.slot_name (Codec.choose_key None) i = None)
    as Hok.
  { intros i Hi. assert (i = 0%nat) as -> by lia. vm_compute. reflexivity. }
  split; [lia|]. split; [exact Hj|]. split; [exact He|]. split; [exact Hok|].
  apply (CodecMore.write_metadata_fails_midway raw_dumps full_after_one abcde 2 None
           1 ENOSPC ltac:(lia) Hj He Hok).
Defined.

Lemma write_metadata_again_witness :
  (0 < 2)%Z ∧ set_faults fresh_file = ∅
  ∧ Codec.write_metadata raw_dumps fresh_file abcde 2 None = (Ok tt, abcde_file)
  ∧ Codec.write_metadata raw_dumps abcde_file abcde 2 None = (Ok tt, abcde_file).
Proof.
  assert (Codec.write_metadata raw_dumps fresh_file abcde 2 None = (Ok tt, abcde_file))
    as Hw by (vm_compute; reflexivity).
  split; [lia|]. split; [reflexivity|]. split; [exact Hw|].
  apply (CodecMore.write_metadata_again raw_dumps fresh_file abcde 2 None abcde_file
           ltac:(lia) eq_refl Hw).
Defined.

Lemma shorter_rewrite_reads_old_tail_witness :
  (0 < 2)%Z ∧ healthy fresh_file
  ∧ (∀ k, xattrs fresh_file !! Codec.slot_name (Codec.choose_key None) k = None)
  ∧ raw_dumps [x7a] ≠ []
  ∧ (slots_needed 2 (raw_dumps [x7a]) ≤ slots_needed 2 (raw_dumps abcde))%nat
  ∧ ∃ fd1 fd2,
      Codec.write_metadata raw_dumps fresh_file abcde 2 None = (Ok tt, fd1)
      ∧ Codec.write_metadata raw_dumps fd1 [x7a] 2 None = (Ok tt, fd2)
      ∧ Codec.read_metadata raw_loads fd2 None
        = loads_outcome raw_loads
            (raw_dumps [x7a]
             ++ drop (slots_needed 2 (raw_dumps [x7a]) * Z.to_nat 2) (raw_dumps abcde)).
Proof.
  assert (healthy fresh_file) as Hh by (split; reflexivity).
  assert (∀ k, xattrs fresh_file !! Codec.slot_name (Codec.choose_key None) k = None)
    as Hfree by (intros k; apply lookup_empty).
  assert (raw_dumps [x7a] ≠ []) as Hne by discriminate.
  assert (slots_needed 2 (raw_dumps [x7a]) ≤ slots_needed 2 (raw_dumps abcde))%nat as Hle
    by (vm_compute; lia).
  split; [lia|]. split; [exact Hh|]. split; [exact Hfree|]. split; [exact Hne|].
  split; [exact Hle|].
  apply (CodecMore.shorter_rewrite_reads_old_tail raw_dumps raw_loads fresh_file
           abcde [x7a] 2 None ltac:(lia) Hh Hfree Hne Hle).
Defined.

End CodecMoreRuns.

(** ** The further registry properties on the sample objects *)
Module RegistryMoreRuns.
Import Registry RegistrySpec Samples SampleData MoreSamples SampleFacts.

Lemma sample_metadata_read :
  get_swift_metadata dot_loads sample_world sample_path = Ok (Some sample_metadata).
Proof. vm_compute. reflexivity. Qed.

Lemma sample_no_dictionary v :
  data_file v = sample_path →
  get_microcontroller_dict dot_loads no_eval sample_world v = Ok None.
Proof.
  intros Hv. unfold get_microcontroller_dict. rewrite Hv, sample_metadata_read.
  reflexivity.
Qed.

Lemma set_microcontroller_stores_body_witness :
  files sample_world !! data_file config_vertigo = Some sample_file
  ∧ healthy sample_file
  ∧ get_swift_metadata dot_loads sample_world (data_file config_vertigo)
    = Ok (Some sample_metadata)
  ∧ get_microcontroller_dict dot_loads no_eval sample_world config_vertigo = Ok None
  ∧ working_dict sample_world None !! "onget" = Some None
  ∧ ∃ w1 md1,
      set_microcontroller dot_dumps dot_loads no_eval sample_world config_vertigo
        "onget" "noop" = (Ok tt, w1)
      ∧ get_swift_metadata dot_loads w1 (data_file config_vertigo) = Ok (Some md1)
      ∧ md1 !! sysmeta_key "onget" "noop"
        = (if truthy_str (rstrip (request_body config_vertigo))
           then Some (VStr (rstrip (request_body config_vertigo))) else None)
      ∧ ∀ k, k ≠ VERTIGO_MC_HEADER → k ≠ sysmeta_key "onget" "noop" →
             md1 !! k = sample_metadata !! k.
Proof.
  assert (files sample_world !! data_file config_vertigo = Some sample_file) as Hfile
    by apply lookup_singleton_eq.
  assert (get_microcontroller_dict dot_loads no_eval sample_world config_vertigo
          = Ok None) as Hgot by (by apply sample_no_dictionary).
  split; [exact Hfile|]. split; [exact RegistryRuns.sample_file_healthy|].
  split; [exact sample_metadata_read|]. split; [exact Hgot|]. split; [reflexivity|].
  apply (RegistryMore.set_microcontroller_stores_body dot_dumps dot_loads no_eval
           (λ md rest, dot_loads_dumps_app md rest) (λ md, dot_dumps_nonempty md)
           sample_world config_vertigo "onget" "noop" sample_file sample_metadata
           None None Hfile RegistryRuns.sample_file_healthy sample_metadata_read
           Hgot eq_refl).
Defined.

Lemma two_objects_no_dictionary v :
  data_file v = sample_path ∨ data_file v = other_path →
  get_microcontroller_dict dot_loads no_eval two_objects_world v = Ok None.
Proof.
  intros [Hv|Hv]; unfold get_microcontroller_dict; rewrite Hv; vm_compute; reflexivity.
Qed.

Lemma default_dictionary_leaks_witness :
  data_file sample_vertigo ≠ data_file other_vertigo
  ∧ files two_objects_world !! data_file sample_vertigo = Some sample_file
  ∧ healthy sample_file
  ∧ files two_objects_world !! data_file other_vertigo = Some sample_file
  ∧ get_microcontroller_dict dot_loads no_eval two_objects_world sample_vertigo = Ok None
  ∧ get_microcontroller_dict dot_loads no_eval two_objects_world other_vertigo = Ok None
  ∧ DEFAULT_MD_STRING two_objects_world !! "onget" = Some None
  ∧ ∃ w1 w2 d2 l,
      set_microcontroller dot_dumps dot_loads no_eval two_objects_world sample_vertigo
        "onget" "noop" = (Ok tt, w1)
      ∧ DEFAULT_MD_STRING w1 !! "onget" = Some (Some ["noop"])
      ∧ set_microcontroller dot_dumps dot_loads no_eval w1 other_vertigo
          "onget" "compress" = (Ok tt, w2)
      ∧ get_microcontroller_dict dot_loads no_eval w2 other_vertigo = Ok (Some d2)
      ∧ d2 !! "onget" = Some (Some l) ∧ "noop" ∈ l ∧ "compress" ∈ l.
Proof.
  assert (data_file sample_vertigo ≠ data_file other_vertigo) as Hne by discriminate.
  assert (files two_objects_world !! data_file sample_vertigo = Some sample_file) as Hf1
    by (vm_compute; reflexivity).
  assert (files two_objects_world !! data_file other_vertigo = Some sample_file) as Hf2
    by (vm_compute; reflexivity).
  assert (get_microcontroller_dict dot_loads no_eval two_objects_world sample_vertigo
          = Ok None) as Hg1 by (apply two_objects_no_dictionary; by left).
  assert (get_microcontroller_dict dot_loads no_eval two_objects_world other_vertigo
          = Ok None) as Hg2 by (apply two_objects_no_dictionary; by right).
  split; [exact Hne|]. split; [exact Hf1|]. split; [exact RegistryRuns.sample_file_healthy|].
  split; [exact Hf2|]. split; [exact Hg1|]. split; [exact Hg2|]. split; [reflexivity|].
  apply (RegistryMore.default_dictionary_leaks dot_dumps dot_loads no_eval
           (λ md rest, dot_loads_dumps_app md rest) (λ md, dot_dumps_nonempty md)
           two_objects_world sample_vertigo other_vertigo "onget" "noop" "compress"
           sample_file sample_file Hne Hf1 RegistryRuns.sample_file_healthy Hf2
           RegistryRuns.sample_file_healthy Hg1 Hg2 eq_refl).
Defined.

Lemma failed_set_updates_default_witness :
  files full_disk_world !! data_file sample_vertigo = Some full_disk_file
  ∧ set_faults full_disk_file !! SWIFT_METADATA_KEY = Some ENOSPC
  ∧ get_microcontroller_dict dot_loads no_eval full_disk_world sample_vertigo = Ok None
  ∧ DEFAULT_MD_STRING full_disk_world !! "onget" = Some None
  ∧ ∃ w1, set_microcontroller dot_dumps dot_loads no_eval full_disk_world sample_vertigo
            "onget" "noop" = (Raise (ValueError msg_set_dict), w1)
      ∧ files w1 = files full_disk_world
      ∧ DEFAULT_MD_STRING w1 !! "onget" = Some (Some (added "noop" None)).
Proof.
  assert (files full_disk_world !! data_file sample_vertigo = Some full_disk_file) as Hfile
    by apply lookup_singleton_eq.
  assert (set_faults full_disk_file !! SWIFT_METADATA_KEY = Some ENOSPC) as He
    by apply lookup_singleton_eq.
  assert (get_microcontroller_dict dot_loads no_eval full_disk_world sample_vertigo
          = Ok None) as Hgot by (vm_compute; reflexivity).
  split; [exact Hfile|]. split; [exact He|]. split; [exact Hgot|]. split; [reflexivity|].
  apply (RegistryMore.failed_set_updates_default dot_dumps dot_loads no_eval
           (λ md, dot_dumps_nonempty md)
           full_disk_world sample_vertigo "onget" "noop" full_disk_file ENOSPC None
           Hfile He Hgot eq_refl).
Defined.

Lemma bound_file_present : files bound_world !! data_file sample_vertigo = Some bound_file.
Proof. vm_compute. reflexivity. Qed.

Lemma bound_file_healthy : healthy bound_file.
Proof. split; vm_compute; reflexivity. Qed.

Lemma delete_everything_witness :
  files bound_world !! data_file sample_vertigo = Some bound_file
  ∧ healthy bound_file
  ∧ get_swift_metadata dot_loads bound_world (data_file sample_vertigo)
    = Ok (Some bound_metadata)
  ∧ ∃ w' md',
      delete_microcontroller dot_dumps dot_loads bound_world sample_vertigo
        "vertigo" "all" = (Ok tt, w')
      ∧ get_swift_metadata dot_loads w' (data_file sample_vertigo) = Ok (Some md')
      ∧ ∀ k, md' !! k = if startswith k SYSMETA_HEADER then None else bound_metadata !! k.
Proof.
  split; [exact bound_file_present|]. split; [exact bound_file_healthy|].
  split; [exact RegistryRuns.bound_world_metadata|].
  apply (RegistryMore.delete_everything dot_dumps dot_loads
           (λ md rest, dot_loads_dumps_app md rest) (λ md, dot_dumps_nonempty md)
           bound_world sample_vertigo bound_file bound_metadata
           bound_file_present bound_file_healthy RegistryRuns.bound_world_metadata).
Defined.

Lemma delete_one_handler_witness :
  "noop" ≠ "all"
  ∧ files bound_world !! data_file sample_vertigo = Some bound_file
  ∧ healthy bound_file
  ∧ get_swift_metadata dot_loads bound_world (data_file sample_vertigo)
    = Ok (Some bound_metadata)
  ∧ bound_metadata !! VERTIGO_MC_HEADER = Some (VDict bound_dict)
  ∧ bound_dict !! "onget" = Some (Some ["noop"])
  ∧ "noop" ∈ ["noop"]
  ∧ ∃ w' md',
      delete_microcontroller dot_dumps dot_loads bound_world sample_vertigo
        "onget" "noop" = (Ok tt, w')
      ∧ get_swift_metadata dot_loads w' (data_file sample_vertigo) = Ok (Some md')
      ∧ md' !! sysmeta_key "onget" "noop" = None
      ∧ (∀ k, k ≠ VERTIGO_MC_HEADER → k ≠ sysmeta_key "onget" "noop" →
              md' !! k = bound_metadata !! k)
      ∧ (∀ t x xs,
           <["onget" := Some (list_remove_first "noop" ["noop"])]> bound_dict !! t
           = Some (Some (x :: xs)) →
           ∃ d', md' !! VERTIGO_MC_HEADER = Some (VDict d')
                 ∧ d' !! t = Some (Some (x :: xs))).
Proof.
  assert ("noop" ≠ "all") as Hne by discriminate.
  assert ("noop" ∈ ["noop"]) as Hin by apply list_elem_of_here.
  split; [exact Hne|]. split; [exact bound_file_present|].
  split; [exact bound_file_healthy|]. split; [exact RegistryRuns.bound_world_metadata|].
  split; [reflexivity|]. split; [reflexivity|]. split; [exact Hin|].
  apply (RegistryMore.delete_one_handler dot_dumps dot_loads
           (λ md rest, dot_loads_dumps_app md rest) (λ md, dot_dumps_nonempty md)
           bound_world sample_vertigo bound_file bound_metadata bound_dict ["noop"]
           "onget" "noop" Hne bound_file_present bound_file_healthy
           RegistryRuns.bound_world_metadata eq_refl eq_refl Hin).
Defined.

Lemma delete_all_of_trigger_witness :
  "onget" ≠ "vertigo"
  ∧ files bound_world !! data_file sample_vertigo = Some bound_file
  ∧ healthy bound_file
  ∧ get_swift_metadata dot_loads bound_world (data_file sample_vertigo)
    = Ok (Some bound_metadata)
  ∧ bound_metadata !! VERTIGO_MC_HEADER = Some (VDict bound_dict)
  ∧ bound_dict !! "onget" = Some (Some ["noop"])
  ∧ ∃ w' md',
      delete_microcontroller dot_dumps dot_loads bound_world sample_vertigo
        "onget" "all" = (Ok tt, w')
      ∧ get_swift_metadata dot_loads w' (data_file sample_vertigo) = Ok (Some md')
      ∧ (∀ mc_k, mc_k ∈ ["noop"] → md' !! sysmeta_key "onget" mc_k = None)
      ∧ (∀ k, k ≠ VERTIGO_MC_HEADER →
              (∀ mc_k, mc_k ∈ ["noop"] → k ≠ sysmeta_key "onget" mc_k) →
              md' !! k = bound_metadata !! k)
      ∧ (∀ d', md' !! VERTIGO_MC_HEADER = Some (VDict d') → d' !! "onget" = Some None)
      ∧ (∀ t x xs, t ≠ "onget" → bound_dict !! t = Some (Some (x :: xs)) →
           ∃ d', md' !! VERTIGO_MC_HEADER = Some (VDict d')
                 ∧ d' !! t = Some (Some (x :: xs))).
Proof.
  assert ("onget" ≠ "vertigo") as Hne by discriminate.
  split; [exact Hne|]. split; [exact bound_file_present|].
  split; [exact bound_file_healthy|]. split; [exact RegistryRuns.bound_world_metadata|].
  split; [reflexivity|]. split; [reflexivity|].
  apply (RegistryMore.delete_all_of_trigger dot_dumps dot_loads
           (λ md rest, dot_loads_dumps_app md rest) (λ md, dot_dumps_nonempty md)
           bound_world sample_vertigo bound_file bound_metadata bound_dict ["noop"]
           "onget" Hne bound_file_present bound_file_healthy
           RegistryRuns.bound_world_metadata eq_refl eq_refl).
Defined.

Lemma default_has_no_handlers :
  ∀ t e, DEFAULT_MD_STRING sample_world !! t = Some e → truthy_entry e = false.
Proof.
  intros t e Ht. simpl in Ht. unfold DEFAULT_MD_STRING_initial in Ht.
  repeat (apply lookup_insert_Some in Ht as [[_ <-]|[_ Ht]]; [reflexivity|]).
  by apply lookup_singleton_Some in Ht as [_ <-].
Qed.

Lemma set_then_delete_restores_witness :
  "noop" ≠ "all"
  ∧ files sample_world !! data_file sample_vertigo = Some sample_file
  ∧ healthy sample_file
  ∧ get_swift_metadata dot_loads sample_world (data_file sample_vertigo)
    = Ok (Some sample_metadata)
  ∧ sample_metadata !! VERTIGO_MC_HEADER = None
  ∧ sample_metadata !! sysmeta_key "onget" "noop" = None
  ∧ DEFAULT_MD_STRING sample_world !! "onget" = Some None
  ∧ (∀ t e, DEFAULT_MD_STRING sample_world !! t = Some e → truthy_entry e = false)
  ∧ ∃ w1 w2,
      set_microcontroller dot_dumps dot_loads no_eval sample_world sample_vertigo
        "onget" "noop" = (Ok tt, w1)
      ∧ delete_microcontroller dot_dumps dot_loads w1 sample_vertigo "onget" "noop"
        = (Ok tt, w2)
      ∧ get_swift_metadata dot_loads w2 (data_file sample_vertigo)
        = Ok (Some sample_metadata).
Proof.
  assert ("noop" ≠ "all") as Hne by discriminate.
  assert (files sample_world !! data_file sample_vertigo = Some sample_file) as Hfile
    by apply lookup_singleton_eq.
  assert (sample_metadata !! sysmeta_key "onget" "noop" = None) as Hnoc
    by (vm_compute; reflexivity).
  split; [exact Hne|]. split; [exact Hfile|]. split; [exact RegistryRuns.sample_file_healthy|].
  split; [exact sample_metadata_read|]. split; [reflexivity|]. split; [exact Hnoc|].
  split; [reflexivity|]. split; [exact default_has_no_handlers|].
  apply (RegistryMore.set_then_delete_restores dot_dumps dot_loads no_eval
           (λ md rest, dot_loads_dumps_app md rest) (λ md, dot_dumps_nonempty md)
           sample_world sample_vertigo sample_file sample_metadata "onget" "noop" None
           Hne Hfile RegistryRuns.sample_file_healthy sample_metadata_read eq_refl Hnoc
           eq_refl default_has_no_handlers).
Defined.

Lemma failed_delete_reports_not_assigned_witness :
  files full_disk_world !! data_file sample_vertigo = Some full_disk_file
  ∧ set_faults full_disk_file !! SWIFT_METADATA_KEY = Some ENOSPC
  ∧ get_swift_metadata dot_loads full_disk_world (data_file sample_vertigo)
    = Ok (Some sample_metadata)
  ∧ delete_mutation (Some sample_metadata) "vertigo" "all"
    = Ok (filter (λ kv, startswith kv.1 SYSMETA_HEADER = false) sample_metadata)
  ∧ delete_microcontroller dot_dumps dot_loads full_disk_world sample_vertigo
      "vertigo" "all"
    = (Raise (ValueError (msg_not_assigned "vertigo" "all")), full_disk_world).
Proof.
  assert (files full_disk_world !! data_file sample_vertigo = Some full_disk_file) as Hfile
    by apply lookup_singleton_eq.
  assert (set_faults full_disk_file !! SWIFT_METADATA_KEY = Some ENOSPC) as He
    by apply lookup_singleton_eq.
  assert (get_swift_metadata dot_loads full_disk_world (data_file sample_vertigo)
          = Ok (Some sample_metadata)) as Hget by (vm_compute; reflexivity).
  split; [exact Hfile|]. split; [exact He|]. split; [exact Hget|]. split; [reflexivity|].
  apply (RegistryMore.failed_delete_reports_not_assigned dot_dumps dot_loads
           (λ md, dot_dumps_nonempty md)
           full_disk_world sample_vertigo "vertigo" "all" full_disk_file ENOSPC
           (Some sample_metadata)
           (filter (λ kv, startswith kv.1 SYSMETA_HEADER = false) sample_metadata)
           Hfile He Hget eq_refl).
Defined.

Lemma set_microcontroller_unreadable_witness :
  (files unreadable_world !! data_file sample_vertigo = None
   ∨ ∃ fd e, files unreadable_world !! data_file sample_vertigo = Some fd
             ∧ getxattr fd SWIFT_METADATA_KEY = Raise (IOError e))
  ∧ set_microcontroller dot_dumps dot_loads no_eval unreadable_world sample_vertigo
      "onget" "noop"
    = (Raise (ValueError msg_get_dict), unreadable_world).
Proof.
  assert (files unreadable_world !! data_file sample_vertigo = None
          ∨ ∃ fd e, files unreadable_world !! data_file sample_vertigo = Some fd
                    ∧ getxattr fd SWIFT_METADATA_KEY = Raise (IOError e)) as Hcase.
  { right. exists unreadable_file, ENOTSUP. split; [apply lookup_singleton_eq|].
    vm_compute. reflexivity. }
  split; [exact Hcase|].
  apply (RegistryMore.set_microcontroller_unreadable dot_dumps dot_loads no_eval
           unreadable_world sample_vertigo "onget" "noop" Hcase).
Defined.

End RegistryMoreRuns.

(** ** The further proxy properties on the sample pipeline *)
Module ProxyMoreRuns.
Import Proxy ProxySpec Samples SampleData MoreSamples.



(** On that backend the link is followed once: the request for the link,
    then one [GET] for its destination, whose body is returned. *)
Lemma marked_link_is_followed_once :
  let g := GET _ marked_link_app no_cache_loads no_storlets link_handler (start_state tt) in
  resp_body <$> (match fst g with Ok r => Some r | _ => None end) = Some "real data"
  ∧ (λ q, (req_method q, req_path q)) <$> issued (snd g)
    = [("GET", "/v1/AUTH_test/c/link"); ("GET", "/v1/AUTH_test/c2/real")].
Proof. vm_compute. done. Qed.

Lemma GET_cache_hit_witness :
  _check_microcntroller_execution _ cached_handler (GET_object_name cached_handler)
    (start_state real_store) = (Ok (request_ cached_handler), start_state real_store)
  ∧ memcache cached_handler !! GET_object_name cached_handler = Some "pickled entry"
  ∧ sample_cache_loads "pickled entry" = Some (cached_headers, "cached data")
  ∧ cached_headers !! "Content-Type" = Some "text/plain"
  ∧ "text/plain" ≠ link_content_type
  ∧ cached_headers !! "Storlet-List" = None
  ∧ GET _ store_app sample_cache_loads no_storlets cached_handler (start_state real_store)
    = (Ok (new_response "cached data"
             (<[ "Content-Length" := pretty (String.length "cached data") ]>
                cached_headers)),
       start_state real_store).
Proof.
  assert ("text/plain" ≠ link_content_type) as Hne by discriminate.
  split; [reflexivity|]. split; [reflexivity|]. split; [reflexivity|].
  split; [reflexivity|]. split; [exact Hne|]. split; [reflexivity|].
  apply (ProxyMore.GET_cache_hit _ store_app sample_cache_loads no_storlets
           cached_handler (start_state real_store) (request_ cached_handler)
           "pickled entry" cached_headers "cached data" "text/plain"
           eq_refl eq_refl eq_refl eq_refl Hne eq_refl).
Defined.

Lemma move_to_other_path_fails_witness :
  "c2/o2" ≠ path_join (container move_away_handler) (obj move_away_handler)
  ∧ req_headers (request_ move_away_handler) !! "Destination" = Some "c2/o2"
  ∧ req_headers (request_ move_away_handler) !! "X-Vertigo-Link-To" = Some "c2/o2"
  ∧ (MOVE _ store_app move_away_handler (start_state real_store)).1 = Raise AttributeError
  ∧ (PUT _ store_app move_away_handler (start_state real_store)).1 = Raise AttributeError
  ∧ (λ q, (req_method q, req_path q))
      <$> issued (MOVE _ store_app move_away_handler (start_state real_store)).2
    = [("HEAD", "/v1/AUTH_test/c/o")].
Proof.
  assert ("c2/o2" ≠ path_join (container move_away_handler) (obj move_away_handler))
    as Hne by discriminate.
  destruct (ProxyMore.move_to_other_path_fails _ store_app move_away_handler
              (start_state real_store) "c2/o2" Hne) as [Hmove Hput].
  split; [exact Hne|]. split; [reflexivity|]. split; [reflexivity|].
  split; [by rewrite (Hmove eq_refl)|].
  split; [by rewrite (Hput eq_refl eq_refl eq_refl eq_refl eq_refl)|].
  rewrite (Hmove eq_refl). reflexivity.
Defined.

Lemma trigger_request_is_never_forwarded_witness :
  (is_trigger_assignation deletion_handler || is_trigger_deletion deletion_handler)%bool
  = true
  ∧ ∃ e s' new,
      PUT _ store_app deletion_handler (start_state real_store) = (Raise e, s')
      ∧ POST _ store_app deletion_handler (start_state real_store) = (Raise e, s')
      ∧ (e = AttributeError ∨ e = UnboundLocalError)
      ∧ issued s' = issued (start_state real_store) ++ new
      ∧ (length new ≤ 2)%nat
      ∧ Forall (λ q, req_method q = "HEAD" ∨ req_method q = "GET") new.
Proof.
  split; [reflexivity|].
  apply (ProxyMore.trigger_request_is_never_forwarded _ store_app deletion_handler
           (start_state real_store) eq_refl).
Defined.

Lemma trigger_headers_alias k :
  is_Some (trigger_headers !! k) →
  startswith k vertigo_sysmeta_prefix = true →
  remove_all "X-Object-Sysmeta-" k = public_mc_header → k = VERTIGO_MC_HEADER.
Proof.
  intros [x Hk] Hpre Hal. unfold trigger_headers in Hk.
  apply lookup_insert_Some in Hk as [[<- _]|[_ Hk]]; [discriminate Hpre|].
  apply lookup_insert_Some in Hk as [[<- _]|[_ Hk]]; [reflexivity|].
  apply lookup_singleton_Some in Hk as [<- _]. vm_compute in Hal. discriminate Hal.
Qed.

Lemma HEAD_publishes_witness :
  store_app (backend_state (start_state trigger_store))
    (request_ (sample_handler "o" curl_headers))
  = (trigger_response, trigger_store)
  ∧ resp_headers trigger_response !! VERTIGO_MC_HEADER = Some stored_dict_text
  ∧ sample_eval stored_dict_text = Ok {[ "onget" := Some ["noop"]; "onput" := None ]}
  ∧ ∃ r',
      HEAD _ store_app sample_eval sample_str (sample_handler "o" curl_headers)
        (start_state trigger_store)
      = (Ok r', {| backend_state := trigger_store;
                   issued := issued (start_state trigger_store)
                             ++ [request_ (sample_handler "o" curl_headers)] |})
      ∧ status_int r' = status_int trigger_response
      ∧ resp_body r' = resp_body trigger_response
      ∧ (∀ k, startswith k "Vertigo-" = false →
              resp_headers r' !! k = resp_headers trigger_response !! k)
      ∧ resp_headers r' !! public_mc_header
        = Some (sample_str (filter (λ kv, Registry.truthy_entry kv.2 = true)
                              {[ "onget" := Some ["noop"]; "onput" := None ]}))
      ∧ (∀ k x, resp_headers trigger_response !! k = Some x →
                startswith k vertigo_sysmeta_prefix = true → k ≠ VERTIGO_MC_HEADER →
                (∀ k', is_Some (resp_headers trigger_response !! k') →
                       startswith k' vertigo_sysmeta_prefix = true →
                       remove_all "X-Object-Sysmeta-" k' = remove_all "X-Object-Sysmeta-" k →
                       k' = k) →
                resp_headers r' !! remove_all "X-Object-Sysmeta-" k = Some x).
Proof.
  assert (store_app (backend_state (start_state trigger_store))
            (request_ (sample_handler "o" curl_headers))
          = (trigger_response, trigger_store)) as Happ by (vm_compute; reflexivity).
  split; [exact Happ|]. split; [reflexivity|]. split; [reflexivity|].
  apply (ProxyMore.HEAD_publishes _ store_app sample_eval sample_str
           (sample_handler "o" curl_headers) (start_state trigger_store)
           trigger_response trigger_store stored_dict_text
           {[ "onget" := Some ["noop"]; "onput" := None ]}
           Happ eq_refl eq_refl trigger_headers_alias).
Defined.

End ProxyMoreRuns.
